(** * bible_search: a shallow embedding of the indexing and query pipelines

    The development follows the Python sources module by module
    ([config], [graph], [insert], [faiss_index], [search], [main]).
    Python values are embedded as [pyval]; every function that can raise
    returns an [outcome]; the process state (Neo4j contents, module globals,
    files, console, log) is threaded explicitly through a small state and
    exception monad [M]. *)

From Stdlib Require Import ZArith Lia.
From Stdlib Require Import Floats.PrimFloat Floats.FloatOps Floats.SpecFloat.
From stdpp Require Import base option list gmap strings sorting.

Set Warnings "-register-all".
Local Open Scope string_scope.
Local Open Scope list_scope.

(* ================================================================== *)
(** ** Python values *)
(* ================================================================== *)

(** The values [json.load] produces and the code passes around.  A Python
    [float] is an IEEE binary64 number. *)
Inductive pyval :=
  | PyNone
  | PyBool (b : bool)
  | PyInt (z : Z)
  | PyFloat (f : float)
  | PyStr (s : string)
  | PyList (l : list pyval)
  | PyDict (d : gmap string pyval).

(** [bool(v)]: the truth value tested by [if v], [not v] and [all]. *)
Definition truthy (v : pyval) : bool :=
  match v with
  | PyNone => false
  | PyBool b => b
  | PyInt z => negb (z =? 0)%Z
  | PyFloat f => negb (PrimFloat.eqb f 0%float)
  | PyStr s => negb (String.eqb s EmptyString)
  | PyList l => negb (Nat.eqb (length l) 0)
  | PyDict d => negb (Nat.eqb (size d) 0)
  end.

(** The signed 64-bit range: what an [int64] and a Neo4j integer hold. *)
Definition in_int64 (z : Z) : bool := ((- 2 ^ 63 <=? z) && (z <? 2 ^ 63))%Z.

(** Whether the Neo4j driver can pack a value as a query parameter: every
    integer in it, at any depth, must be in the signed 64-bit range. *)
Fixpoint packs (v : pyval) : bool :=
  match v with
  | PyInt z => in_int64 z
  | PyList l => forallb packs l
  | PyDict d => map_fold (fun _ x acc => packs x && acc) true d
  | PyNone | PyBool _ | PyFloat _ | PyStr _ => true
  end.

(** Exception classes that occur on the modelled paths.  All of them derive
    from [Exception], so a bare [except Exception] catches each one. *)
Inductive exc :=
  | AttributeError
  | TypeError
  | ValueError
  | OverflowError
  | IndexError
  | KeyError
  | EOFError
  | FileNotFoundError
  | JSONDecodeError
  | OSError
  | ServiceUnavailable   (* neo4j.exceptions: connection could not be verified *)
  | Neo4jError           (* neo4j.exceptions: a request failed on the server *)
  | FaissError           (* RuntimeError raised by the faiss bindings *)
  | ModelError           (* failure inside sentence_transformers *)
  | Abort.               (* click.exceptions.Abort *)

Inductive outcome (A : Type) :=
  | Returned (a : A)
  | Raised (e : exc).
Arguments Returned {A} a.
Arguments Raised {A} e.

(** [dict.get(key)]: [None] when the key is absent; only dictionaries have
    the method. *)
Definition py_get (v : pyval) (key : string) : outcome pyval :=
  match v with
  | PyDict d => Returned (default PyNone (d !! key))
  | _ => Raised AttributeError
  end.

(** [int(f)] for a float: truncation toward zero; NaN and the infinities
    raise. *)
Definition int_of_float (f : float) : outcome Z :=
  match Prim2SF f with
  | S754_zero _ => Returned 0%Z
  | S754_finite s m e =>
      let mag := match e with
                 | Z0 => Zpos m
                 | Zpos p => Z.shiftl (Zpos m) (Zpos p)
                 | Zneg p => Z.shiftr (Zpos m) (Zpos p)
                 end in
      Returned (if s then (- mag)%Z else mag)
  | S754_infinity _ => Raised OverflowError
  | S754_nan => Raised ValueError
  end.

(** [ndarray.astype('float32')] on one component: round to nearest binary32
    (24 bits of precision, maximal exponent 128). *)
Definition astype_float32 (f : float) : float :=
  match Prim2SF f with
  | S754_finite s m e => SF2Prim (binary_round 24 128 s m e)
  | _ => f
  end.

(** An embedding: one row of a 2-D [numpy] array. *)
Definition vec := list float.

(* ================================================================== *)
(** ** Objects handed to the program by its libraries *)
(* ================================================================== *)

(** A loaded [SentenceTransformer]; [encode] takes the list of texts. *)
Record Model := {
  encode : list pyval -> outcome (list vec)
}.

(** A faiss index object.  [search] receives the query matrix and [k] and
    answers the pair [(distances, ids)], one row per query. *)
Inductive Index := mkIndex {
  is_id_map : bool;             (* [isinstance(index, faiss.IndexIDMap)] *)
  ntotal : Z;
  search : list vec -> Z -> outcome (list (list float) * list (list Z));
  add_with_ids : list vec -> list Z -> outcome Index
}.

(** What a path of the file system holds. *)
Inductive FileContent :=
  | Json (v : pyval)            (* a well-formed JSON document *)
  | FaissIndex (idx : Index)    (* a complete index written by faiss *)
  | Truncated.                  (* opened for writing, never completed *)

(* ================================================================== *)
(** ** The Neo4j property graph *)
(* ================================================================== *)

(** Property values Neo4j stores: scalars and arrays of scalars. *)
Inductive scalar :=
  | SBool (b : bool)
  | SInt (z : Z)
  | SFloat (f : float)
  | SStr (s : string).

Inductive value :=
  | Scalar (s : scalar)
  | Array (l : list scalar).

Definition scalar_eqb (a b : scalar) : bool :=
  match a, b with
  | SBool x, SBool y => Bool.eqb x y
  | SInt x, SInt y => (x =? y)%Z
  | SFloat x, SFloat y => PrimFloat.eqb x y
  | SStr x, SStr y => String.eqb x y
  | _, _ => false
  end.

Fixpoint scalars_eqb (l1 l2 : list scalar) : bool :=
  match l1, l2 with
  | [], [] => true
  | a :: l1', b :: l2' => scalar_eqb a b && scalars_eqb l1' l2'
  | _, _ => false
  end.

(** Equality as the pattern of a [MERGE] tests it. *)
Definition value_eqb (a b : value) : bool :=
  match a, b with
  | Scalar x, Scalar y => scalar_eqb x y
  | Array x, Array y => scalars_eqb x y
  | _, _ => false
  end.

Definition same_kind (a b : scalar) : bool :=
  match a, b with
  | SBool _, SBool _ | SInt _, SInt _ | SFloat _, SFloat _ | SStr _, SStr _ => true
  | _, _ => false
  end.

Definition to_scalar (v : pyval) : option scalar :=
  match v with
  | PyBool b => Some (SBool b)
  | PyInt z => Some (SInt z)
  | PyFloat f => Some (SFloat f)
  | PyStr s => Some (SStr s)
  | _ => None
  end.

(** A query parameter as a property value; [None] for what the server
    refuses to store (null, maps, nested or mixed lists). *)
Definition to_value (v : pyval) : option value :=
  match v with
  | PyList l =>
      match mapM to_scalar l with
      | Some (s :: ss) =>
          if forallb (same_kind s) ss then Some (Array (s :: ss)) else None
      | Some [] => Some (Array [])
      | None => None
      end
  | _ => Scalar <$> to_scalar v
  end.

Definition of_scalar (s : scalar) : pyval :=
  match s with
  | SBool b => PyBool b
  | SInt z => PyInt z
  | SFloat f => PyFloat f
  | SStr s => PyStr s
  end.

Definition of_value (v : value) : pyval :=
  match v with
  | Scalar s => of_scalar s
  | Array l => PyList (of_scalar <$> l)
  end.

(** A missing property reads as null. *)
Definition of_property (o : option value) : pyval :=
  match o with Some v => of_value v | None => PyNone end.

Record NodeData := {
  labels : list string;
  props : gmap string value
}.

(** Nodes by their internal id; relationships as (start, type, end). *)
Record Graph := {
  nodes : gmap Z NodeData;
  rels : list (Z * string * Z)
}.

Definition empty_graph : Graph := {| nodes := ∅; rels := [] |}.

Definition has_label (lbl : string) (nd : NodeData) : bool :=
  existsb (String.eqb lbl) (labels nd).

(** Does the node carry every property of the pattern? *)
Definition props_match (pat : list (string * value)) (nd : NodeData) : bool :=
  forallb (fun kv => match props nd !! kv.1 with
                     | Some v' => value_eqb kv.2 v'
                     | None => false
                     end) pat.

Definition node_matches (lbl : string) (pat : list (string * value))
    (nd : NodeData) : bool :=
  has_label lbl nd && props_match pat nd.

(** The nodes a pattern [(x:lbl {pat})] binds. *)
Definition matching (lbl : string) (pat : list (string * value))
    (g : Graph) : gmap Z NodeData :=
  filter (fun p => node_matches lbl pat p.2 = true) (nodes g).

(** An id no node uses: one above the largest (0 in an empty store). *)
Definition fresh_id (ns : gmap Z NodeData) : Z :=
  (1 + foldr Z.max (-1) (map_to_list ns).*1)%Z.

(* ================================================================== *)
(** ** The process state *)
(* ================================================================== *)

Inductive level := INFO | WARNING | ERROR.

(** A log record: the level, the message template as written in the source
    and the values interpolated into it. *)
Record LogRecord := {
  lvl : level;
  template : string;
  args : list pyval
}.

Inductive Driver := Neo4jDriver.

(** The behaviour of the Python run time and of the libraries that the
    program only calls. *)
Record Env := {
  (* [int(s)] for a [str] *)
  int_of_str : string -> outcome Z;
  (* [SentenceTransformer(name)] *)
  SentenceTransformer : string -> outcome Model;
  (* [faiss.IndexFlatL2(dimension)] and [faiss.IndexIDMap(index)] *)
  IndexFlatL2 : Z -> outcome Index;
  IndexIDMap : Index -> outcome Index;
  (* [click.confirm(text)]: the answer and the input left unread *)
  click_confirm : list string -> outcome bool * list string;
  (* [a.astype('int64')] for a [float64] array [a] holding these integers;
     what a component beyond the range becomes is left to the platform *)
  float64_as_int64 : list Z -> list Z
}.

Record World := {
  env : Env;
  neo4j : Graph;                      (* contents of the database *)
  faults : list bool;                 (* per external request: does it fail? *)
  _driver : option Driver;            (* graph._driver *)
  _model : option Model;              (* faiss_index._model *)
  files : gmap string FileContent;
  stdin : list string;
  stdout : list string;
  log : list LogRecord
}.

Definition set_neo4j (g : Graph) (w : World) : World :=
  {| env := env w; neo4j := g; faults := faults w; _driver := _driver w;
     _model := _model w; files := files w; stdin := stdin w;
     stdout := stdout w; log := log w |}.

Definition set_faults (fs : list bool) (w : World) : World :=
  {| env := env w; neo4j := neo4j w; faults := fs; _driver := _driver w;
     _model := _model w; files := files w; stdin := stdin w;
     stdout := stdout w; log := log w |}.

Definition set_driver (d : option Driver) (w : World) : World :=
  {| env := env w; neo4j := neo4j w; faults := faults w; _driver := d;
     _model := _model w; files := files w; stdin := stdin w;
     stdout := stdout w; log := log w |}.

Definition set_model (m : option Model) (w : World) : World :=
  {| env := env w; neo4j := neo4j w; faults := faults w; _driver := _driver w;
     _model := m; files := files w; stdin := stdin w;
     stdout := stdout w; log := log w |}.

Definition set_files (fs : gmap string FileContent) (w : World) : World :=
  {| env := env w; neo4j := neo4j w; faults := faults w; _driver := _driver w;
     _model := _model w; files := fs; stdin := stdin w;
     stdout := stdout w; log := log w |}.

Definition set_stdin (i : list string) (w : World) : World :=
  {| env := env w; neo4j := neo4j w; faults := faults w; _driver := _driver w;
     _model := _model w; files := files w; stdin := i;
     stdout := stdout w; log := log w |}.

Definition set_stdout (o : list string) (w : World) : World :=
  {| env := env w; neo4j := neo4j w; faults := faults w; _driver := _driver w;
     _model := _model w; files := files w; stdin := stdin w;
     stdout := o; log := log w |}.

Definition set_log (l : list LogRecord) (w : World) : World :=
  {| env := env w; neo4j := neo4j w; faults := faults w; _driver := _driver w;
     _model := _model w; files := files w; stdin := stdin w;
     stdout := stdout w; log := l |}.

(** Computations: a result or an exception, and the state left behind.  An
    exception does not undo what was done before it was raised. *)
Definition M (A : Type) : Type := World -> outcome A * World.

Definition ret {A} (a : A) : M A := fun w => (Returned a, w).

Definition raise {A} (e : exc) : M A := fun w => (Raised e, w).

Definition bind {A B} (m : M A) (k : A -> M B) : M B :=
  fun w => match m w with
           | (Returned a, w') => k a w'
           | (Raised e, w') => (Raised e, w')
           end.

(** [try: body except Exception as e: handler]. *)
Definition try_except {A} (body : M A) (handler : exc -> M A) : M A :=
  fun w => match body w with
           | (Returned a, w') => (Returned a, w')
           | (Raised e, w') => handler e w'
           end.

Definition lift {A} (o : outcome A) : M A := fun w => (o, w).

(** [try: x = body  except Exception as e: on_error(e); return ...]: the
    value of the body, or [None] when the handler ran and the caller is to
    return early. *)
Definition attempt {A} (body : M A) (on_error : exc -> M unit) : M (option A) :=
  fun w => match body w with
           | (Returned a, w') => (Returned (Some a), w')
           | (Raised e, w') =>
               match on_error e w' with
               | (Returned _, w'') => (Returned None, w'')
               | (Raised e', w'') => (Raised e', w'')
               end
           end.

Notation "'let*' x ':=' m 'in' k" := (bind m (fun x => k))
  (at level 10, x name, m at level 100, k at level 200).
Notation "m ;; k" := (bind m (fun _ => k))
  (at level 100, k at level 200, right associativity).

Definition logger (l : level) (msg : string) (a : list pyval) : M unit :=
  fun w => (Returned tt,
            set_log (log w ++ [{| lvl := l; template := msg; args := a |}]) w).

(** [print] and [click.echo]. *)
Definition echo (line : string) : M unit :=
  fun w => (Returned tt, set_stdout (stdout w ++ [line]) w).

(** [input(prompt)]: shows the prompt and reads one line; end of input
    raises [EOFError]. *)
Definition input (prompt : string) : M string :=
  fun w => match stdin w with
           | line :: rest =>
               (Returned line, set_stdin rest (set_stdout (stdout w ++ [prompt]) w))
           | [] => (Raised EOFError, set_stdout (stdout w ++ [prompt]) w)
           end.

(** Whether the next request to an external service fails. *)
Definition next_fault : M bool :=
  fun w => match faults w with
           | [] => (Returned false, w)
           | b :: fs => (Returned b, set_faults fs w)
           end.

Definition lower_ascii (c : Ascii.ascii) : Ascii.ascii :=
  let n := Ascii.nat_of_ascii c in
  if (Nat.leb 65 n && Nat.leb n 90)%bool then Ascii.ascii_of_nat (n + 32) else c.

(** [str.lower()]. *)
Fixpoint py_lower (s : string) : string :=
  match s with
  | EmptyString => EmptyString
  | String c s' => String (lower_ascii c) (py_lower s')
  end.

(** The name of an exception class, as interpolated into a log message. *)
Definition exc_arg (e : exc) : pyval :=
  PyStr match e with
        | AttributeError => "AttributeError" | TypeError => "TypeError"
        | ValueError => "ValueError" | OverflowError => "OverflowError"
        | IndexError => "IndexError" | KeyError => "KeyError"
        | EOFError => "EOFError" | FileNotFoundError => "FileNotFoundError"
        | JSONDecodeError => "JSONDecodeError" | OSError => "OSError"
        | ServiceUnavailable => "ServiceUnavailable" | Neo4jError => "Neo4jError"
        | FaissError => "RuntimeError" | ModelError => "ModelError"
        | Abort => "Abort"
        end.

(* ================================================================== *)
(** ** config.py *)
(* ================================================================== *)

Module config.
Definition NEO4J_URI := "bolt://localhost:7687".
Definition NEO4J_USER := "neo4j".
Definition NEO4J_PASSWORD := "password".
Definition EMBEDDING_MODEL := "all-MiniLM-L6-v2".
Definition FAISS_INDEX_PATH := "faiss.index".
Definition ID_MAP_PATH := "id_map.json".
Definition DEFAULT_SEARCH_RESULTS : Z := 5.
End config.

(* ================================================================== *)
(** ** The Cypher statements of the program *)
(* ================================================================== *)

(** A row of a result: the returned columns in order. *)
Definition Row := list (string * pyval).

(** [record[key]]. *)
Definition row_get (r : Row) (key : string) : outcome pyval :=
  match list_find (fun kv => kv.1 = key) r with
  | Some (_, kv) => Returned kv.2
  | None => Raised KeyError
  end.

(** Each statement the sources send, with its parameters. *)
Inductive Cypher :=
  (* MATCH (n) DETACH DELETE n *)
  | DetachDeleteAll
  (* MATCH (v:Verse) WHERE id(v) = $node_id
     MATCH (c:Chapter)-[:HAS_VERSE]->(v)
     MATCH (b:Book)-[:HAS_CHAPTER]->(c)
     RETURN b.name AS book, c.number AS chapter, v.number AS verse, v.text AS text *)
  | VerseById (node_id : Z)
  (* MATCH (v:Verse) RETURN id(v) AS node_id, v.text AS text *)
  | AllVerses
  (* MERGE (b:Book {name: $book_name})
     MERGE (c:Chapter {number: $chapter_num, bookName: $book_name})
     MERGE (v:Verse {number: $verse_num, chapterNumber: $chapter_num, bookName: $book_name})
     ON CREATE SET v.text = $text
     ON MATCH SET v.text = $text
     MERGE (b)-[:HAS_CHAPTER]->(c)
     MERGE (c)-[:HAS_VERSE]->(v) *)
  | MergeVerse (book_name : pyval) (chapter_num verse_num : Z) (text : pyval).

Definition node_is (lbl : string) (i : Z) (g : Graph) : bool :=
  match nodes g !! i with
  | Some nd => has_label lbl nd
  | None => false
  end.

Definition node_prop (i : Z) (key : string) (g : Graph) : pyval :=
  of_property (nodes g !! i ≫= fun nd => props nd !! key).

(** The rows of [VerseById]: one per chapter holding the verse and book
    holding that chapter, enumerated in storage order. *)
Definition verse_rows (node_id : Z) (g : Graph) : list Row :=
  if node_is "Verse" node_id g then
    flat_map (fun cr : Z * string * Z =>
      let '(c, ty, v) := cr in
      if String.eqb ty "HAS_VERSE" && (v =? node_id)%Z && node_is "Chapter" c g then
        flat_map (fun br : Z * string * Z =>
          let '(b, ty', c') := br in
          if String.eqb ty' "HAS_CHAPTER" && (c' =? c)%Z && node_is "Book" b g then
            [[("book", node_prop b "name" g);
              ("chapter", node_prop c "number" g);
              ("verse", node_prop node_id "number" g);
              ("text", node_prop node_id "text" g)]]
          else []) (rels g)
      else []) (rels g)
  else [].

(** The rows of [AllVerses]. *)
Definition all_verse_rows (g : Graph) : list Row :=
  (fun p : Z * NodeData =>
     [("node_id", PyInt p.1); ("text", of_property (props p.2 !! "text"))])
  <$> map_to_list (matching "Verse" [] g).

Definition with_prop (key : string) (v : value) (nd : NodeData) : NodeData :=
  {| labels := labels nd; props := <[key := v]> (props nd) |}.

(** [MERGE (x:lbl {pat})]: bind every node that matches, or create one. *)
Definition merge_node (lbl : string) (pat : list (string * value))
    (g : Graph) : list Z * Graph :=
  match (map_to_list (matching lbl pat g)).*1 with
  | [] =>
      let i := fresh_id (nodes g) in
      ([i], {| nodes := <[i := {| labels := [lbl]; props := list_to_map pat |}]> (nodes g);
               rels := rels g |})
  | found => (found, g)
  end.

(** The same with [ON CREATE SET x.key = v] and [ON MATCH SET x.key = v]. *)
Definition merge_node_set (lbl : string) (pat : list (string * value))
    (key : string) (v : value) (g : Graph) : list Z * Graph :=
  match (map_to_list (matching lbl pat g)).*1 with
  | [] =>
      let i := fresh_id (nodes g) in
      ([i], {| nodes := <[i := with_prop key v
                                 {| labels := [lbl]; props := list_to_map pat |}]> (nodes g);
               rels := rels g |})
  | found =>
      (found, {| nodes := (fun nd => if node_matches lbl pat nd
                                     then with_prop key v nd else nd) <$> nodes g;
                 rels := rels g |})
  end.

(** [MERGE (a)-[:ty]->(b)] for one pair of bound nodes. *)
Definition merge_rel (r : Z * string * Z) (g : Graph) : Graph :=
  if bool_decide (r ∈ rels g) then g
  else {| nodes := nodes g; rels := rels g ++ [r] |}.

Definition book_pattern (book : value) : list (string * value) :=
  [("name", book)].

Definition chapter_pattern (book : value) (chapter : Z) : list (string * value) :=
  [("number", Scalar (SInt chapter)); ("bookName", book)].

Definition verse_pattern (book : value) (chapter verse : Z) : list (string * value) :=
  [("number", Scalar (SInt verse)); ("chapterNumber", Scalar (SInt chapter));
   ("bookName", book)].

(** The effect of [MergeVerse] on the store. *)
Definition merge_verse (book : value) (chapter verse : Z) (text : value)
    (g : Graph) : Graph :=
  let '(bs, g1) := merge_node "Book" (book_pattern book) g in
  let '(cs, g2) := merge_node "Chapter" (chapter_pattern book chapter) g1 in
  let '(vs, g3) :=
    merge_node_set "Verse" (verse_pattern book chapter verse) "text" text g2 in
  let g4 := foldl (fun g r => merge_rel r g) g3
              (flat_map (fun b => (fun c => (b, "HAS_CHAPTER", c)) <$> cs) bs) in
  foldl (fun g r => merge_rel r g) g4
    (flat_map (fun c => (fun v => (c, "HAS_VERSE", v)) <$> vs) cs).

(** What the server does with a statement: the rows and the new store, or
    an error when a parameter cannot be a property value. *)
Definition cypher_exec (q : Cypher) (g : Graph) : outcome (list Row * Graph) :=
  match q with
  | DetachDeleteAll => Returned ([], empty_graph)
  | VerseById node_id => Returned (verse_rows node_id g, g)
  | AllVerses => Returned (all_verse_rows g, g)
  | MergeVerse book_name chapter_num verse_num text =>
      match to_value book_name, to_value text with
      | Some b, Some t => Returned ([], merge_verse b chapter_num verse_num t g)
      | _, _ => Raised Neo4jError
      end
  end.

(** Whether the driver can pack the parameters of a statement. *)
Definition params_pack (q : Cypher) : bool :=
  match q with
  | DetachDeleteAll | AllVerses => true
  | VerseById node_id => in_int64 node_id
  | MergeVerse book_name chapter_num verse_num text =>
      packs book_name && in_int64 chapter_num && in_int64 verse_num && packs text
  end.

(** [session.run(query, parameters)] with the rows consumed.  The driver
    raises [OverflowError] inside the call for a parameter with an integer
    outside the signed 64-bit range; nothing reaches the server then. *)
Definition session_run (q : Cypher) : M (list Row) :=
  let* failed := next_fault in
  if failed : bool then raise Neo4jError
  else if negb (params_pack q) then raise OverflowError
  else fun w =>
    match cypher_exec q (neo4j w) with
    | Returned (rows, g') => (Returned rows, set_neo4j g' w)
    | Raised e => (Raised e, w)
    end.

(* ================================================================== *)
(** ** graph.py *)
(* ================================================================== *)

Module graph.

(** The driver is assigned to the global before its connectivity is
    verified, so a failed verification leaves the global set. *)
Definition get_driver : M Driver :=
  fun w =>
    match _driver w with
    | Some d => (Returned d, w)
    | None =>
        try_except
          (logger INFO "Connecting to Neo4j at {config.NEO4J_URI}"
                  [PyStr config.NEO4J_URI] ;;
           (fun w => (Returned tt, set_driver (Some Neo4jDriver) w)) ;;
           let* failed := next_fault in
           if failed : bool then raise ServiceUnavailable
           else logger INFO "Successfully connected to Neo4j." [] ;;
                ret Neo4jDriver)
          (fun e =>
             logger ERROR "Failed to connect to Neo4j: {e}" [exc_arg e] ;;
             raise e)
          w
    end.

Definition run_query (query : Cypher) : M (list Row) :=
  let* driver := get_driver in
  try_except
    (session_run query)
    (fun e =>
       logger ERROR
         "Error executing Cypher query: {query} with params {parameters}. Error: {e}"
         [exc_arg e] ;;
       ret []).

Definition clear_all_data : M bool :=
  logger WARNING "Attempting to clear all data from the database." [] ;;
  let* confirmation := input "Are you sure you want to delete ALL data? (yes/no): " in
  if String.eqb (py_lower confirmation) "yes" then
    try_except
      (run_query DetachDeleteAll ;;
       logger INFO "Successfully cleared all data from the database." [] ;;
       ret true)
      (fun e =>
         logger ERROR "Failed to clear database: {e}" [exc_arg e] ;;
         ret false)
  else
    logger INFO "Database clear operation cancelled." [] ;;
    ret false.

Definition get_verse_by_id (node_id : Z) : M (option Row) :=
  try_except
    (let* result := run_query (VerseById node_id) in
     match result with
     | r :: _ => ret (Some r)
     | [] =>
         logger WARNING "Verse with node ID {node_id} not found." [PyInt node_id] ;;
         ret None
     end)
    (fun e =>
       logger ERROR "Error fetching verse by ID {node_id}: {e}"
              [PyInt node_id; exc_arg e] ;;
       ret None).

(** [[(record["node_id"], record["text"]) for record in results]]. *)
Fixpoint id_text_pairs (results : list Row) : outcome (list (pyval * pyval)) :=
  match results with
  | [] => Returned []
  | record :: rest =>
      match row_get record "node_id", row_get record "text" with
      | Returned i, Returned t =>
          match id_text_pairs rest with
          | Returned l => Returned ((i, t) :: l)
          | Raised e => Raised e
          end
      | Raised e, _ | _, Raised e => Raised e
      end
  end.

Definition get_all_verses_for_indexing : M (list (pyval * pyval)) :=
  try_except
    (let* results := run_query AllVerses in
     lift (id_text_pairs results))
    (fun e =>
       logger ERROR "Failed to fetch all verses for indexing: {e}" [exc_arg e] ;;
       ret []).

(** [_driver.close()] is taken not to fail. *)
Definition close_driver : M unit :=
  fun w =>
    match _driver w with
    | Some _ =>
        (logger INFO "Closing Neo4j driver connection." [] ;;
         (fun w => (Returned tt, set_driver None w))) w
    | None => (Returned tt, w)
    end.

End graph.

(* ================================================================== *)
(** ** insert.py *)
(* ================================================================== *)

(** [int(v)]. *)
Definition py_int (E : Env) (v : pyval) : outcome Z :=
  match v with
  | PyInt z => Returned z
  | PyBool b => Returned (Z.b2z b)
  | PyFloat f => int_of_float f
  | PyStr s => int_of_str E s
  | PyNone | PyList _ | PyDict _ => Raised TypeError
  end.

(** [len(v)]. *)
Definition py_len (v : pyval) : outcome Z :=
  match v with
  | PyList l => Returned (Z.of_nat (length l))
  | PyDict d => Returned (Z.of_nat (size d))
  | PyStr s => Returned (Z.of_nat (String.length s))
  | _ => Raised TypeError
  end.

(** The items a [for] loop sees. *)
Definition py_iter (v : pyval) : outcome (list pyval) :=
  match v with
  | PyList l => Returned l
  | PyDict d => Returned (PyStr <$> (map_to_list d).*1)
  | PyStr s => Returned ((fun c => PyStr (String c EmptyString)) <$> String.list_ascii_of_string s)
  | _ => Raised TypeError
  end.

(** [with open(path) as f: json.load(f)]. *)
Definition read_json (path : string) : M pyval :=
  fun w => match files w !! path with
           | None => (Raised FileNotFoundError, w)
           | Some (Json v) => (Returned v, w)
           | Some _ => (Raised JSONDecodeError, w)
           end.

Module insert.

(** One turn of the loop over [bible_data]; [counts] is
    [(inserted_count, skipped_count)]. *)
Definition insert_verse (verse_data : pyval) (counts : Z * Z) : M (Z * Z) :=
  let* book_name := lift (py_get verse_data "book") in
  let* chapter_num := lift (py_get verse_data "chapter") in
  let* verse_num := lift (py_get verse_data "verse") in
  let* text := lift (py_get verse_data "text") in
  if negb (forallb truthy [book_name; chapter_num; verse_num; text]) then
    logger WARNING "Skipping invalid verse data: {verse_data}" [verse_data] ;;
    ret (counts.1, (counts.2 + 1)%Z)
  else
    (* the parameters are built before the [try] *)
    let* c := (fun w => (py_int (env w) chapter_num, w)) in
    let* v := (fun w => (py_int (env w) verse_num, w)) in
    try_except
      (session_run (MergeVerse book_name c v text) ;;
       ret ((counts.1 + 1)%Z, counts.2))
      (fun e =>
         logger ERROR
           "Failed to insert verse {book_name} {chapter_num}:{verse_num}. Error: {e}"
           [book_name; chapter_num; verse_num; exc_arg e] ;;
         ret (counts.1, (counts.2 + 1)%Z)).

Fixpoint insert_loop (items : list pyval) (counts : Z * Z) : M (Z * Z) :=
  match items with
  | [] => ret counts
  | verse_data :: rest =>
      let* counts' := insert_verse verse_data counts in
      insert_loop rest counts'
  end.

Definition insert_bible_data (json_file_path : string) : M unit :=
  let* loaded :=
    try_except
      (let* bible_data := read_json json_file_path in
       let* n := lift (py_len bible_data) in
       logger INFO "Successfully loaded {len(bible_data)} verses from {json_file_path}"
              [PyInt n; PyStr json_file_path] ;;
       ret (Some bible_data))
      (fun e =>
         match e with
         | FileNotFoundError =>
             logger ERROR "Error: Bible data file not found at {json_file_path}"
                    [PyStr json_file_path]
         | JSONDecodeError =>
             logger ERROR "Error: Could not decode JSON from {json_file_path}"
                    [PyStr json_file_path]
         | _ =>
             logger ERROR "An unexpected error occurred while reading the file: {e}"
                    [exc_arg e]
         end ;;
         ret None) in
  match loaded with
  | None => ret tt
  | Some bible_data =>
      (* a driver object is always true, so [if not driver] never fires *)
      let* driver := graph.get_driver in
      logger INFO "Starting data insertion into Neo4j..." [] ;;
      let* items := lift (py_iter bible_data) in
      let* counts := insert_loop items (0%Z, 0%Z) in
      logger INFO "Data insertion complete. Inserted: {inserted_count}, Skipped: {skipped_count}"
             [PyInt counts.1; PyInt counts.2]
  end.

End insert.

(* ================================================================== *)
(** ** faiss_index.py *)
(* ================================================================== *)

(** [np.array(node_ids).astype('int64')]; the column is [id(v)], so only
    integers occur. *)
Definition as_int64 (E : Env) (node_ids : list pyval) : outcome (list Z) :=
  match mapM (fun v => match v with PyInt z => Some z | _ => None end) node_ids with
  | None => Raised TypeError
  | Some ids =>
      if forallb in_int64 ids then
        (* an [int64] array from the start *)
        Returned ids
      else if forallb (fun z => (2 ^ 63 <=? z) && (z <? 2 ^ 64))%Z ids then
        (* a [uint64] array: the conversion wraps around *)
        Returned ((fun z => z - 2 ^ 64)%Z <$> ids)
      else if forallb (fun z => (- 2 ^ 63 <=? z) && (z <? 2 ^ 64))%Z ids then
        (* [int64] and [uint64] components together: a [float64] array *)
        Returned (float64_as_int64 E ids)
      else
        (* an array of objects: the conversion of each component raises *)
        Raised OverflowError
  end.

(** [np.array(embeddings).astype('float32')] followed by the read of
    [shape[1]]: the rows and their common length. *)
Definition as_float32_matrix (rows : list vec) : outcome (list vec * Z) :=
  match rows with
  | [] => Raised IndexError
  | r :: _ =>
      if forallb (fun r' => Nat.eqb (length r') (length r)) rows then
        Returned (map (map astype_float32) rows, Z.of_nat (length r))
      else Raised ValueError
  end.

(** [faiss.write_index(index, path)]: the destination is opened for
    writing, which empties it, then filled and closed.  A failure to open
    and a failed write raise.  Data that is still buffered when the file
    is closed can be lost there: faiss reports that on the error stream
    without raising, so the call returns normally over an incomplete
    file. *)
Definition write_index (index : Index) (path : string) : M unit :=
  let* open_failed := next_fault in
  if open_failed : bool then raise FaissError
  else
    (fun w => (Returned tt, set_files (<[path := Truncated]> (files w)) w)) ;;
    let* write_failed := next_fault in
    if write_failed : bool then raise FaissError
    else
      let* close_failed := next_fault in
      if close_failed : bool then ret tt
      else fun w => (Returned tt, set_files (<[path := FaissIndex index]> (files w)) w).

(** [faiss.read_index(path)]. *)
Definition read_index (path : string) : M Index :=
  fun w => match files w !! path with
           | Some (FaissIndex idx) => (Returned idx, w)
           | _ => (Raised FaissError, w)
           end.

(** [os.path.exists(path)]. *)
Definition path_exists (path : string) : M bool :=
  fun w => (Returned (bool_decide (is_Some (files w !! path))), w).

Module faiss_index.

Definition get_embedding_model : M Model :=
  fun w =>
    match _model w with
    | Some m => (Returned m, w)
    | None =>
        try_except
          (logger INFO "Loading sentence transformer model: {config.EMBEDDING_MODEL}"
                  [PyStr config.EMBEDDING_MODEL] ;;
           let* m := (fun w => (SentenceTransformer (env w) config.EMBEDDING_MODEL, w)) in
           (fun w => (Returned tt, set_model (Some m) w)) ;;
           logger INFO "Sentence transformer model loaded successfully." [] ;;
           ret m)
          (fun e =>
             logger ERROR "Failed to load sentence transformer model: {e}" [exc_arg e] ;;
             raise e)
          w
    end.

(** Step 2 of the build: the body of its [try]. *)
Definition generate_embeddings (texts : list pyval) : M (list vec * Z) :=
  let* model := get_embedding_model in
  logger INFO "Generating embeddings for verses..." [] ;;
  let* embeddings := lift (encode model texts) in
  let* shaped := lift (as_float32_matrix embeddings) in
  logger INFO "Generated {embeddings.shape[0]} embeddings with dimension {embeddings.shape[1]}."
         [PyInt (Z.of_nat (length shaped.1)); PyInt shaped.2] ;;
  ret shaped.

(** Step 3 of the build: the body of its [try]. *)
Definition build_index (dimension : Z) (embeddings : list vec)
    (node_ids : list pyval) : M Index :=
  let* index := (fun w => (IndexFlatL2 (env w) dimension, w)) in
  let* index_mapped := (fun w => (IndexIDMap (env w) index, w)) in
  let* ids := (fun w => (as_int64 (env w) node_ids, w)) in
  let* index_mapped := lift (add_with_ids index_mapped embeddings ids) in
  logger INFO "FAISS index built successfully. Total vectors indexed: {index_mapped.ntotal}"
         [PyInt (ntotal index_mapped)] ;;
  ret index_mapped.

(** Step 4 of the build: the body of its [try]. *)
Definition save_index (index_mapped : Index) : M unit :=
  logger INFO "Saving FAISS index to {config.FAISS_INDEX_PATH}"
         [PyStr config.FAISS_INDEX_PATH] ;;
  write_index index_mapped config.FAISS_INDEX_PATH ;;
  logger INFO "FAISS index saved successfully." [].

Definition build_and_save_index : M bool :=
  logger INFO "Starting FAISS index building process..." [] ;;
  logger INFO "Fetching verses from Neo4j..." [] ;;
  let* verses_data := graph.get_all_verses_for_indexing in
  match verses_data with
  | [] =>
      logger WARNING "No verses found in Neo4j. Cannot build FAISS index." [] ;;
      ret false
  | _ :: _ =>
      let node_ids := verses_data.*1 in
      let texts := verses_data.*2 in
      logger INFO "Fetched {len(texts)} verses." [PyInt (Z.of_nat (length texts))] ;;
      (* 2. embeddings *)
      let* step2 :=
        attempt (generate_embeddings texts)
          (fun e => logger ERROR "Error during embedding generation: {e}" [exc_arg e]) in
      match step2 with
      | None => ret false
      | Some (embeddings, dimension) =>
          (* 3. index *)
          let* step3 :=
            attempt (build_index dimension embeddings node_ids)
              (fun e => logger ERROR "Error building FAISS index: {e}" [exc_arg e]) in
          match step3 with
          | None => ret false
          | Some index_mapped =>
              (* 4. save *)
              let* step4 :=
                attempt (save_index index_mapped)
                  (fun e => logger ERROR "Error saving FAISS index: {e}" [exc_arg e]) in
              match step4 with
              | None => ret false
              | Some _ =>
                  logger INFO "FAISS index building and saving process completed." [] ;;
                  ret true
              end
          end
      end
  end.

(** Returns [(index, model)], or [(None, None)] when loading failed. *)
Definition load_faiss_index : M (option Index * option Model) :=
  logger INFO "Loading FAISS index and model..." [] ;;
  let* present := path_exists config.FAISS_INDEX_PATH in
  if negb present then
    logger ERROR
      "FAISS index file not found at {config.FAISS_INDEX_PATH}. Please build the index first."
      [PyStr config.FAISS_INDEX_PATH] ;;
    ret (None, None)
  else
    let* loaded :=
      attempt
        (logger INFO "Loading FAISS index from {config.FAISS_INDEX_PATH}"
                [PyStr config.FAISS_INDEX_PATH] ;;
         let* index := read_index config.FAISS_INDEX_PATH in
         logger INFO
           "FAISS index loaded successfully. Index type: {type(index)}, Total vectors: {index.ntotal}"
           [PyInt (ntotal index)] ;;
         (if is_id_map index then ret tt
          else logger WARNING
                 "Loaded index is not an IndexIDMap. ID mapping might be incorrect if not handled properly."
                 []) ;;
         ret index)
        (fun e => logger ERROR "Error loading FAISS index: {e}" [exc_arg e]) in
    match loaded with
    | None => ret (None, None)
    | Some index =>
        let* model :=
          attempt get_embedding_model
            (fun e =>
               logger ERROR "Failed to load embedding model during index load: {e}"
                      [exc_arg e]) in
        match model with
        | None => ret (None, None)
        | Some model =>
            logger INFO "FAISS index and model loaded successfully." [] ;;
            ret (Some index, Some model)
        end
    end.

End faiss_index.

(* ================================================================== *)
(** ** search.py *)
(* ================================================================== *)

(** [array.size] of a 2-D array. *)
Definition array_size {A} (rows : list (list A)) : nat :=
  length (concat rows).

(** The dictionary [{"node_id": ..., "distance": ...}] of one hit.  The
    search always sets both keys. *)
Record Hit := {
  node_id : Z;
  distance : float
}.

Module search.

(** The loop over [range(len(ids[0]))]: slot [i] pairs [ids[0][i]] with
    [distances[0][i]]; the placeholder id -1 is dropped. *)
Fixpoint collect_hits (ids0 : list Z) (distances0 : list float)
    : outcome (list Hit) :=
  match ids0 with
  | [] => Returned []
  | i :: ids' =>
      match distances0 with
      | [] => Raised IndexError
      | d :: distances' =>
          match collect_hits ids' distances' with
          | Returned results =>
              if (i =? -1)%Z then Returned results
              else Returned ({| node_id := i; distance := d |} :: results)
          | Raised e => Raised e
          end
      end
  end.

Definition search_similar_verses (query : string) (index : option Index)
    (model : option Model) (k : Z) : M (list Hit) :=
  if String.eqb query EmptyString then
    logger WARNING "Search query is empty." [] ;;
    ret []
  else
    match index, model with
    | Some index, Some model =>
        try_except
          (logger INFO "Encoding search query: '{query}'" [PyStr query] ;;
           let* encoded := lift (encode model [PyStr query]) in
           let* first := lift (match encoded with
                               | v :: _ => Returned v
                               | [] => Raised IndexError
                               end) in
           let query_embedding := [map astype_float32 first] in
           logger INFO "Searching FAISS index for {k} nearest neighbors..." [PyInt k] ;;
           let* found := lift (search index query_embedding k) in
           let distances := found.1 in
           let ids := found.2 in
           if (Nat.ltb 0 (array_size ids) && Nat.ltb 0 (array_size distances))%bool then
             let* results :=
               lift (match ids, distances with
                     | ids0 :: _, distances0 :: _ => collect_hits ids0 distances0
                     | _, _ => Raised IndexError
                     end) in
             logger INFO "Found {len(results)} similar verses in FAISS."
                    [PyInt (Z.of_nat (length results))] ;;
             ret results
           else
             logger INFO "No results found in FAISS for the query." [] ;;
             ret [])
          (fun e =>
             logger ERROR "Error during FAISS search for query '{query}': {e}"
                    [PyStr query; exc_arg e] ;;
             ret [])
    | _, _ =>
        logger ERROR "FAISS index or model is not loaded. Cannot perform search." [] ;;
        ret []
    end.

(** [dict(verse_info)] with the key ['distance'] added. *)
Definition verse_detail (verse_info : Row) (d : float) : gmap string pyval :=
  <["distance" := PyFloat d]> (list_to_map verse_info).

(** The loop over [faiss_results], appending to [detailed_results].  A
    hit built by the search always has a [node_id], so the test
    [node_id is not None] holds; a record is true when it has a column. *)
Fixpoint details_loop (faiss_results : list Hit)
    (detailed_results : list (gmap string pyval))
    : M (list (gmap string pyval)) :=
  match faiss_results with
  | [] => ret detailed_results
  | result :: rest =>
      let* verse_info := graph.get_verse_by_id (node_id result) in
      match verse_info with
      | Some (col :: cols) =>
          details_loop rest
            (detailed_results ++ [verse_detail (col :: cols) (distance result)])
      | _ =>
          logger WARNING "Could not retrieve details for Neo4j node ID {node_id}"
                 [PyInt (node_id result)] ;;
          details_loop rest detailed_results
      end
  end.

Definition get_verse_details_from_neo4j (faiss_results : list Hit)
    : M (list (gmap string pyval)) :=
  match faiss_results with
  | [] => ret []
  | _ :: _ =>
      logger INFO "Fetching details for {len(faiss_results)} verses from Neo4j..."
             [PyInt (Z.of_nat (length faiss_results))] ;;
      let* detailed_results := details_loop faiss_results [] in
      logger INFO "Successfully fetched details for {len(detailed_results)} verses."
             [PyInt (Z.of_nat (length detailed_results))] ;;
      ret detailed_results
  end.

(** [result[key]]. *)
Definition dict_getitem (d : gmap string pyval) (key : string) : outcome pyval :=
  match d !! key with
  | Some v => Returned v
  | None => Raised KeyError
  end.

(** Whether [f"{v:.4f}"] formats: numbers do, every other value raises. *)
Definition format_4f (v : pyval) : outcome unit :=
  match v with
  | PyFloat _ | PyInt _ | PyBool _ => Returned tt
  | PyStr _ => Raised ValueError
  | PyNone | PyList _ | PyDict _ => Raised TypeError
  end.

(** The three lines printed for each result.  A line is recorded by its
    template. *)
Fixpoint print_results (detailed_results : list (gmap string pyval)) : M unit :=
  match detailed_results with
  | [] => ret tt
  | result :: rest =>
      let* book := lift (dict_getitem result "book") in
      let* chapter := lift (dict_getitem result "chapter") in
      let* verse := lift (dict_getitem result "verse") in
      echo "{i+1}. {result['book']} {result['chapter']}:{result['verse']}" ;;
      let* text := lift (dict_getitem result "text") in
      echo "   Text: {result['text']}" ;;
      let* d := lift (dict_getitem result "distance") in
      lift (format_4f d) ;;
      echo "   Similarity Score (Distance): {result['distance']:.4f}" ;;
      print_results rest
  end.

(** How one turn of the loop of the shell ends. *)
Inductive flow := Continue | Break.

Section Shell.

(** [str.strip()]. *)
Variable py_strip : string -> string.

(** The body of [while True].  [KeyboardInterrupt] is not an [Exception]
    and is not modelled. *)
Definition shell_turn (index : Index) (model : Model) : M flow :=
  try_except
    (let* line := input "\nSearch> " in
     let query := py_strip line in
     if String.eqb (py_lower query) "exit" || String.eqb (py_lower query) "quit" then
       echo "Exiting search shell." ;;
       ret Break
     else if String.eqb query EmptyString then ret Continue
     else
       let* faiss_results :=
         search_similar_verses query (Some index) (Some model)
           config.DEFAULT_SEARCH_RESULTS in
       match faiss_results with
       | [] =>
           echo "No similar verses found." ;;
           ret Continue
       | _ :: _ =>
           let* detailed_results := get_verse_details_from_neo4j faiss_results in
           match detailed_results with
           | _ :: _ =>
               echo "\n--- Search Results ---" ;;
               print_results detailed_results
           | [] => echo "Could not retrieve details for the found verses."
           end ;;
           ret Continue
       end)
    (fun e =>
       logger ERROR "An error occurred in the search shell: {e}" [exc_arg e] ;;
       echo "An error occurred: {e}" ;;
       ret Continue).

(** The loop, run for at most [fuel] turns: [None] when it is still
    running after them. *)
Fixpoint shell_loop (fuel : nat) (index : Index) (model : Model) : M (option unit) :=
  match fuel with
  | O => ret None
  | S fuel' =>
      let* f := shell_turn index model in
      match f with
      | Break => ret (Some tt)
      | Continue => shell_loop fuel' index model
      end
  end.

Definition run_search_shell (fuel : nat) : M (option unit) :=
  logger INFO "Initializing search shell..." [] ;;
  let* loaded := faiss_index.load_faiss_index in
  match loaded with
  | (Some index, Some model) =>
      echo "\n--- Bible Natural Language Search Shell ---" ;;
      echo "Enter your search query (e.g., 'love your neighbor')." ;;
      echo "Type 'exit' or 'quit' to leave." ;;
      shell_loop fuel index model
  | _ =>
      logger ERROR "Failed to load FAISS index or model. Search shell cannot start." [] ;;
      echo "Error: Could not load necessary search components. Please build the index first using 'build-faiss-index'." ;;
      ret (Some tt)
  end.

End Shell.

End search.

(* ================================================================== *)
(** ** main.py *)
(* ================================================================== *)

Module main.

(** [click.confirm(text)]. *)
Definition confirm (text : string) : M bool :=
  fun w =>
    let '(answer, rest) := click_confirm (env w) (stdin w) in
    (answer, set_stdin rest (set_stdout (stdout w ++ [text]) w)).

Definition clear_database_command (force : bool) : M unit :=
  echo "WARNING: This will delete ALL data in the Neo4j database!" ;;
  let* confirmed :=
    (if force then ret true
     else confirm "Are you absolutely sure you want to clear the entire database?") in
  if confirmed : bool then
    echo "Proceeding with database clearing..." ;;
    try_except
      (let* success := graph.clear_all_data in
       if success : bool then echo "Database cleared successfully."
       else if negb force then echo "Database clear operation cancelled by user."
            else echo "Failed to clear database. Check logs.")
      (fun e =>
         logger ERROR "An error occurred while clearing the database: {e}" [exc_arg e] ;;
         echo "Error clearing database: {e}")
  else
    echo "Database clear operation cancelled.".

(** The body of the command; the existence of the file is checked by
    [click.Path] before the body runs.  Here and in the commands below a
    line that the source sends to the error stream ([err=True]) is
    recorded on the console like the others. *)
Definition insert_bible_command (json_file_path : string) : M unit :=
  echo "Starting Bible data insertion from: {json_file_path}" ;;
  try_except
    (insert.insert_bible_data json_file_path ;;
     echo "Data insertion process finished.")
    (fun e =>
       logger ERROR "An error occurred during data insertion: {e}" [exc_arg e] ;;
       echo "Error during insertion: {e}").

Definition build_faiss_index_command : M unit :=
  echo "Starting FAISS index building process..." ;;
  try_except
    (let* success := faiss_index.build_and_save_index in
     if success : bool then
       echo "FAISS index successfully built and saved to {config.FAISS_INDEX_PATH}"
     else echo "FAISS index building failed. Check logs for details.")
    (fun e =>
       logger ERROR "An error occurred during FAISS index building: {e}" [exc_arg e] ;;
       echo "Error building FAISS index: {e}").

Definition run_search_shell_command (py_strip : string -> string) (fuel : nat)
    : M (option unit) :=
  echo "Launching interactive search shell..." ;;
  try_except
    (search.run_search_shell py_strip fuel)
    (fun e =>
       logger ERROR "An error occurred while running the search shell: {e}" [exc_arg e] ;;
       echo "Error in search shell: {e}" ;;
       ret (Some tt)).

End main.

(* ================================================================== *)
(** ** Notions used to state the properties *)
(* ================================================================== *)

(** Ranking of hits: by distance, and by identity among equal distances. *)
Definition hit_leb (a b : Hit) : bool :=
  PrimFloat.ltb (distance a) (distance b)
  || (PrimFloat.eqb (distance a) (distance b) && (node_id a <=? node_id b)%Z).

Fixpoint ranked (hits : list Hit) : bool :=
  match hits with
  | a :: rest =>
      match rest with
      | b :: _ => hit_leb a b && ranked rest
      | [] => true
      end
  | [] => true
  end.

(** A row of distances in ascending order: no distance exceeds a later one. *)
Definition ascending (ds : list float) : Prop :=
  StronglySorted (fun a b => PrimFloat.leb a b = true) ds.

(** The slots of a result row that hold an entry, as hits. *)
Definition hits_of_row (ids0 : list Z) (distances0 : list float) : list Hit :=
  (fun p : Z * float => {| node_id := p.1; distance := p.2 |})
  <$> filter (fun p : Z * float => p.1 ≠ (-1)%Z) (zip ids0 distances0).

(** [str.isspace()] over the ASCII white space. *)
Definition is_space (c : Ascii.ascii) : bool :=
  let n := Ascii.nat_of_ascii c in
  (Nat.eqb n 32 || (Nat.leb 9 n && Nat.leb n 13))%bool.

Definition py_isspace (s : string) : bool :=
  negb (String.eqb s EmptyString) && forallb is_space (String.list_ascii_of_string s).

(** The number of Verse nodes in the store. *)
Definition verse_count (g : Graph) : nat := size (matching "Verse" [] g).

Definition last_log (w : World) : option LogRecord := last (log w).

(** What a computation that only reads leaves as it was. *)
Definition frame (w w' : World) : Prop :=
  env w' = env w /\ neo4j w' = neo4j w /\ files w' = files w
  /\ _model w' = _model w /\ stdin w' = stdin w.

(** No request to an external service is going to fail. *)
Definition healthy (w : World) : Prop := Forall (fun b => b = false) (faults w).

Definition read_only (q : Cypher) : Prop :=
  match q with
  | VerseById _ | AllVerses => True
  | DetachDeleteAll | MergeVerse _ _ _ _ => False
  end.

(** What a lookup by identity finds while the database answers: the first
    row of [VerseById], provided the driver can send the identity. *)
Definition lookup_row (g : Graph) (node_id : Z) : option Row :=
  if in_int64 node_id then head (verse_rows node_id g) else None.

(** What the loop over the hits makes of one hit. *)
Definition resolve (g : Graph) (h : Hit) : option (gmap string pyval) :=
  (fun row => search.verse_detail row (distance h)) <$> lookup_row g (node_id h).

(** A Verse node [v] with a Chapter node [c] that has it and a Book node
    [b] that has that chapter. *)
Definition linked (g : Graph) (b c v : Z) : Prop :=
  node_is "Verse" v g = true
  /\ (c, "HAS_VERSE", v) ∈ rels g /\ node_is "Chapter" c g = true
  /\ (b, "HAS_CHAPTER", c) ∈ rels g /\ node_is "Book" b g = true.

(** The record owed for a hit on the verse under chapter [c] of book [b]:
    the name of the book, the numbers of the chapter and of the verse,
    the text of the verse, and the distance of the hit. *)
Definition record_of (g : Graph) (b c : Z) (h : Hit) : gmap string pyval :=
  {[ "book" := node_prop b "name" g;
     "chapter" := node_prop c "number" g;
     "verse" := node_prop (node_id h) "number" g;
     "text" := node_prop (node_id h) "text" g;
     "distance" := PyFloat (distance h) ]}.

(** [d] is the record of the hit [h], for some chapter and book that hold
    the verse. *)
Definition describes (g : Graph) (h : Hit) (d : gmap string pyval) : Prop :=
  exists b c, linked g b c (node_id h) /\ d = record_of g b c h.

(** Whether the identity of a hit names a verse held by a chapter of a
    book. *)
Definition resolves (g : Graph) (h : Hit) : bool :=
  node_is "Verse" (node_id h) g
  && existsb (fun cr : Z * string * Z =>
       String.eqb cr.1.2 "HAS_VERSE" && (cr.2 =? node_id h)%Z
       && node_is "Chapter" cr.1.1 g
       && existsb (fun br : Z * string * Z =>
            String.eqb br.1.2 "HAS_CHAPTER" && (br.2 =? cr.1.1)%Z
            && node_is "Book" br.1.1 g) (rels g)) (rels g).

Definition detail_keys : gset string :=
  {[ "book"; "chapter"; "verse"; "text"; "distance" ]}.

(** The Verse nodes stored under a composite key. *)
Definition verses_at (book : string) (chapter verse : Z) (g : Graph) : gmap Z NodeData :=
  matching "Verse" (verse_pattern (Scalar (SStr book)) chapter verse) g.

(** Every composite key names at most one Verse node. *)
Definition verse_keys_unique (g : Graph) : Prop :=
  forall book chapter verse, size (verses_at book chapter verse g) <= 1.

(** The graph in which [merge_verse] merges the Verse node. *)
Definition before_verse (book : value) (chapter : Z) (g : Graph) : Graph :=
  (merge_node "Chapter" (chapter_pattern book chapter)
     (merge_node "Book" (book_pattern book) g).2).2.

(** The four values the loop of the ingestion reads from a record. *)
Definition record_fields (d : gmap string pyval) : list pyval :=
  [default PyNone (d !! "book"); default PyNone (d !! "chapter");
   default PyNone (d !! "verse"); default PyNone (d !! "text")].

(** A record in which one of them is missing or false. *)
Definition incomplete (d : gmap string pyval) : bool :=
  negb (forallb truthy (record_fields d)).

(** Whether the statement that [run_query] sends is going to raise: the
    check of a new connection fails, or the request itself does. *)
Definition db_query_raises (w : World) : bool :=
  match _driver w, faults w with
  | None, true :: _ => true
  | None, false :: true :: _ => true
  | Some _, true :: _ => true
  | _, _ => false
  end.

(** The state in which the build fetches the verses: after its first two
    log records. *)
Definition build_entry (w : World) : World :=
  (bind (logger INFO "Starting FAISS index building process..." [])
        (fun _ => logger INFO "Fetching verses from Neo4j..." []) w).2.

Definition no_verses_record : LogRecord :=
  {| lvl := WARNING;
     template := "No verses found in Neo4j. Cannot build FAISS index.";
     args := [] |}.



(** Computations that leave one component [P] of the state as it was. *)
Definition keeps {T A} (P : World -> T) (m : M A) : Prop :=
  forall w, P (m w).2 = P w.

(** Computations that never raise. *)
Definition safe {A} (m : M A) : Prop := forall w, exists a, (m w).1 = Returned a.

(** The state with its log forgotten: what a computation that only logs
    leaves as it was. *)
Definition unlogged (w : World) : World := set_log [] w.

(** What outlives the process: the store and the files. *)
Definition persistent (w : World) : Graph * gmap string FileContent :=
  (neo4j w, files w).

(** A path from which [insert_bible_data] cannot take a batch: no file, no
    JSON document, or a document without a length. *)
Definition unreadable (path : string) (w : World) : Prop :=
  match files w !! path with
  | Some (Json v) => exists e, py_len v = Raised e
  | _ => True
  end.

(** No complete index is stored at the path of the index. *)
Definition no_index_file (w : World) : Prop :=
  forall index, files w !! config.FAISS_INDEX_PATH ≠ Some (FaissIndex index).

(** The three lines the shell prints for one result. *)
Definition result_lines : list string :=
  ["{i+1}. {result['book']} {result['chapter']}:{result['verse']}";
   "   Text: {result['text']}";
   "   Similarity Score (Distance): {result['distance']:.4f}"].

(** A record with the five keys the shell prints, the distance a float. *)
Definition printable (d : gmap string pyval) : Prop :=
  dom d = detail_keys /\ exists f, d !! "distance" = Some (PyFloat f).

(** The node a pattern creates matches the pattern. *)
Definition self_matching (lbl : string) (pat : list (string * value)) : Prop :=
  node_matches lbl pat {| labels := [lbl]; props := list_to_map pat |} = true.

(** What [AllVerses] lists, as the pairs the build works on: the identity
    and the text of every Verse node, in storage order. *)
Definition verse_pairs (g : Graph) : list (pyval * pyval) :=
  (fun p : Z * NodeData => (PyInt p.1, of_property (props p.2 !! "text")))
  <$> map_to_list (matching "Verse" [] g).

(** Sequencing of fallible steps that do not touch the state. *)
Definition and_then {A B} (o : outcome A) (k : A -> outcome B) : outcome B :=
  match o with
  | Returned a => k a
  | Raised e => Raised e
  end.

(** The model a build works with: the one in memory, or else the one the
    library loads. *)
Definition model_for (w : World) : outcome Model :=
  match _model w with
  | Some m => Returned m
  | None => SentenceTransformer (env w) config.EMBEDDING_MODEL
  end.

(** The index owed for a store: the text of every Verse node embedded by
    the model, the embeddings as [float32] rows of one dimension, added
    under the identities of the nodes to an identity-mapped flat L2
    index of that dimension. *)
Definition index_of (E : Env) (model : Model) (g : Graph) : outcome Index :=
  and_then (encode model (verse_pairs g).*2) (fun embeddings =>
  and_then (as_float32_matrix embeddings) (fun shaped =>
  and_then (IndexFlatL2 E shaped.2) (fun index =>
  and_then (IndexIDMap E index) (fun index_mapped =>
  and_then (as_int64 E (verse_pairs g).*1) (fun ids =>
  add_with_ids index_mapped shaped.1 ids))))).


(** What a build that returned [True] has done: the index owed for the
    store was built with the model that is now in memory, and the index
    file was replaced, by that index or, when the data was lost while the
    file was closed, by an incomplete file. *)
Definition success_report (w w' : World) : Prop :=
  exists model index,
    model_for w = Returned model
    /\ index_of (env w) model (neo4j w) = Returned index
    /\ _model w' = Some model
    /\ (files w' = <[config.FAISS_INDEX_PATH := FaissIndex index]> (files w)
        \/ files w' = <[config.FAISS_INDEX_PATH := Truncated]> (files w)).


(* ================================================================== *)
(** ** Concrete objects for the examples *)
(* ================================================================== *)

Module Examples.

(** A model that embeds every text as the same unit vector. *)
Definition unit_model : Model :=
  {| encode := fun texts => Returned ((fun _ => [1%float; 0%float]) <$> texts) |}.

(** An index of two entries, 7 and 3, stored in that order with equal
    vectors: every query finds both at the same distance. *)
Definition tie_index : Index :=
  {| is_id_map := true;
     ntotal := 2;
     search := fun _ _ => Returned ([[0.5%float; 0.5%float]], [[7%Z; 3%Z]]);
     add_with_ids := fun _ _ => Raised FaissError |}.

(** An index without entries: all [k] slots are placeholders. *)
Definition vacant_index : Index :=
  {| is_id_map := true;
     ntotal := 0;
     search := fun _ k =>
       Returned ([replicate (Z.to_nat k) infinity], [replicate (Z.to_nat k) (-1)%Z]);
     add_with_ids := fun _ _ => Raised FaissError |}.

(** An index that remembers what was added and answers it back in
    insertion order at distance zero. *)
Fixpoint echo_index (ids : list Z) (fuel : nat) : Index :=
  {| is_id_map := true;
     ntotal := Z.of_nat (length ids);
     search := fun _ k =>
       Returned ([replicate (length ids) 0%float], [ids]);
     add_with_ids := fun _ new_ids =>
       match fuel with
       | O => Raised FaissError
       | S fuel' => Returned (echo_index (ids ++ new_ids) fuel')
       end |}.

Definition env0 : Env :=
  {| int_of_str := fun _ => Raised ValueError;
     SentenceTransformer := fun _ => Returned unit_model;
     IndexFlatL2 := fun _ => Returned (echo_index [] 1);
     IndexIDMap := fun index => Returned index;
     click_confirm := fun lines =>
       match lines with
       | [] => (Raised Abort, [])
       | line :: rest => (Returned (String.eqb (py_lower line) "y"), rest)
       end;
     float64_as_int64 := fun ids => ids |}.

(** A fresh process: empty database, no files, nothing loaded. *)
Definition world0 : World :=
  {| env := env0; neo4j := empty_graph; faults := []; _driver := None;
     _model := None; files := ∅; stdin := []; stdout := []; log := [] |}.

Definition verse_record (book : string) (chapter verse : Z) (text : string) : pyval :=
  PyDict (list_to_map [("book", PyStr book); ("chapter", PyInt chapter);
                       ("verse", PyInt verse); ("text", PyStr text)]).

(** The store after ingesting two verses of Genesis 1. *)
Definition genesis_world : World :=
  (insert.insert_loop
     [verse_record "Gen" 1 1 "In the beginning"; verse_record "Gen" 1 2 "And the earth"]
     (0%Z, 0%Z) world0).2.

(** Hits whose first identity, 9, names no node of [genesis_world]. *)
Definition dangling_hits : list Hit :=
  [{| node_id := 9; distance := 0.25 |}; {| node_id := 2; distance := 0.5 |}].

Definition negative_chapter : pyval :=
  verse_record "Gen" (-1) 1 "In the beginning".

(** A record whose chapter is the list [[1]]. *)
Definition listed_chapter : pyval :=
  PyDict (list_to_map [("book", PyStr "Gen"); ("chapter", PyList [PyInt 1]);
                       ("verse", PyInt 1); ("text", PyStr "In the beginning")]).

(** A record without a text. *)
Definition no_text : gmap string pyval :=
  list_to_map [("book", PyStr "Gen"); ("chapter", PyInt 1); ("verse", PyInt 1)].

(** The store of [genesis_world] with a working index on disk, where the
    connection, the query, the opening of the file and every write
    succeed and the data is lost when the index file is closed. *)
Definition lost_write_world : World :=
  set_faults [false; false; false; false; true]
    (set_files {[ config.FAISS_INDEX_PATH := FaissIndex tie_index ]}
       genesis_world).

(** A store that holds two Verse nodes under the key (Gen, 1, 1), both
    under the one chapter of the one book. *)
Definition twin_world : World :=
  set_neo4j
    {| nodes :=
         {[ 0%Z := {| labels := ["Book"];
                      props := list_to_map (book_pattern (Scalar (SStr "Gen"))) |};
            1%Z := {| labels := ["Chapter"];
                      props := list_to_map (chapter_pattern (Scalar (SStr "Gen")) 1) |};
            2%Z := {| labels := ["Verse"];
                      props := list_to_map (verse_pattern (Scalar (SStr "Gen")) 1 1) |};
            3%Z := {| labels := ["Verse"];
                      props := list_to_map (verse_pattern (Scalar (SStr "Gen")) 1 1) |} ]};
       rels := [(0%Z, "HAS_CHAPTER", 1%Z); (1%Z, "HAS_VERSE", 2%Z);
                (1%Z, "HAS_VERSE", 3%Z)] |}
    world0.

(** The store of [genesis_world] behind a connection that cannot be
    verified. *)
Definition unreachable_world : World := set_faults [true] genesis_world.

(** The store of [genesis_world] with a driver in memory, behind a
    database that refuses the next request. *)
Definition cached_unreachable : World :=
  set_faults [true] (set_driver (Some Neo4jDriver) genesis_world).

(** A record whose text is a dictionary, which the server refuses as a
    property value. *)
Definition refused_text : gmap string pyval :=
  list_to_map [("book", PyStr "Gen"); ("chapter", PyInt 1); ("verse", PyInt 1);
               ("text", PyDict {[ "ko" := PyStr "text" ]})].

(** An index that cannot be searched. *)
Definition broken_index : Index :=
  {| is_id_map := true;
     ntotal := 0;
     search := fun _ _ => Raised FaissError;
     add_with_ids := fun _ _ => Raised FaissError |}.

(** The store of [genesis_world] beside an empty file [bible.json]. *)
Definition empty_file_world : World :=
  set_files {[ "bible.json" := Truncated ]} genesis_world.

End Examples.

(* ================================================================== *)
(** ** Properties of the search (search.py) *)
(* ================================================================== *)

Ltac munfold :=
  unfold bind, ret, raise, lift, try_except, attempt, logger, echo, next_fault in *.

Section SearchFacts.

Lemma collect_hits_row ids0 : forall distances0,
  length ids0 <= length distances0 ->
  search.collect_hits ids0 distances0 = Returned (hits_of_row ids0 distances0).
Proof.
  induction ids0 as [|i ids' IH]; intros [|d ds] Hlen; simpl in *; try lia; try reflexivity.
  rewrite IH by lia. unfold hits_of_row. simpl.
  rewrite filter_cons. simpl.
  destruct (Z.eqb_spec i (-1)) as [->|Hne].
  - destruct (decide _) as [H|H]; [simpl in H; done|reflexivity].
  - destruct (decide _) as [H|H]; [reflexivity|simpl in H; done].
Qed.

Lemma collect_hits_short ids0 : forall distances0,
  length distances0 < length ids0 ->
  search.collect_hits ids0 distances0 = Raised IndexError.
Proof.
  induction ids0 as [|i ids' IH]; intros [|d ds] Hlen; simpl in *; try lia; try reflexivity.
  rewrite IH by lia. reflexivity.
Qed.

Lemma hits_of_row_length ids0 distances0 :
  length (hits_of_row ids0 distances0) <= length ids0.
Proof.
  unfold hits_of_row. rewrite length_fmap.
  etrans; [apply length_filter|]. rewrite length_zip. lia.
Qed.

Lemma hits_of_row_distance_elem ids0 distances0 d :
  d ∈ distance <$> hits_of_row ids0 distances0 -> d ∈ distances0.
Proof.
  unfold hits_of_row. rewrite <- list_fmap_compose.
  intros ([i d'] & -> & Hin)%list_elem_of_fmap.
  apply list_elem_of_filter in Hin as [_ Hin].
  simpl. eapply elem_of_zip_r. exact Hin.
Qed.

(** Dropping slots keeps an ascending row ascending. *)
Lemma hits_of_row_ascending ids0 : forall distances0,
  ascending distances0 -> ascending (distance <$> hits_of_row ids0 distances0).
Proof.
  unfold ascending.
  induction ids0 as [|i ids' IH]; intros [|d ds] Hs; try (constructor; fail).
  apply StronglySorted_cons in Hs as [Hall Hs].
  unfold hits_of_row. simpl. rewrite filter_cons.
  destruct (decide _) as [H|H]; simpl.
  - apply StronglySorted_cons. split; [|apply (IH ds Hs)].
    apply Forall_forall. intros x Hx.
    apply (proj1 (Forall_forall _ _) Hall).
    eapply hits_of_row_distance_elem. exact Hx.
  - apply (IH ds Hs).
Qed.

(** A row padded with placeholders yields exactly its entries. *)
Lemma hits_of_row_padding ids n distances0 :
  length ids + n <= length distances0 ->
  Forall (fun i => i ≠ (-1)%Z) ids ->
  node_id <$> hits_of_row (ids ++ replicate n (-1)%Z) distances0 = ids.
Proof.
  revert distances0. induction ids as [|i ids' IH]; intros ds Hlen Hall.
  - simpl. clear Hlen. revert ds.
    induction n as [|n IHn]; intros [|d ds]; try reflexivity.
    unfold hits_of_row. simpl. rewrite filter_cons.
    destruct (decide _) as [H|H]; [simpl in H; done|]. apply IHn.
  - destruct ds as [|d ds]; simpl in Hlen; [lia|].
    apply Forall_cons in Hall as [Hi Hall].
    unfold hits_of_row. simpl. rewrite filter_cons.
    destruct (decide _) as [H|H]; [|simpl in H; contradiction].
    simpl. f_equal. apply IH; [lia|done].
Qed.

Lemma array_size_cons {A} (r : list A) rs :
  array_size (r :: rs) = (length r + array_size rs)%nat.
Proof. unfold array_size. simpl. by rewrite length_app. Qed.

(** With a model that embeds the query and an index that answers, the
    search returns the filled slots of the first result row. *)
Lemma search_hits_of_index query index model k w v vs D0 Ds I0 Is :
  query ≠ EmptyString ->
  encode model [PyStr query] = Returned (v :: vs) ->
  search index [map astype_float32 v] k = Returned (D0 :: Ds, I0 :: Is) ->
  length I0 <= length D0 ->
  (search.search_similar_verses query (Some index) (Some model) k w).1
  = Returned (hits_of_row I0 D0).
Proof.
  intros Hq He Hs Hlen. unfold search.search_similar_verses.
  destruct (String.eqb_spec query EmptyString) as [->|_]; [done|].
  munfold. simpl. rewrite He. simpl. rewrite Hs. simpl.
  rewrite !array_size_cons.
  destruct I0 as [|i I0'].
  - simpl. destruct (_ && _); reflexivity.
  - destruct D0 as [|d D0']; [simpl in Hlen; lia|].
    cbn [length Nat.add Nat.ltb Nat.leb andb].
    rewrite collect_hits_row by exact Hlen. reflexivity.
Qed.

Lemma py_isspace_nonempty query : py_isspace query = true -> query ≠ EmptyString.
Proof. intros H ->. discriminate H. Qed.

End SearchFacts.

(** C1, as stated, fails: the search hands back the hits in the order the
    index reports them.  For an index that reports the entries 7 and 3 at
    the same distance in that order, the result lists 7 before 3, which is
    not ascending by identity among equal distances. *)
Lemma search_ties_follow_index_order :
  (search.search_similar_verses "love" (Some Examples.tie_index)
     (Some Examples.unit_model) 2 Examples.world0).1
  = Returned [{| node_id := 7; distance := 0.5 |}; {| node_id := 3; distance := 0.5 |}]
  /\ ranked [{| node_id := 7; distance := 0.5 |}; {| node_id := 3; distance := 0.5 |}]
     = false.
Proof. split; vm_compute; reflexivity. Qed.

(** C1 (amended): for a non-empty query that the model embeds and an index
    that answers with first rows [D0] and [I0], the search returns exactly
    the slots of [I0] whose id is not -1, in the order of the index and each
    with its distance.  So there are at most as many hits as slots (at most
    [k] when the index reports [k] slots), the hits ascend by distance
    whenever the row of the index does, and a row padded with -1 yields all
    the entries in front of the padding. *)
Theorem search_returns_index_row_in_order
    query index model k w v vs D0 Ds I0 Is :
  query ≠ EmptyString ->
  encode model [PyStr query] = Returned (v :: vs) ->
  search index [map astype_float32 v] k = Returned (D0 :: Ds, I0 :: Is) ->
  length I0 <= length D0 ->
  exists hits,
    (search.search_similar_verses query (Some index) (Some model) k w).1 = Returned hits
    /\ hits = hits_of_row I0 D0
    /\ length hits <= length I0
    /\ (Z.of_nat (length I0) = k -> (Z.of_nat (length hits) <= k)%Z)
    /\ (ascending D0 -> ascending (distance <$> hits))
    /\ (forall ids n, I0 = (ids ++ replicate n (-1)%Z)%list ->
          Forall (fun i => i ≠ (-1)%Z) ids -> node_id <$> hits = ids).
Proof.
  intros Hq He Hs Hlen. exists (hits_of_row I0 D0).
  pose proof (hits_of_row_length I0 D0) as Hl.
  split; [by eapply search_hits_of_index|].
  split; [reflexivity|]. split; [exact Hl|].
  split; [intros <-; lia|].
  split; [apply hits_of_row_ascending|].
  intros ids n -> Hall. apply hits_of_row_padding; [|done].
  rewrite length_app, length_replicate in Hlen. exact Hlen.
Qed.

Lemma search_returns_index_row_in_order_witness :
  exists hits,
    (search.search_similar_verses "love" (Some Examples.tie_index)
       (Some Examples.unit_model) 2 Examples.world0).1 = Returned hits
    /\ hits = hits_of_row [7%Z; 3%Z] [0.5%float; 0.5%float]
    /\ length hits <= length [7%Z; 3%Z]
    /\ (Z.of_nat (length [7%Z; 3%Z]) = 2%Z -> (Z.of_nat (length hits) <= 2)%Z)
    /\ (ascending [0.5%float; 0.5%float] -> ascending (distance <$> hits))
    /\ (forall ids n, [7%Z; 3%Z] = (ids ++ replicate n (-1)%Z)%list ->
          Forall (fun i => i ≠ (-1)%Z) ids -> node_id <$> hits = ids).
Proof.
  apply (search_returns_index_row_in_order "love" Examples.tie_index
           Examples.unit_model 2 Examples.world0 [1%float; 0%float] []
           [0.5%float; 0.5%float] [] [7%Z; 3%Z] []).
  - discriminate.
  - reflexivity.
  - reflexivity.
  - simpl. lia.
Defined.

(** C3, as stated, fails: the empty query is answered with the empty list,
    the very value a search that matches nothing returns, and a query of
    three spaces is not rejected at all but searched like any other text. *)
Lemma blank_and_empty_queries_are_not_errors :
  (search.search_similar_verses EmptyString (Some Examples.tie_index)
     (Some Examples.unit_model) 5 Examples.world0).1 = Returned []
  /\ (search.search_similar_verses "love" (Some Examples.vacant_index)
        (Some Examples.unit_model) 5 Examples.world0).1 = Returned []
  /\ py_isspace "   " = true
  /\ (search.search_similar_verses "   " (Some Examples.tie_index)
        (Some Examples.unit_model) 5 Examples.world0).1
     = Returned [{| node_id := 7; distance := 0.5 |}; {| node_id := 3; distance := 0.5 |}].
Proof. repeat split; vm_compute; reflexivity. Qed.

(** C3 (amended): for the empty query the search logs a warning and returns
    the empty list, an ordinary result and not an exception, whatever the
    index and the model are, and it leaves the rest of the state alone.  A
    query made of white space only is not empty: with an index and a model
    loaded the search goes on to encode it. *)
Theorem empty_query_returns_plain_empty_list index model k w :
  search.search_similar_verses EmptyString index model k w
  = (Returned [],
     set_log (log w ++ [{| lvl := WARNING; template := "Search query is empty.";
                           args := [] |}]) w)
  /\ forall query i m, py_isspace query = true ->
       exists rest,
         log (search.search_similar_verses query (Some i) (Some m) k w).2
         = (log w ++ {| lvl := INFO; template := "Encoding search query: '{query}'";
                        args := [PyStr query] |} :: rest)%list.
Proof.
  split; [reflexivity|].
  intros query i m Hsp. apply py_isspace_nonempty in Hsp.
  unfold search.search_similar_verses.
  destruct (String.eqb_spec query EmptyString) as [->|_]; [done|].
  munfold. simpl.
  destruct (encode m [PyStr query]) as [[|v vs]|e]; simpl;
    try (rewrite <- app_assoc; eexists; reflexivity).
  destruct (search i _ k) as [[dss idss]|e]; simpl;
    try (rewrite <- !app_assoc; eexists; reflexivity).
  destruct (_ && _); simpl; [|rewrite <- !app_assoc; eexists; reflexivity].
  destruct idss as [|ids0 idss]; [simpl; rewrite <- !app_assoc; eexists; reflexivity|].
  destruct dss as [|ds0 dss]; [simpl; rewrite <- !app_assoc; eexists; reflexivity|].
  destruct (search.collect_hits ids0 ds0); simpl; rewrite <- !app_assoc; eexists; reflexivity.
Qed.

Lemma empty_query_returns_plain_empty_list_witness :
  py_isspace "   " = true
  /\ exists rest,
       log (search.search_similar_verses "   " (Some Examples.tie_index)
              (Some Examples.unit_model) 5 Examples.world0).2
       = (log Examples.world0
            ++ {| lvl := INFO; template := "Encoding search query: '{query}'";
                  args := [PyStr "   "] |} :: rest)%list.
Proof.
  split; [reflexivity|].
  apply (proj2 (empty_query_returns_plain_empty_list None None 5 Examples.world0)
           "   " Examples.tie_index Examples.unit_model).
  reflexivity.
Defined.

(** C4, as stated, fails: without an index, or without a model, the search
    returns the empty list, and so does a working search on an index in
    which nothing matches; the caller receives the same value. *)
Lemma unloaded_search_looks_like_no_match :
  (search.search_similar_verses "love" None (Some Examples.unit_model) 5
     Examples.world0).1 = Returned []
  /\ (search.search_similar_verses "love" (Some Examples.tie_index) None 5
        Examples.world0).1 = Returned []
  /\ (search.search_similar_verses "love" (Some Examples.vacant_index)
        (Some Examples.unit_model) 5 Examples.world0).1 = Returned [].
Proof. repeat split; vm_compute; reflexivity. Qed.

(** C4 (amended): for a non-empty query issued while the index or the model
    is not loaded, the search raises nothing: it logs an error and returns
    the empty list, and changes nothing else. *)
Theorem unloaded_search_returns_empty_list query index model k w :
  query ≠ EmptyString ->
  index = None \/ model = None ->
  search.search_similar_verses query index model k w
  = (Returned [],
     set_log (log w ++ [{| lvl := ERROR;
                           template := "FAISS index or model is not loaded. Cannot perform search.";
                           args := [] |}]) w).
Proof.
  intros Hq Hnone. unfold search.search_similar_verses.
  destruct (String.eqb_spec query EmptyString) as [->|_]; [done|].
  destruct Hnone as [-> | ->]; [reflexivity|].
  destruct index; reflexivity.
Qed.

Lemma unloaded_search_returns_empty_list_witness :
  search.search_similar_verses "love" None (Some Examples.unit_model) 5 Examples.world0
  = (Returned [],
     set_log (log Examples.world0
              ++ [{| lvl := ERROR;
                     template := "FAISS index or model is not loaded. Cannot perform search.";
                     args := [] |}]) Examples.world0).
Proof.
  apply (unloaded_search_returns_empty_list "love" None (Some Examples.unit_model) 5
           Examples.world0).
  - discriminate.
  - left. reflexivity.
Defined.

(* ================================================================== *)
(** ** Properties of the lookups (graph.py, search.py) *)
(* ================================================================== *)

Section GraphFacts.

Lemma frame_refl w : frame w w.
Proof. by repeat split. Qed.

Lemma frame_trans w1 w2 w3 : frame w1 w2 -> frame w2 w3 -> frame w1 w3.
Proof. unfold frame. intros (?&?&?&?&?) (?&?&?&?&?). repeat split; congruence. Qed.

Lemma get_driver_frame w :
  frame w (graph.get_driver w).2.
Proof.
  unfold graph.get_driver. destruct (_driver w); [apply frame_refl|].
  munfold. simpl. destruct (faults w) as [|[] fs]; simpl; by repeat split.
Qed.

Lemma get_driver_healthy w :
  healthy w ->
  exists d w', graph.get_driver w = (Returned d, w') /\ healthy w'.
Proof.
  unfold healthy, graph.get_driver. intros H. destruct (_driver w); [by eauto|].
  munfold. simpl. destruct (faults w) as [|b fs] eqn:E; simpl.
  - eexists _, _. split; [reflexivity|]. simpl. by rewrite E.
  - apply Forall_cons in H as [-> H]. eexists _, _. split; [reflexivity|]. done.
Qed.

Lemma run_query_read q w :
  read_only q ->
  match graph.run_query q w with
  | (Returned rows, w') =>
      frame w w'
      /\ (rows = []
          \/ (params_pack q = true
              /\ cypher_exec q (neo4j w) = Returned (rows, neo4j w)))
  | (Raised _, w') => frame w w'
  end.
Proof.
  intros Hq. unfold graph.run_query, bind.
  pose proof (get_driver_frame w) as Hf.
  destruct (graph.get_driver w) as [[d|e] w1]; simpl in Hf; [|exact Hf].
  unfold session_run. munfold.
  destruct Hf as (He & Hn & Hfi & Hm & Hs).
  destruct (faults w1) as [|[] fs]; simpl.
  - destruct (params_pack q); simpl; [|split; [by repeat split|by left]].
    destruct q; try done; simpl; rewrite Hn; (split; [by repeat split|by right]).
  - split; [by repeat split|by left].
  - destruct (params_pack q); simpl; [|split; [by repeat split|by left]].
    destruct q; try done; simpl; rewrite Hn; (split; [by repeat split|by right]).
Qed.

Lemma run_query_read_healthy q w :
  read_only q -> params_pack q = true -> healthy w ->
  exists rows w',
    graph.run_query q w = (Returned rows, w')
    /\ cypher_exec q (neo4j w) = Returned (rows, neo4j w)
    /\ healthy w'.
Proof.
  intros Hq Hp Hw. unfold graph.run_query, bind.
  pose proof (get_driver_frame w) as Hf.
  destruct (get_driver_healthy w Hw) as (d & w1 & E & Hw1).
  rewrite E in *. simpl in Hf. destruct Hf as (He & Hn & Hfi & Hm & Hs).
  unfold session_run. munfold. unfold healthy in *. rewrite Hp.
  destruct (faults w1) as [|b fs] eqn:Ef; simpl.
  - destruct q; try done; simpl; rewrite Hn; eexists _, _;
      (split; [reflexivity|split; [reflexivity|simpl; by rewrite Ef]]).
  - apply Forall_cons in Hw1 as [-> Hw1].
    destruct q; try done; simpl; rewrite Hn; eexists _, _;
      (split; [reflexivity|split; [reflexivity|done]]).
Qed.

(** A statement whose parameters the driver cannot pack is answered with
    the empty list, whatever the store holds. *)
Lemma run_query_unpacked_healthy q w :
  params_pack q = false -> healthy w ->
  exists w', graph.run_query q w = (Returned [], w') /\ healthy w'.
Proof.
  intros Hp Hw. unfold graph.run_query, bind.
  destruct (get_driver_healthy w Hw) as (d & w1 & E & Hw1). rewrite E.
  unfold session_run. munfold. unfold healthy in *. rewrite Hp.
  destruct (faults w1) as [|b fs] eqn:Ef; simpl.
  - eexists. split; [reflexivity|]. simpl. by rewrite Ef.
  - apply Forall_cons in Hw1 as [-> Hw1]. simpl. eexists. split; [reflexivity|]. done.
Qed.

Lemma get_verse_by_id_spec node_id w :
  exists r w',
    graph.get_verse_by_id node_id w = (Returned r, w')
    /\ frame w w'
    /\ (r = None \/ r = lookup_row (neo4j w) node_id)
    /\ (healthy w -> r = lookup_row (neo4j w) node_id /\ healthy w').
Proof.
  unfold graph.get_verse_by_id, try_except, bind, lookup_row.
  pose proof (run_query_read (VerseById node_id) w I) as Hr.
  pose proof (run_query_read_healthy (VerseById node_id) w I) as Hh.
  pose proof (run_query_unpacked_healthy (VerseById node_id) w) as Hu.
  simpl in Hh, Hu.
  destruct (graph.run_query (VerseById node_id) w) as [[rows|e] w1].
  - destruct Hr as [Hf Hrows].
    assert (healthy w ->
            rows = (if in_int64 node_id then verse_rows node_id (neo4j w) else [])
            /\ healthy w1) as Hh'.
    { intros Hw. destruct (in_int64 node_id).
      - destruct (Hh eq_refl Hw) as (rows' & w1' & E & Hx & Hw1).
        injection E as <- <-. simpl in Hx. injection Hx as <-. done.
      - destruct (Hu eq_refl Hw) as (w1' & E & Hw1). by injection E as <- <-. }
    destruct rows as [|r rows]; munfold; simpl.
    + eexists _, _. split; [reflexivity|]. split; [|split; [by left|]].
      * destruct Hf as (?&?&?&?&?). by repeat split.
      * intros Hw. destruct (Hh' Hw) as [E Hw1]. split; [|done].
        destruct (in_int64 node_id); [by rewrite <- E|done].
    + assert (in_int64 node_id = true
              /\ r :: rows = verse_rows node_id (neo4j w)) as [Hi Hx].
      { destruct Hrows as [Hx|[Hi Hx]]; [done|]. simpl in Hi, Hx.
        by injection Hx as Hx. }
      eexists _, _. split; [reflexivity|]. split; [done|]. rewrite Hi, <- Hx. split.
      * by right.
      * intros Hw. destruct (Hh' Hw) as [E Hw1]. done.
  - munfold. simpl. eexists _, _. split; [reflexivity|]. split; [|split; [by left|]].
    + destruct Hr as (?&?&?&?&?). by repeat split.
    + intros Hw. destruct (in_int64 node_id).
      * destruct (Hh eq_refl Hw) as (rows' & w1' & E & _). discriminate E.
      * destruct (Hu eq_refl Hw) as (w1' & E & _). discriminate E.
Qed.

Lemma verse_rows_shape node_id g row :
  row ∈ verse_rows node_id g ->
  exists b c v t, row = [("book", b); ("chapter", c); ("verse", v); ("text", t)].
Proof.
  unfold verse_rows. destruct (node_is "Verse" node_id g); [|by intros ?%elem_of_nil].
  rewrite list_elem_of_In, in_flat_map. intros ([[c ty] v] & _ & Hin).
  destruct (_ && _); [|by destruct Hin].
  apply in_flat_map in Hin as ([[b ty'] c'] & _ & Hin).
  destruct (_ && _); [|by destruct Hin].
  destruct Hin as [<-|[]]. by eexists _, _, _, _.
Qed.

Lemma head_verse_rows_shape node_id g row :
  head (verse_rows node_id g) = Some row ->
  exists b c v t, row = [("book", b); ("chapter", c); ("verse", v); ("text", t)].
Proof.
  intros H. apply (verse_rows_shape node_id g).
  destruct (verse_rows node_id g); [done|]. injection H as ->. apply list_elem_of_here.
Qed.

Lemma lookup_row_shape g node_id row :
  lookup_row g node_id = Some row ->
  exists b c v t, row = [("book", b); ("chapter", c); ("verse", v); ("text", t)].
Proof.
  unfold lookup_row. destruct (in_int64 node_id); [|done].
  apply head_verse_rows_shape.
Qed.

Lemma resolve_detail g h d :
  resolve g h = Some d ->
  d !! "distance" = Some (PyFloat (distance h)) /\ dom d = detail_keys.
Proof.
  unfold resolve. destruct (lookup_row _ _) as [row|] eqn:E; [|done].
  intros [= <-]. apply lookup_row_shape in E as (b & c & v & t & ->).
  split; [apply lookup_insert_eq|].
  unfold search.verse_detail, detail_keys. simpl.
  rewrite !dom_insert_L, dom_empty_L. set_solver.
Qed.

(** The rows of [VerseById] come from linked nodes and read their
    properties. *)
Lemma verse_rows_linked node_id g row :
  row ∈ verse_rows node_id g ->
  exists b c,
    linked g b c node_id
    /\ row = [("book", node_prop b "name" g); ("chapter", node_prop c "number" g);
              ("verse", node_prop node_id "number" g);
              ("text", node_prop node_id "text" g)].
Proof.
  unfold verse_rows, linked. destruct (node_is "Verse" node_id g) eqn:Ev;
    [|by intros ?%elem_of_nil].
  rewrite list_elem_of_In, in_flat_map. intros ([[c ty] v] & Hc & Hin).
  destruct (String.eqb_spec ty "HAS_VERSE") as [->|]; [|by destruct Hin].
  destruct (Z.eqb_spec v node_id) as [->|]; [|by destruct Hin].
  destruct (node_is "Chapter" c g) eqn:Ec; [|by destruct Hin]. simpl in Hin.
  apply in_flat_map in Hin as ([[b ty'] c'] & Hb & Hin).
  destruct (String.eqb_spec ty' "HAS_CHAPTER") as [->|]; [|by destruct Hin].
  destruct (Z.eqb_spec c' c) as [->|]; [|by destruct Hin].
  destruct (node_is "Book" b g) eqn:Eb; [|by destruct Hin]. simpl in Hin.
  destruct Hin as [<-|[]]. exists b, c.
  by rewrite <- !list_elem_of_In in *.
Qed.

Lemma linked_verse_rows g b c node_id :
  linked g b c node_id -> verse_rows node_id g ≠ [].
Proof.
  intros (Hv & Hcv & Hc & Hbc & Hb) Hnil.
  assert ([("book", node_prop b "name" g); ("chapter", node_prop c "number" g);
           ("verse", node_prop node_id "number" g);
           ("text", node_prop node_id "text" g)] ∈ verse_rows node_id g) as Hin.
  { unfold verse_rows. rewrite Hv.
    apply list_elem_of_In, in_flat_map. exists (c, "HAS_VERSE", node_id).
    split; [by apply list_elem_of_In|]. rewrite Z.eqb_refl, Hc. simpl.
    apply in_flat_map. exists (b, "HAS_CHAPTER", c).
    split; [by apply list_elem_of_In|]. rewrite Z.eqb_refl, Hb. simpl. by left. }
  rewrite Hnil in Hin. by apply elem_of_nil in Hin.
Qed.

Lemma resolves_linked g h :
  resolves g h = true <-> exists b c, linked g b c (node_id h).
Proof.
  unfold resolves, linked. rewrite andb_true_iff, existsb_exists. split.
  - intros (Hv & [[c ty] v] & Hc & Hx). simpl in Hx.
    rewrite !andb_true_iff, existsb_exists in Hx.
    destruct Hx as (((->%String.eqb_eq & ->%Z.eqb_eq) & Hcn) & [[b ty'] c'] & Hb & Hy).
    simpl in Hy. rewrite !andb_true_iff in Hy.
    destruct Hy as ((->%String.eqb_eq & ->%Z.eqb_eq) & Hbn).
    exists b, c. by rewrite <- !list_elem_of_In in *.
  - intros (b & c & Hv & Hcv & Hc & Hbc & Hb). split; [done|].
    exists (c, "HAS_VERSE", node_id h). split; [by apply list_elem_of_In|]. simpl.
    rewrite Z.eqb_refl, Hc. simpl. apply existsb_exists.
    exists (b, "HAS_CHAPTER", c). split; [by apply list_elem_of_In|]. simpl.
    by rewrite Z.eqb_refl, Hb.
Qed.

(** What the loop makes of a hit is the record owed for it. *)
Lemma resolve_describes g h d : resolve g h = Some d -> describes g h d.
Proof.
  unfold resolve, lookup_row. destruct (in_int64 (node_id h)); [|done].
  destruct (verse_rows (node_id h) g) as [|row rows] eqn:E; [done|].
  intros [= <-].
  destruct (verse_rows_linked (node_id h) g row) as (b & c & Hl & ->).
  { rewrite E. apply list_elem_of_here. }
  exists b, c. split; [done|].
  unfold search.verse_detail, record_of. simpl.
  rewrite (insert_insert_ne _ "distance" "book") by done.
  rewrite (insert_insert_ne _ "distance" "chapter") by done.
  rewrite (insert_insert_ne _ "distance" "verse") by done.
  rewrite (insert_insert_ne _ "distance" "text") by done.
  by rewrite insert_empty.
Qed.

(** A hit that the driver can send is kept exactly when it resolves. *)
Lemma resolve_resolves g h :
  in_int64 (node_id h) = true -> (is_Some (resolve g h) <-> resolves g h = true).
Proof.
  intros Hi. rewrite resolves_linked. unfold resolve, lookup_row. rewrite Hi. split.
  - intros [d Hd]. destruct (verse_rows (node_id h) g) as [|row rows] eqn:E; [done|].
    destruct (verse_rows_linked (node_id h) g row) as (b & c & Hl & _).
    { rewrite E. apply list_elem_of_here. }
    by exists b, c.
  - intros (b & c & Hl). apply linked_verse_rows in Hl.
    destruct (verse_rows (node_id h) g); [done|]. by eexists.
Qed.

Lemma details_loop_spec hits : forall acc w,
  exists kept out w',
    search.details_loop hits acc w = (Returned (acc ++ out)%list, w')
    /\ frame w w'
    /\ kept `sublist_of` hits
    /\ Forall2 (fun h d => resolve (neo4j w) h = Some d) kept out
    /\ (healthy w ->
          kept = filter (fun h => is_Some (resolve (neo4j w) h)) hits /\ healthy w').
Proof.
  induction hits as [|h hits IH]; intros acc w.
  - exists [], [], w. rewrite app_nil_r. split; [reflexivity|]. split; [apply frame_refl|].
    split; [constructor|]. split; [constructor|]. done.
  - simpl. unfold bind at 1.
    destruct (get_verse_by_id_spec (node_id h) w) as (r & w1 & E & Hf & Hr & Hh).
    rewrite E.
    assert (neo4j w1 = neo4j w) as Hn by apply Hf.
    destruct r as [[|col cols]|] eqn:Er.
    + (* a record without columns cannot be a row of the query *)
      destruct Hr as [Hr|Hr]; [done|]. symmetry in Hr.
      apply lookup_row_shape in Hr as (?&?&?&?&?). done.
    + destruct (IH (acc ++ [search.verse_detail (col :: cols) (distance h)]) w1)
        as (kept & out & w' & E' & Hf' & Hsub & Hall & Hh').
      rewrite E'. rewrite <- app_assoc. simpl.
      assert (resolve (neo4j w) h = Some (search.verse_detail (col :: cols) (distance h))) as Hres.
      { unfold resolve. destruct Hr as [Hr|Hr]; [done|]. by rewrite <- Hr. }
      exists (h :: kept). eexists _, w'. split; [reflexivity|].
      split; [by eapply frame_trans|]. split; [by constructor|]. split.
      * constructor; [done|]. by rewrite <- Hn.
      * intros Hw. destruct (Hh Hw) as [_ Hw1]. destruct (Hh' Hw1) as [-> Hw'].
        split; [|done]. rewrite filter_cons, Hn.
        destruct (decide _) as [|Hno]; [done|]. destruct Hno. by rewrite Hres.
    + munfold.
      match goal with |- context [search.details_loop hits acc ?w2] =>
        destruct (IH acc w2) as (kept & out & w' & E' & Hf' & Hsub & Hall & Hh') end.
      rewrite E'. simpl in *.
      exists kept. eexists _, w'. split; [reflexivity|]. split.
      { eapply frame_trans; [exact Hf|]. destruct Hf' as (?&?&?&?&?). by repeat split. }
      split; [by constructor|]. split; [by rewrite <- Hn|].
      intros Hw. destruct (Hh Hw) as [Hr' Hw1]. destruct (Hh' Hw1) as [-> Hw'].
      split; [|done]. rewrite filter_cons, Hn.
      destruct (decide _) as [[d Hd]|]; [|done].
      unfold resolve in Hd. rewrite <- Hr' in Hd. done.
Qed.

End GraphFacts.

(** C2: the lookup of the hits of a search never raises and does not touch
    the store.  Its result follows a sub-sequence of the hits, in their
    order: every record is the one owed for its hit, that is the name of
    a book and the number of a chapter that hold the verse the identity
    names, the number and the text of that verse, and the distance of the
    hit, so the distances of the result are those of the hits kept, in
    the same order.  A hit that does not resolve contributes nothing, and
    if none resolves the result is the empty list.  While the database
    answers every request, the hits kept are exactly those that resolve
    (the identities of a search are 64-bit integers). *)
Theorem details_skip_unresolved_and_keep_order hits w :
  exists details w',
    search.get_verse_details_from_neo4j hits w = (Returned details, w')
    /\ neo4j w' = neo4j w
    /\ (exists kept,
          kept `sublist_of` hits
          /\ Forall2 (describes (neo4j w)) kept details
          /\ (fun d : gmap string pyval => d !! "distance") <$> details
             = (fun h => Some (PyFloat (distance h))) <$> kept
          /\ (healthy w -> Forall (fun h => in_int64 (node_id h) = true) hits ->
                kept = filter (fun h => resolves (neo4j w) h = true) hits))
    /\ (Forall (fun h => resolves (neo4j w) h = false) hits -> details = []).
Proof.
  assert (exists kept out w',
            search.get_verse_details_from_neo4j hits w = (Returned out, w')
            /\ neo4j w' = neo4j w
            /\ kept `sublist_of` hits
            /\ Forall2 (fun h d => resolve (neo4j w) h = Some d) kept out
            /\ (healthy w ->
                  kept = filter (fun h => is_Some (resolve (neo4j w) h)) hits))
    as (kept & out & w' & E & Hn & Hsub & Hall & Hh).
  { unfold search.get_verse_details_from_neo4j.
    destruct hits as [|h0 hits0].
    { exists [], [], w. split; [reflexivity|]. split; [reflexivity|].
      split; [constructor|]. split; [constructor|]. done. }
    cbv beta iota. generalize (h0 :: hits0). clear h0 hits0. intros hits.
    unfold bind at 1. unfold logger at 1. unfold bind at 1.
    match goal with |- context [search.details_loop hits [] ?w0] =>
      destruct (details_loop_spec hits [] w0)
        as (kept & out & w' & E & Hf & Hsub & Hall & Hh) end.
    rewrite E. simpl in *. munfold. simpl.
    exists kept. eexists _, _. split; [reflexivity|]. simpl.
    split; [apply Hf|]. split; [done|]. split; [done|].
    intros Hw. by destruct (Hh Hw). }
  exists out, w'. split; [exact E|]. split; [exact Hn|].
  assert (Forall2 (describes (neo4j w)) kept out) as Hdesc.
  { eapply Forall2_impl; [exact Hall|]. intros h d. apply resolve_describes. }
  split.
  - exists kept. split; [done|]. split; [done|]. split.
    { clear -Hdesc. induction Hdesc as [|h d kept out (b & c & _ & ->) _ IH]; [done|].
      rewrite !fmap_cons, IH. by f_equal. }
    intros Hw Hr. rewrite (Hh Hw). clear -Hr.
    induction hits as [|h hits IH]; [done|].
    apply Forall_cons in Hr as [Hi Hr]. rewrite !filter_cons, (IH Hr).
    pose proof (resolve_resolves (neo4j w) h Hi) as Hiff.
    destruct (decide (is_Some _)) as [H1|H1], (decide (resolves _ _ = true)) as [H2|H2];
      try done; tauto.
  - intros Hnone. destruct Hdesc as [|h d kept' out' (b & c & Hl & _) _]; [done|].
    exfalso. assert (h ∈ hits) as Hin.
    { eapply elem_of_sublist; [|exact Hsub]. apply list_elem_of_here. }
    apply (proj1 (Forall_forall _ _) Hnone) in Hin.
    assert (resolves (neo4j w) h = true) by (apply resolves_linked; by exists b, c).
    congruence.
Qed.

Lemma details_skip_unresolved_and_keep_order_witness :
  exists details w',
    search.get_verse_details_from_neo4j Examples.dangling_hits Examples.genesis_world
    = (Returned details, w')
    /\ details
       = [record_of (neo4j Examples.genesis_world) 0 1
            {| node_id := 2; distance := 0.5 |}]
    /\ details !! 0%nat ≫= (.!! "text") = Some (PyStr "In the beginning").
Proof.
  destruct (details_skip_unresolved_and_keep_order Examples.dangling_hits
              Examples.genesis_world)
    as (details & w' & E & _ & (kept & _ & Hall & _ & Hh) & _).
  exists details, w'. split; [exact E|].
  assert (kept = [{| node_id := 2; distance := 0.5 |}]) as ->.
  { rewrite Hh; [vm_compute; reflexivity|vm_compute; constructor|repeat constructor]. }
  apply Forall2_cons_inv_l in Hall as (d & out & (b & c & Hl & ->) & Hnil & ->).
  apply Forall2_nil_inv_l in Hnil as ->.
  assert (b = 0%Z /\ c = 1%Z) as [-> ->].
  { destruct Hl as (_ & Hcv%list_elem_of_In & _ & Hbc%list_elem_of_In & _).
    vm_compute in Hcv. destruct Hcv as [Hcv|[Hcv|[Hcv|[]]]]; try discriminate Hcv.
    injection Hcv as <-.
    vm_compute in Hbc. destruct Hbc as [Hbc|[Hbc|[Hbc|[]]]]; try discriminate Hbc.
    by injection Hbc as <-. }
  split; [reflexivity|]. vm_compute. reflexivity.
Defined.

(* ================================================================== *)
(** ** Properties of the clearing of the store (graph.py, main.py) *)
(* ================================================================== *)

Lemma run_query_delete_healthy w :
  healthy w ->
  exists w', graph.run_query DetachDeleteAll w = (Returned [], w')
             /\ neo4j w' = empty_graph /\ stdin w' = stdin w.
Proof.
  intros Hw. unfold graph.run_query, bind.
  pose proof (get_driver_frame w) as Hf.
  destruct (get_driver_healthy w Hw) as (d & w1 & E & Hw1). rewrite E in *.
  destruct Hf as (_ & _ & _ & _ & Hs). simpl in Hs.
  unfold session_run. munfold. unfold healthy in Hw1.
  destruct (faults w1) as [|b fs]; simpl.
  - by eexists.
  - apply Forall_cons in Hw1 as [-> _]. by eexists.
Qed.

(** C5, as stated, fails: invoked on a store of two verses with the answer
    "no" on the console, the core operation returns [False] and the store
    is as it was. *)
Lemma clear_all_data_declined_keeps_data :
  (graph.clear_all_data (set_stdin ["no"] Examples.genesis_world)).1 = Returned false
  /\ neo4j (graph.clear_all_data (set_stdin ["no"] Examples.genesis_world)).2
     = neo4j Examples.genesis_world
  /\ verse_count (neo4j Examples.genesis_world) = 2.
Proof. repeat split; vm_compute; reflexivity. Qed.

(** C5 (amended): the core operation asks for confirmation itself.  It
    reads one line from the console; unless that line is "yes" in any
    letter case it deletes nothing and returns [False]; on "yes", with the
    database answering, it deletes every node and relationship and returns
    [True].  The command of the CLI asks its own question before it calls
    the core when [--force] is not given, and deletes nothing when that
    question is declined. *)
Theorem clear_all_data_asks_before_deleting w answer rest :
  stdin w = answer :: rest ->
  (py_lower answer ≠ "yes" ->
     exists w', graph.clear_all_data w = (Returned false, w')
                /\ neo4j w' = neo4j w /\ stdin w' = rest)
  /\ (py_lower answer = "yes" -> healthy w ->
        exists w', graph.clear_all_data w = (Returned true, w')
                   /\ neo4j w' = empty_graph /\ stdin w' = rest)
  /\ ((click_confirm (env w) (stdin w)).1 = Returned false ->
        exists w', main.clear_database_command false w = (Returned tt, w')
                   /\ neo4j w' = neo4j w).
Proof.
  intros Hin. split; [|split].
  - intros Hno. unfold graph.clear_all_data, input. munfold. simpl. rewrite Hin.
    destruct (String.eqb_spec (py_lower answer) "yes") as [Hy|_]; [done|].
    simpl. by eexists.
  - intros Hyes Hw. unfold graph.clear_all_data, input. munfold. simpl. rewrite Hin.
    rewrite Hyes. simpl.
    match goal with |- context [graph.run_query DetachDeleteAll ?w0] =>
      destruct (run_query_delete_healthy w0) as (w' & E & Hn & Hs); [exact Hw|] end.
    rewrite E in *. simpl in *. eexists. split; [reflexivity|]. simpl. done.
  - intros Hc. unfold main.clear_database_command, main.confirm. munfold. simpl.
    destruct (click_confirm (env w) (stdin w)) as [o rest']. simpl in Hc. subst o.
    simpl. by eexists.
Qed.

Lemma clear_all_data_asks_before_deleting_witness :
  (exists w', graph.clear_all_data (set_stdin ["no"] Examples.genesis_world)
              = (Returned false, w')
              /\ neo4j w' = neo4j (set_stdin ["no"] Examples.genesis_world)
              /\ stdin w' = [])
  /\ (exists w', graph.clear_all_data (set_stdin ["YES"] Examples.genesis_world)
                 = (Returned true, w')
                 /\ neo4j w' = empty_graph /\ stdin w' = []).
Proof.
  split.
  - apply (proj1 (clear_all_data_asks_before_deleting
                    (set_stdin ["no"] Examples.genesis_world) "no" [] eq_refl)).
    vm_compute. discriminate.
  - apply (proj1 (proj2 (clear_all_data_asks_before_deleting
                           (set_stdin ["YES"] Examples.genesis_world) "YES" [] eq_refl))).
    + reflexivity.
    + vm_compute. constructor.
Defined.

(* ================================================================== *)
(** ** Properties of the ingestion (insert.py) *)
(* ================================================================== *)

Section StoreFacts.

Lemma matching_lookup lbl pat g i nd :
  matching lbl pat g !! i = Some nd
  <-> nodes g !! i = Some nd /\ node_matches lbl pat nd = true.
Proof. unfold matching. by rewrite map_lookup_filter_Some. Qed.

Lemma matching_nodes lbl pat g g' :
  nodes g' = nodes g -> matching lbl pat g' = matching lbl pat g.
Proof. unfold matching. by intros ->. Qed.

Lemma foldr_max_bound (l : list Z) k :
  k ∈ l -> (k <= foldr Z.max (-1) l)%Z.
Proof.
  induction l as [|x l IH]; [by intros ?%elem_of_nil|].
  intros [->|Hin]%elem_of_cons; simpl; [lia|]. specialize (IH Hin). lia.
Qed.

Lemma fresh_id_fresh (ns : gmap Z NodeData) : ns !! fresh_id ns = None.
Proof.
  destruct (ns !! fresh_id ns) as [nd|] eqn:E; [|done]. exfalso.
  apply elem_of_map_to_list in E.
  assert (fresh_id ns ∈ (map_to_list ns).*1) as Hin.
  { apply list_elem_of_fmap. by exists (fresh_id ns, nd). }
  apply foldr_max_bound in Hin. unfold fresh_id in Hin. lia.
Qed.

Lemma merge_rel_nodes r g : nodes (merge_rel r g) = nodes g.
Proof. unfold merge_rel. by destruct (bool_decide _). Qed.

Lemma merge_rels_nodes rs : forall g,
  nodes (foldl (fun g r => merge_rel r g) g rs) = nodes g.
Proof.
  induction rs as [|r rs IH]; intros g; simpl; [done|].
  by rewrite IH, merge_rel_nodes.
Qed.

Lemma keys_empty_iff (m : gmap Z NodeData) : (map_to_list m).*1 = [] <-> m = ∅.
Proof.
  rewrite <- map_to_list_empty_iff. split; [|by intros ->].
  by intros ?%fmap_nil_inv.
Qed.

(** Creating or binding a node of another label leaves the verses alone. *)
Lemma merge_node_other lbl pat vpat g :
  String.eqb "Verse" lbl = false ->
  matching "Verse" vpat (merge_node lbl pat g).2 = matching "Verse" vpat g.
Proof.
  intros Hl. unfold merge_node.
  destruct ((map_to_list (matching lbl pat g)).*1) eqn:E; [|done].
  simpl. unfold matching. simpl.
  rewrite map_filter_insert_False.
  - by rewrite delete_id by apply fresh_id_fresh.
  - unfold node_matches, has_label. cbn [snd labels existsb]. by rewrite Hl.
Qed.

Lemma scalar_eqb_str s : scalar_eqb (SStr s) (SStr s) = true.
Proof. simpl. apply String.eqb_refl. Qed.

Lemma created_verse_matches book chapter verse v :
  node_matches "Verse" (verse_pattern (Scalar (SStr book)) chapter verse)
    (with_prop "text" v
       {| labels := ["Verse"];
          props := list_to_map (verse_pattern (Scalar (SStr book)) chapter verse) |})
  = true.
Proof.
  unfold node_matches, has_label, props_match, verse_pattern.
  cbn [labels props with_prop existsb forallb fst snd list_to_map foldr].
  rewrite String.eqb_refl. cbn [orb andb].
  repeat (rewrite lookup_insert_eq || rewrite lookup_insert_ne by done).
  cbn [value_eqb scalar_eqb]. by rewrite !Z.eqb_refl, String.eqb_refl.
Qed.

Lemma node_matches_with_prop lbl pat key v nd :
  key ∉ pat.*1 ->
  node_matches lbl pat (with_prop key v nd) = node_matches lbl pat nd.
Proof.
  intros Hk. unfold node_matches, has_label. cbn [labels with_prop]. f_equal.
  unfold props_match. cbn [props with_prop].
  induction pat as [|[k x] pat IH]; [done|]. cbn [forallb fst snd].
  rewrite fmap_cons, not_elem_of_cons in Hk. destruct Hk as [Hne Hk]. cbn [fst] in Hne.
  rewrite lookup_insert_ne by done. by rewrite IH.
Qed.
Lemma map_size_le_1_singleton (m : gmap Z NodeData) i x :
  size m <= 1 -> m !! i = Some x -> m = {[ i := x ]}.
Proof.
  intros Hs Hi.
  assert (m = <[i := x]> (delete i m)) as Hm.
  { rewrite insert_delete_eq. by rewrite insert_id. }
  rewrite Hm in Hs. rewrite map_size_insert_None in Hs by apply lookup_delete_eq.
  assert (delete i m = ∅) as Hd by (apply map_size_empty_inv; lia).
  rewrite Hm, Hd. apply insert_empty.
Qed.

(** [ON MATCH SET]: the bound nodes receive the property; which nodes a
    pattern without that property binds does not change. *)
Lemma matching_after_set lbl pat key v lbl' pat' (g g' : Graph) :
  key ∉ pat'.*1 ->
  nodes g' = (fun nd => if node_matches lbl pat nd then with_prop key v nd else nd)
             <$> nodes g ->
  matching lbl' pat' g'
  = (fun nd => if node_matches lbl pat nd then with_prop key v nd else nd)
    <$> matching lbl' pat' g.
Proof.
  intros Hk Hn. unfold matching. rewrite Hn, map_filter_fmap. f_equal.
  apply map_filter_ext. intros i nd _. cbn [snd].
  destruct (node_matches lbl pat nd); [|done].
  by rewrite node_matches_with_prop.
Qed.

Lemma merge_node_set_matched lbl pat key v g :
  matching lbl pat g ≠ ∅ ->
  nodes (merge_node_set lbl pat key v g).2
  = (fun nd => if node_matches lbl pat nd then with_prop key v nd else nd) <$> nodes g.
Proof.
  intros Hne. unfold merge_node_set.
  destruct ((map_to_list (matching lbl pat g)).*1) eqn:E; [|done].
  by apply keys_empty_iff in E.
Qed.

Lemma merge_node_set_created lbl pat key v g :
  matching lbl pat g = ∅ ->
  nodes (merge_node_set lbl pat key v g).2
  = <[fresh_id (nodes g) :=
        with_prop key v {| labels := [lbl]; props := list_to_map pat |}]> (nodes g).
Proof.
  intros He. unfold merge_node_set. by rewrite He, map_to_list_empty.
Qed.

Lemma text_not_in_verse_pattern book chapter verse :
  "text" ∉ (verse_pattern book chapter verse).*1.
Proof.
  unfold verse_pattern. cbn [fmap list_fmap fst].
  rewrite !not_elem_of_cons. repeat split; try done. apply not_elem_of_nil.
Qed.

Lemma before_verse_matching book chapter vpat g :
  matching "Verse" vpat (before_verse book chapter g) = matching "Verse" vpat g.
Proof. unfold before_verse. by rewrite !merge_node_other. Qed.

Lemma merge_verse_nodes book chapter verse text g :
  nodes (merge_verse book chapter verse text g)
  = nodes (merge_node_set "Verse" (verse_pattern book chapter verse) "text" text
             (before_verse book chapter g)).2.
Proof.
  unfold merge_verse, before_verse.
  destruct (merge_node "Book" _ g) as [bs g1]. cbn [snd].
  destruct (merge_node "Chapter" _ g1) as [cs g2]. cbn [snd].
  destruct (merge_node_set "Verse" _ "text" text g2) as [vs g3]. cbn [snd].
  by rewrite !merge_rels_nodes.
Qed.

Lemma merge_verse_on_match book chapter verse text pat' g :
  "text" ∉ pat'.*1 ->
  matching "Verse" (verse_pattern book chapter verse) g ≠ ∅ ->
  matching "Verse" pat' (merge_verse book chapter verse text g)
  = (fun nd => if node_matches "Verse" (verse_pattern book chapter verse) nd
               then with_prop "text" text nd else nd)
    <$> matching "Verse" pat' g.
Proof.
  intros Hk Hne.
  rewrite <- (before_verse_matching book chapter pat' g).
  apply matching_after_set; [done|].
  rewrite merge_verse_nodes. apply merge_node_set_matched.
  by rewrite before_verse_matching.
Qed.

Lemma merge_verse_on_create book chapter verse text g :
  matching "Verse" (verse_pattern (Scalar (SStr book)) chapter verse) g = ∅ ->
  exists i nd,
    verses_at book chapter verse (merge_verse (Scalar (SStr book)) chapter verse text g)
    = {[ i := nd ]}
    /\ props nd !! "text" = Some text.
Proof.
  intros He. unfold verses_at.
  set (B := Scalar (SStr book)). set (g2 := before_verse B chapter g).
  exists (fresh_id (nodes g2)),
    (with_prop "text" text
       {| labels := ["Verse"]; props := list_to_map (verse_pattern B chapter verse) |}).
  split; [|apply lookup_insert_eq].
  assert (matching "Verse" (verse_pattern B chapter verse) g2 = ∅) as He2
    by (unfold g2; by rewrite before_verse_matching).
  unfold matching at 1. rewrite merge_verse_nodes. fold g2.
  rewrite merge_node_set_created by exact He2.
  rewrite map_filter_insert_True by apply created_verse_matches.
  fold (matching "Verse" (verse_pattern B chapter verse) g2).
  rewrite He2. apply insert_empty.
Qed.

End StoreFacts.

Lemma created_verse_key book chapter verse text book' chapter' verse' :
  node_matches "Verse" (verse_pattern (Scalar (SStr book')) chapter' verse')
    (with_prop "text" text
       {| labels := ["Verse"];
          props := list_to_map (verse_pattern (Scalar (SStr book)) chapter verse) |})
  = true ->
  book' = book /\ chapter' = chapter /\ verse' = verse.
Proof.
  unfold node_matches, has_label, props_match, verse_pattern.
  cbn [labels props with_prop existsb forallb fst snd list_to_map foldr].
  rewrite String.eqb_refl. cbn [orb andb].
  repeat (rewrite lookup_insert_eq || rewrite lookup_insert_ne by done).
  cbn [value_eqb scalar_eqb]. rewrite !andb_true_iff.
  intros (Hv & Hc & Hb & _).
  apply Z.eqb_eq in Hv, Hc. apply String.eqb_eq in Hb. done.
Qed.


Lemma verse_keys_unique_merge g book chapter verse text :
  verse_keys_unique g ->
  verse_keys_unique (merge_verse (Scalar (SStr book)) chapter verse text g).
Proof.
  intros Hu book' chapter' verse'. specialize (Hu book' chapter' verse').
  unfold verses_at in *.
  destruct (map_choose_or_empty
              (matching "Verse" (verse_pattern (Scalar (SStr book)) chapter verse) g))
    as [(i & nd & Hi)|He].
  - rewrite merge_verse_on_match;
      [|apply text_not_in_verse_pattern|by intros E; rewrite E in Hi].
    by rewrite map_size_fmap.
  - pose proof (before_verse_matching (Scalar (SStr book)) chapter) as Hb.
    unfold matching at 1. rewrite merge_verse_nodes.
    rewrite merge_node_set_created by (by rewrite Hb).
    match goal with |- context [filter ?P (<[?i := ?x]> ?m)] =>
      destruct (decide (P (i, x))) as [Hp|Hp] end.
    + rewrite map_filter_insert_True by exact Hp.
      apply created_verse_key in Hp as (-> & -> & ->).
      fold (matching "Verse" (verse_pattern (Scalar (SStr book)) chapter verse)
              (before_verse (Scalar (SStr book)) chapter g)).
      rewrite Hb, He, insert_empty, map_size_singleton. lia.
    + rewrite map_filter_insert_False by exact Hp.
      rewrite delete_id by apply fresh_id_fresh.
      fold (matching "Verse" (verse_pattern (Scalar (SStr book')) chapter' verse')
              (before_verse (Scalar (SStr book)) chapter g)).
      by rewrite Hb.
Qed.

(** The statement of the ingestion run twice under one key, on a store
    that holds at most one Verse under it. *)
Lemma merge_verse_twice g book chapter verse text1 text2 :
  size (verses_at book chapter verse g) <= 1 ->
  let g1 := merge_verse (Scalar (SStr book)) chapter verse text1 g in
  let g2 := merge_verse (Scalar (SStr book)) chapter verse text2 g1 in
  (exists i nd, verses_at book chapter verse g2 = {[ i := nd ]}
                /\ props nd !! "text" = Some text2)
  /\ verse_count g2 = verse_count g1.
Proof.
  intros Hu. cbv zeta. unfold verses_at in *.
  pose proof (text_not_in_verse_pattern (Scalar (SStr book)) chapter verse) as Hk.
  remember (merge_verse (Scalar (SStr book)) chapter verse text1 g) as g1 eqn:Eg1.
  assert (exists i nd,
            matching "Verse" (verse_pattern (Scalar (SStr book)) chapter verse) g1
            = {[ i := nd ]}) as (i & nd & H1).
  { subst g1.
    destruct (map_choose_or_empty
                (matching "Verse" (verse_pattern (Scalar (SStr book)) chapter verse) g))
      as [(i & nd & Hi)|He].
    - rewrite merge_verse_on_match; [|done|by intros E; rewrite E in Hi].
      rewrite (map_size_le_1_singleton _ i nd Hu Hi), map_fmap_singleton.
      by eexists _, _.
    - destruct (merge_verse_on_create book chapter verse text1 g He) as (i & nd & E & _).
      exists i, nd. exact E. }
  assert (matching "Verse" (verse_pattern (Scalar (SStr book)) chapter verse) g1 ≠ ∅)
    as Hne.
  { rewrite H1. intros E. apply (f_equal (fun m => m !! i)) in E.
    by rewrite lookup_singleton_eq, lookup_empty in E. }
  split.
  - rewrite merge_verse_on_match by done. rewrite H1, map_fmap_singleton.
    eexists _, _. split; [reflexivity|].
    assert (node_matches "Verse" (verse_pattern (Scalar (SStr book)) chapter verse) nd
            = true) as ->.
    { eapply (matching_lookup "Verse" _ g1 i nd). rewrite H1. apply lookup_singleton_eq. }
    apply lookup_insert_eq.
  - unfold verse_count.
    rewrite merge_verse_on_match; [|apply not_elem_of_nil|done].
    apply map_size_fmap.
Qed.

(** C6, as stated, fails: a record whose chapter is -1 is not skipped.  The
    loop counts it as inserted and the store holds a Verse under the key
    (Gen, -1, 1). *)
Lemma negative_chapter_is_inserted :
  (insert.insert_loop [Examples.negative_chapter] (0, 0)%Z Examples.world0).1
  = Returned (1, 0)%Z
  /\ verse_count (neo4j (insert.insert_loop [Examples.negative_chapter] (0, 0)%Z
                           Examples.world0).2) = 1
  /\ size (verses_at "Gen" (-1) 1
             (neo4j (insert.insert_loop [Examples.negative_chapter] (0, 0)%Z
                       Examples.world0).2)) = 1.
Proof. repeat split; vm_compute; reflexivity. Qed.

(** A chapter that [int] cannot convert is not skipped either: the
    conversion sits before the [try], so its exception leaves the loop and
    the records after it are not processed. *)
Example unconvertible_chapter_aborts_batch :
  (insert.insert_loop [Examples.listed_chapter; Examples.verse_record "Gen" 1 1 "In the beginning"]
     (0, 0)%Z Examples.world0).1 = Raised TypeError
  /\ verse_count (neo4j (insert.insert_loop
                           [Examples.listed_chapter;
                            Examples.verse_record "Gen" 1 1 "In the beginning"]
                           (0, 0)%Z Examples.world0).2) = 0.
Proof. split; vm_compute; reflexivity. Qed.

(** C6 (amended): a record in which book, chapter, verse or text is missing
    or false (null, zero, empty) raises nothing: the loop logs a warning,
    counts the record as skipped, leaves the store alone and goes on with
    the rest of the batch. *)
Theorem incomplete_record_is_skipped d rest counts w :
  incomplete d = true ->
  insert.insert_loop (PyDict d :: rest) counts w
  = insert.insert_loop rest (counts.1, (counts.2 + 1)%Z)
      (set_log (log w ++ [{| lvl := WARNING;
                             template := "Skipping invalid verse data: {verse_data}";
                             args := [PyDict d] |}]) w).
Proof.
  unfold incomplete, record_fields. intros H.
  cbn [insert.insert_loop]. unfold bind at 1. unfold insert.insert_verse.
  munfold. cbn [py_get]. rewrite H. reflexivity.
Qed.

Lemma incomplete_record_is_skipped_witness :
  (insert.insert_loop [PyDict Examples.no_text; Examples.verse_record "Gen" 1 2 "And the earth"]
     (0, 0)%Z Examples.world0).1 = Returned (1, 1)%Z.
Proof.
  rewrite (incomplete_record_is_skipped Examples.no_text
             [Examples.verse_record "Gen" 1 2 "And the earth"] (0, 0)%Z Examples.world0)
    by (vm_compute; reflexivity).
  vm_compute. reflexivity.
Defined.

Lemma session_run_merge_healthy book chapter verse text w :
  healthy w -> in_int64 chapter = true -> in_int64 verse = true ->
  exists w',
    session_run (MergeVerse (PyStr book) chapter verse (PyStr text)) w = (Returned [], w')
    /\ neo4j w' = merge_verse (Scalar (SStr book)) chapter verse (Scalar (SStr text)) (neo4j w)
    /\ healthy w'.
Proof.
  intros Hw Hc Hv. unfold session_run, params_pack. munfold. unfold healthy in *.
  cbn [packs]. rewrite Hc, Hv. cbn [andb negb].
  destruct (faults w) as [|b fs] eqn:E; simpl.
  - eexists. split; [reflexivity|]. split; [reflexivity|]. simpl. by rewrite E.
  - apply Forall_cons in Hw as [-> Hw]. eexists. by split; [reflexivity|].
Qed.

(** A well-formed record on a database that answers: one [MergeVerse]. *)
Lemma insert_verse_upserts book chapter verse text counts w :
  healthy w -> book ≠ EmptyString -> chapter ≠ 0%Z -> verse ≠ 0%Z -> text ≠ EmptyString ->
  in_int64 chapter = true -> in_int64 verse = true ->
  exists w',
    insert.insert_verse (Examples.verse_record book chapter verse text) counts w
    = (Returned ((counts.1 + 1)%Z, counts.2), w')
    /\ neo4j w' = merge_verse (Scalar (SStr book)) chapter verse (Scalar (SStr text)) (neo4j w)
    /\ healthy w'.
Proof.
  intros Hw Hb Hc Hv Ht Hci Hvi. unfold insert.insert_verse, Examples.verse_record.
  munfold. cbn [py_get list_to_map foldr fst snd].
  repeat (rewrite lookup_insert_eq || rewrite lookup_insert_ne by done).
  unfold default. cbn [from_option id forallb truthy].
  destruct (String.eqb_spec book EmptyString) as [|_]; [done|].
  destruct (String.eqb_spec text EmptyString) as [|_]; [done|].
  destruct (Z.eqb_spec chapter 0) as [|_]; [done|].
  destruct (Z.eqb_spec verse 0) as [|_]; [done|].
  cbn [negb andb py_int]. cbv beta iota.
  destruct (session_run_merge_healthy book chapter verse text w Hw Hci Hvi)
    as (w' & E & Hn & Hw').
  rewrite E. by eexists.
Qed.

(** C7, as stated, fails: the statement of the ingestion binds every Verse
    under the key and removes none.  On a store that holds two Verses
    under the key (Gen, 1, 1), inserting the key twice with different
    texts leaves two Verses under it. *)
Lemma duplicates_survive_upsert :
  size (verses_at "Gen" 1 1 (neo4j Examples.twin_world)) = 2
  /\ (insert.insert_loop
        [Examples.verse_record "Gen" 1 1 "first"; Examples.verse_record "Gen" 1 1 "second"]
        (0, 0)%Z Examples.twin_world).1 = Returned (2, 0)%Z
  /\ size (verses_at "Gen" 1 1
             (neo4j (insert.insert_loop
                       [Examples.verse_record "Gen" 1 1 "first";
                        Examples.verse_record "Gen" 1 1 "second"]
                       (0, 0)%Z Examples.twin_world).2)) = 2.
Proof. repeat split; vm_compute; reflexivity. Qed.

(** C7 (amended): on a store that holds at most one Verse under the key
    (book, chapter, verse), as every store built by the ingestion alone
    does, and while the database answers: the ingestion of a record under
    the key followed by the ingestion of a record under the same key with
    another text counts both as inserted and leaves exactly one Verse
    under the key, carrying the later text; the second ingestion does not
    change the number of verses. *)
Theorem upsert_twice_last_write_wins book chapter verse text1 text2 counts w :
  healthy w ->
  book ≠ EmptyString -> chapter ≠ 0%Z -> verse ≠ 0%Z ->
  text1 ≠ EmptyString -> text2 ≠ EmptyString ->
  in_int64 chapter = true -> in_int64 verse = true ->
  size (verses_at book chapter verse (neo4j w)) <= 1 ->
  exists w1 w2,
    insert.insert_verse (Examples.verse_record book chapter verse text1) counts w
    = (Returned ((counts.1 + 1)%Z, counts.2), w1)
    /\ insert.insert_verse (Examples.verse_record book chapter verse text2)
         ((counts.1 + 1)%Z, counts.2) w1
       = (Returned ((counts.1 + 1 + 1)%Z, counts.2), w2)
    /\ (exists i nd, verses_at book chapter verse (neo4j w2) = {[ i := nd ]}
                     /\ props nd !! "text" = Some (Scalar (SStr text2)))
    /\ verse_count (neo4j w2) = verse_count (neo4j w1).
Proof.
  intros Hw Hb Hc Hv Ht1 Ht2 Hci Hvi Hu.
  destruct (insert_verse_upserts book chapter verse text1 counts w Hw Hb Hc Hv Ht1 Hci Hvi)
    as (w1 & E1 & Hn1 & Hw1).
  destruct (insert_verse_upserts book chapter verse text2 ((counts.1 + 1)%Z, counts.2) w1
              Hw1 Hb Hc Hv Ht2 Hci Hvi) as (w2 & E2 & Hn2 & Hw2).
  exists w1, w2. split; [exact E1|]. split; [exact E2|].
  rewrite Hn2, Hn1.
  exact (merge_verse_twice (neo4j w) book chapter verse
           (Scalar (SStr text1)) (Scalar (SStr text2)) Hu).
Qed.

Lemma upsert_twice_last_write_wins_witness :
  exists w1 w2,
    insert.insert_verse (Examples.verse_record "Gen" 1 1 "first") (0, 0)%Z
      Examples.genesis_world
    = (Returned ((0 + 1)%Z, 0%Z), w1)
    /\ insert.insert_verse (Examples.verse_record "Gen" 1 1 "second")
         ((0 + 1)%Z, 0%Z) w1
       = (Returned ((0 + 1 + 1)%Z, 0%Z), w2)
    /\ (exists i nd, verses_at "Gen" 1 1 (neo4j w2) = {[ i := nd ]}
                     /\ props nd !! "text" = Some (Scalar (SStr "second")))
    /\ verse_count (neo4j w2) = verse_count (neo4j w1).
Proof.
  apply (upsert_twice_last_write_wins "Gen" 1 1 "first" "second" (0, 0)%Z
           Examples.genesis_world); try done.
  all: vm_compute; first [constructor | apply le_n].
Defined.

(* ================================================================== *)
(** ** Properties of the build (faiss_index.py) *)
(* ================================================================== *)

Lemma last_log_snoc w r l :
  log w = l ++ [r] -> last_log w = Some r.
Proof. unfold last_log. intros ->. apply last_snoc. Qed.

Lemma db_query_raises_sound q w :
  read_only q -> params_pack q = true ->
  db_query_raises w = true <->
  match graph.get_driver w with
  | (Raised _, _) => True
  | (Returned _, w1) =>
      match session_run q w1 with
      | (Raised _, _) => True
      | (Returned _, _) => False
      end
  end.
Proof.
  intros Hq Hp. unfold db_query_raises, graph.get_driver, session_run. munfold.
  rewrite Hp. cbn [negb].
  destruct (_driver w) as [d|]; cbn [fst snd].
  - destruct (faults w) as [|[] fs]; simpl; destruct q; simpl;
      try done; intuition discriminate.
  - destruct (faults w) as [|[] fs] eqn:E; simpl; rewrite ?E; simpl; try done.
    + destruct q; simpl; rewrite ?E; simpl; try done; intuition discriminate.
    + destruct fs as [|[] fs']; simpl; destruct q; simpl; rewrite ?E; simpl;
        try done; intuition discriminate.
Qed.

Lemma no_verses_rows g : verse_count g = 0 -> all_verse_rows g = [].
Proof.
  unfold verse_count, all_verse_rows. intros H%map_size_empty_inv.
  by rewrite H, map_to_list_empty.
Qed.

Lemma get_all_verses_spec w :
  exists vs w',
    graph.get_all_verses_for_indexing w = (Returned vs, w')
    /\ frame w w'
    /\ (vs = [] \/ graph.id_text_pairs (all_verse_rows (neo4j w)) = Returned vs).
Proof.
  unfold graph.get_all_verses_for_indexing, try_except, bind.
  pose proof (run_query_read AllVerses w I) as Hr.
  destruct (graph.run_query AllVerses w) as [[rows|e] w1].
  - destruct Hr as [Hf Hrows]. unfold lift.
    destruct (graph.id_text_pairs rows) as [vs|e] eqn:E.
    + eexists _, _. split; [reflexivity|]. split; [done|].
      destruct Hrows as [->|[_ Hx]].
      * left. simpl in E. by injection E as <-.
      * right. simpl in Hx. injection Hx as <-. done.
    + munfold. eexists _, _. split; [reflexivity|]. split; [|by left].
      destruct Hf as (?&?&?&?&?). by repeat split.
  - munfold. eexists _, _. split; [reflexivity|]. split; [|by left].
    destruct Hr as (?&?&?&?&?). by repeat split.
Qed.

Lemma get_all_verses_none w :
  verse_count (neo4j w) = 0 ->
  exists w', graph.get_all_verses_for_indexing w = (Returned [], w') /\ frame w w'.
Proof.
  intros H. destruct (get_all_verses_spec w) as (vs & w' & E & Hf & Hvs).
  exists w'. split; [|done]. rewrite E. f_equal. f_equal.
  destruct Hvs as [->|Hx]; [done|].
  rewrite no_verses_rows in Hx by done. simpl in Hx. by injection Hx as <-.
Qed.

Lemma get_all_verses_raises w :
  db_query_raises w = true ->
  exists w', graph.get_all_verses_for_indexing w = (Returned [], w') /\ frame w w'.
Proof.
  unfold db_query_raises, graph.get_all_verses_for_indexing, graph.run_query,
    graph.get_driver, session_run.
  munfold.
  destruct (_driver w) as [d|]; simpl.
  - destruct (faults w) as [|[] fs]; simpl; try done.
    intros _. eexists. split; [reflexivity|]. by repeat split.
  - destruct (faults w) as [|[] [|[] fs]]; simpl; try done;
      intros _; (eexists; split; [reflexivity|]; by repeat split).
Qed.

(** With nothing fetched the build stops at its first step. *)
Lemma build_without_verses w w1 :
  graph.get_all_verses_for_indexing (build_entry w) = (Returned [], w1) ->
  frame (build_entry w) w1 ->
  faiss_index.build_and_save_index w
  = (Returned false, set_log (log w1 ++ [no_verses_record]) w1)
  /\ files (set_log (log w1 ++ [no_verses_record]) w1) = files w
  /\ last_log (set_log (log w1 ++ [no_verses_record]) w1) = Some no_verses_record.
Proof.
  intros E Hf. split; [|split].
  - unfold build_entry in E.
    cbv beta iota delta [faiss_index.build_and_save_index bind logger snd] in E |- *.
    rewrite E. reflexivity.
  - simpl. destruct Hf as (_ & _ & -> & _). reflexivity.
  - eapply last_log_snoc. reflexivity.
Qed.

Section BuildFacts.












(** What saving does to the files.  When it raises: nothing if the
    destination could not be opened, an emptied destination if a write
    failed.  When it returns: the index, or an emptied destination if the
    data was lost when the file was closed. *)
Lemma save_index_files index w :
  match faiss_index.save_index index w with
  | (Returned _, w') =>
      files w' = <[config.FAISS_INDEX_PATH := FaissIndex index]> (files w)
      \/ files w' = <[config.FAISS_INDEX_PATH := Truncated]> (files w)
  | (Raised _, w') =>
      files w' = files w
      \/ files w' = <[config.FAISS_INDEX_PATH := Truncated]> (files w)
  end.
Proof.
  unfold faiss_index.save_index, write_index. munfold. simpl.
  destruct (faults w) as [|[] [|[] [|[] fs]]] eqn:E; simpl;
    repeat (progress (rewrite ?E; simpl)).
  all: first [ by left | by right | left; apply insert_insert_eq ].
Qed.

End BuildFacts.

Lemma bind_eq {A B} (m : M A) (k : A -> M B) w :
  bind m k w = match m w with
               | (Returned a, w') => k a w'
               | (Raised e, w') => (Raised e, w')
               end.
Proof. reflexivity. Qed.

Lemma logger_eq l msg a w :
  logger l msg a w
  = (Returned tt, set_log (log w ++ [{| lvl := l; template := msg; args := a |}]) w).
Proof. reflexivity. Qed.

Ltac mstep := rewrite bind_eq; try rewrite logger_eq; cbv beta iota.


(** C8: on a store without any Verse the build fails: it returns [False]
    after the warning that no verses were found, which is how the code
    reports the empty corpus, and it writes no file. *)
Theorem build_on_empty_store_fails_without_writing w :
  verse_count (neo4j w) = 0 ->
  exists w',
    faiss_index.build_and_save_index w = (Returned false, w')
    /\ files w' = files w
    /\ last_log w' = Some no_verses_record.
Proof.
  intros H.
  destruct (get_all_verses_none (build_entry w) H) as (w1 & E & Hf).
  destruct (build_without_verses w w1 E Hf) as (Eb & Hfiles & Hlog).
  eexists. split; [exact Eb|]. by split.
Qed.

Lemma build_on_empty_store_fails_without_writing_witness :
  exists w',
    faiss_index.build_and_save_index Examples.world0 = (Returned false, w')
    /\ files w' = files Examples.world0
    /\ last_log w' = Some no_verses_record.
Proof.
  apply (build_on_empty_store_fails_without_writing Examples.world0).
  vm_compute. reflexivity.
Defined.

(** C10: when the statement that fetches the verses raises, be it in the
    check of the connection or in the request, the fetch returns the empty
    list and the build ends as on an empty store: it returns [False] after
    the same warning and writes no file.  Result and last log record are
    those of a build on a store without verses. *)
Theorem db_failure_looks_like_empty_corpus w :
  db_query_raises w = true ->
  (exists w1, graph.get_all_verses_for_indexing w = (Returned [], w1)
              /\ neo4j w1 = neo4j w)
  /\ (exists w', faiss_index.build_and_save_index w = (Returned false, w')
                 /\ files w' = files w
                 /\ last_log w' = Some no_verses_record)
  /\ (forall w0, verse_count (neo4j w0) = 0 ->
        (faiss_index.build_and_save_index w0).1 = (faiss_index.build_and_save_index w).1
        /\ last_log (faiss_index.build_and_save_index w0).2
           = last_log (faiss_index.build_and_save_index w).2).
Proof.
  intros H.
  destruct (get_all_verses_raises w H) as (w1 & E & Hf).
  destruct (get_all_verses_raises (build_entry w) H) as (w2 & E2 & Hf2).
  destruct (build_without_verses w w2 E2 Hf2) as (Eb & Hfiles & Hlog).
  split; [exists w1; split; [exact E|apply Hf]|].
  split; [eexists; split; [exact Eb|by split]|].
  intros w0 H0.
  destruct (get_all_verses_none (build_entry w0) H0) as (w3 & E3 & Hf3).
  destruct (build_without_verses w0 w3 E3 Hf3) as (Eb0 & _ & Hlog0).
  rewrite Eb, Eb0. simpl. split; [reflexivity|]. by rewrite Hlog, Hlog0.
Qed.

Lemma db_failure_looks_like_empty_corpus_witness :
  (exists w1, graph.get_all_verses_for_indexing Examples.unreachable_world = (Returned [], w1)
              /\ neo4j w1 = neo4j Examples.unreachable_world)
  /\ verse_count (neo4j Examples.unreachable_world) = 2
  /\ (faiss_index.build_and_save_index Examples.world0).1
     = (faiss_index.build_and_save_index Examples.unreachable_world).1.
Proof.
  destruct (db_failure_looks_like_empty_corpus Examples.unreachable_world eq_refl)
    as (Hfetch & _ & Hsame).
  split; [exact Hfetch|]. split; [vm_compute; reflexivity|].
  apply (Hsame Examples.world0). vm_compute. reflexivity.
Defined.

(* ================================================================== *)
(** ** Frames and exception safety *)
(* ================================================================== *)

Section KeepsFacts.

Context {T : Type} (P : World -> T).

Lemma keeps_bind {A B} (m : M A) (k : A -> M B) :
  keeps P m -> (forall a, keeps P (k a)) -> keeps P (bind m k).
Proof.
  intros Hm Hk w. unfold bind. specialize (Hm w).
  destruct (m w) as [[a|e] w1]; simpl in *; [|done]. by rewrite Hk.
Qed.

Lemma keeps_try {A} (m : M A) (h : exc -> M A) :
  keeps P m -> (forall e, keeps P (h e)) -> keeps P (try_except m h).
Proof.
  intros Hm Hh w. unfold try_except. specialize (Hm w).
  destruct (m w) as [[a|e] w1]; simpl in *; [done|]. by rewrite Hh.
Qed.

Lemma keeps_attempt {A} (m : M A) (h : exc -> M unit) :
  keeps P m -> (forall e, keeps P (h e)) -> keeps P (attempt m h).
Proof.
  intros Hm Hh w. unfold attempt. specialize (Hm w).
  destruct (m w) as [[a|e] w1]; simpl in *; [done|].
  specialize (Hh e w1). destruct (h e w1) as [[u|e'] w2]; simpl in *; congruence.
Qed.

Lemma keeps_ret {A} (a : A) : keeps P (ret a).
Proof. done. Qed.

Lemma keeps_raise {A} e : keeps P (@raise A e).
Proof. done. Qed.

Lemma keeps_lift {A} (o : outcome A) : keeps P (lift o).
Proof. done. Qed.

Lemma keeps_pure {A} (f : World -> outcome A) : keeps P (fun w => (f w, w)).
Proof. done. Qed.

End KeepsFacts.

Create HintDb keeps_db.

(** Splits a computation along its binds, handlers and case distinctions. *)
Ltac keeps_steps :=
  repeat first
    [ solve [auto with keeps_db]
    | apply keeps_ret | apply keeps_raise | apply keeps_lift
    | apply keeps_bind; [|intros ?]
    | apply keeps_try; [|intros ?]
    | apply keeps_attempt; [|intros ?]
    | match goal with
      | |- keeps _ (match ?x with _ => _ end) => destruct x
      end ].

Section SafeFacts.

Lemma safe_ret {A} (a : A) : safe (ret a).
Proof. intros w. by exists a. Qed.

Lemma safe_logger l msg a : safe (logger l msg a).
Proof. intros w. by exists tt. Qed.

Lemma safe_echo line : safe (echo line).
Proof. intros w. by exists tt. Qed.

Lemma safe_bind {A B} (m : M A) (k : A -> M B) :
  safe m -> (forall a, safe (k a)) -> safe (bind m k).
Proof.
  intros Hm Hk w. unfold bind. destruct (Hm w) as [a Ha].
  destruct (m w) as [[a'|e] w1]; simpl in Ha; [|done]. apply Hk.
Qed.

Lemma safe_try {A} (m : M A) (h : exc -> M A) :
  (forall e, safe (h e)) -> safe (try_except m h).
Proof.
  intros Hh w. unfold try_except.
  destruct (m w) as [[a|e] w1]; [by exists a|apply Hh].
Qed.

Lemma safe_attempt {A} (m : M A) (h : exc -> M unit) :
  (forall e, safe (h e)) -> safe (attempt m h).
Proof.
  intros Hh w. unfold attempt.
  destruct (m w) as [[a|e] w1]; [by eexists|].
  destruct (Hh e w1) as [u Hu]. destruct (h e w1) as [[u'|e'] w2]; [by eexists|done].
Qed.

End SafeFacts.

Create HintDb safe_db.

(** The same for the proof that a computation never raises. *)
Ltac safe_steps :=
  repeat first
    [ solve [auto with safe_db]
    | apply safe_ret | apply safe_logger | apply safe_echo
    | apply safe_try; intros ?
    | apply safe_attempt; intros ?
    | apply safe_bind; [|intros ?]
    | match goal with
      | |- safe (match ?x with _ => _ end) => destruct x
      end ].

Section Inversion.

Lemma bind_inv {A B} (m : M A) (k : A -> M B) w b w' :
  bind m k w = (Returned b, w') ->
  exists a w1, m w = (Returned a, w1) /\ k a w1 = (Returned b, w').
Proof.
  unfold bind. destruct (m w) as [[a|e] w1]; [|done]. intros H. by exists a, w1.
Qed.

Lemma attempt_inv {A} (m : M A) (h : exc -> M unit) w a w' :
  attempt m h w = (Returned (Some a), w') -> m w = (Returned a, w').
Proof.
  unfold attempt. destruct (m w) as [[a'|e] w1]; [congruence|].
  by destruct (h e w1) as [[u|e'] w2].
Qed.

End Inversion.

Lemma unlogged_eq w w' : unlogged w' = unlogged w -> w' = set_log (log w') w.
Proof. destruct w, w'. unfold unlogged, set_log. simpl. congruence. Qed.

Lemma keeps_of_unlogged {T A} (P : World -> T) (m : M A) :
  (forall w, P w = P (unlogged w)) -> keeps unlogged m -> keeps P m.
Proof. intros HP Hm w. rewrite (HP (m w).2), (HP w). by rewrite Hm. Qed.

(* ================================================================== *)
(** ** More on the database layer (graph.py) *)
(* ================================================================== *)

(** X1: the driver is kept for the life of the process: after a call of
    [get_driver] the next call returns the stored driver at once, without
    connecting or logging.  This holds even when the first call raised:
    a failed connectivity check leaves the driver stored, so the next
    call returns a driver that was never verified. *)
Theorem get_driver_is_cached_even_after_failure w :
  graph.get_driver (graph.get_driver w).2
  = (Returned Neo4jDriver, (graph.get_driver w).2)
  /\ (_driver w = None -> forall fs, faults w = true :: fs ->
        (graph.get_driver w).1 = Raised ServiceUnavailable
        /\ _driver (graph.get_driver w).2 = Some Neo4jDriver
        /\ faults (graph.get_driver w).2 = fs).
Proof.
  split.
  - unfold graph.get_driver at 2 3. destruct (_driver w) as [[]|] eqn:E.
    + cbn [snd]. unfold graph.get_driver. by rewrite E.
    + munfold. simpl. destruct (faults w) as [|[] fs]; reflexivity.
  - intros E fs Hf. unfold graph.get_driver. rewrite E. munfold. simpl.
    rewrite Hf. simpl. done.
Qed.

Lemma get_driver_is_cached_even_after_failure_witness :
  (graph.get_driver Examples.unreachable_world).1 = Raised ServiceUnavailable
  /\ _driver (graph.get_driver Examples.unreachable_world).2 = Some Neo4jDriver
  /\ faults (graph.get_driver Examples.unreachable_world).2 = [].
Proof.
  apply (proj2 (get_driver_is_cached_even_after_failure Examples.unreachable_world));
    reflexivity.
Defined.

(** X2: [close_driver] forgets the stored driver and leaves the store
    alone, a second call does nothing, and the next [get_driver] connects
    anew: it raises when the database cannot be reached. *)
Theorem close_driver_forces_new_connection w :
  _driver (graph.close_driver w).2 = None
  /\ neo4j (graph.close_driver w).2 = neo4j w
  /\ graph.close_driver (graph.close_driver w).2
     = (Returned tt, (graph.close_driver w).2)
  /\ (forall fs, faults w = true :: fs ->
        (graph.get_driver (graph.close_driver w).2).1 = Raised ServiceUnavailable).
Proof.
  unfold graph.close_driver. destruct (_driver w) as [d|] eqn:E; munfold; simpl.
  - repeat split. intros fs Hf. unfold graph.get_driver. munfold. simpl. by rewrite Hf.
  - rewrite E. repeat split; try done.
    intros fs Hf. unfold graph.get_driver. rewrite E. munfold. simpl. by rewrite Hf.
Qed.

Lemma close_driver_forces_new_connection_witness :
  (graph.get_driver Examples.cached_unreachable).1 = Returned Neo4jDriver
  /\ (graph.get_driver (graph.close_driver Examples.cached_unreachable).2).1
     = Raised ServiceUnavailable.
Proof.
  split; [reflexivity|].
  apply (proj2 (proj2 (proj2 (close_driver_forces_new_connection Examples.cached_unreachable)))
           []).
  reflexivity.
Defined.

(** X3: [run_query] raises only while connecting: the error is then the
    one of the connectivity check, no driver was stored before the call
    and the store is untouched.  With a stored driver a request that
    fails is answered with the empty list. *)
Theorem run_query_raises_only_while_connecting q w :
  (forall e w', graph.run_query q w = (Raised e, w') ->
     e = ServiceUnavailable /\ _driver w = None /\ neo4j w' = neo4j w)
  /\ (forall d fs, _driver w = Some d -> faults w = true :: fs ->
        exists w', graph.run_query q w = (Returned [], w')
                   /\ neo4j w' = neo4j w /\ faults w' = fs).
Proof.
  split.
  - intros e w'. unfold graph.run_query, graph.get_driver, session_run. munfold.
    destruct (_driver w) as [d|] eqn:E; simpl.
    + destruct (faults w) as [|[] fs]; simpl; try done.
      all: destruct (params_pack q); simpl; [|done].
      all: destruct (cypher_exec q (neo4j w)) as [[rows g]|e']; simpl; done.
    + destruct (faults w) as [|[] fs] eqn:Ef; simpl; rewrite ?Ef; simpl.
      * destruct (params_pack q); simpl; [|done].
        destruct (cypher_exec q (neo4j w)) as [[rows g]|e']; simpl; done.
      * intros [= <- <-]. done.
      * destruct fs as [|[] fs']; simpl; try done.
        all: destruct (params_pack q); simpl; [|done].
        all: destruct (cypher_exec q (neo4j w)) as [[rows g]|e']; simpl; done.
  - intros d fs E Hf. unfold graph.run_query, graph.get_driver, session_run. munfold.
    rewrite E. simpl. rewrite Hf. simpl. by eexists.
Qed.

Lemma run_query_raises_only_while_connecting_witness :
  exists w', graph.run_query DetachDeleteAll Examples.cached_unreachable = (Returned [], w')
             /\ neo4j w' = neo4j Examples.cached_unreachable /\ faults w' = [].
Proof.
  apply (proj2 (run_query_raises_only_while_connecting DetachDeleteAll Examples.cached_unreachable)
           Neo4jDriver []); reflexivity.
Defined.

(** X4: after the answer yes, [clear_all_data] returns [False] exactly
    when the connection cannot be made; in every other case it returns
    [True].  In particular a delete request that fails is swallowed by
    [run_query]: [clear_all_data] then returns [True] although nothing
    was deleted. *)
Theorem clear_all_data_reports_success_when_delete_failed w answer rest :
  stdin w = answer :: rest ->
  py_lower answer = "yes" ->
  exists b w',
    graph.clear_all_data w = (Returned b, w')
    /\ (b = false <-> _driver w = None /\ exists fs, faults w = true :: fs)
    /\ (b = false -> neo4j w' = neo4j w)
    /\ ((exists d fs, _driver w = Some d /\ faults w = true :: fs)
        \/ (exists fs, _driver w = None /\ faults w = false :: true :: fs) ->
        b = true /\ neo4j w' = neo4j w).
Proof.
  intros Hin Hyes.
  unfold graph.clear_all_data, input, graph.run_query, graph.get_driver, session_run.
  munfold. simpl. rewrite Hin, Hyes. simpl.
  destruct (_driver w) as [d|] eqn:E; simpl.
  - destruct (faults w) as [|[] fs] eqn:Ef; simpl; eexists _, _;
      (split; [reflexivity|]); simpl; (split; [split; [done|by intros [? _]]|]);
      (split; [done|]).
    + intros [(? & ? & _ & ?)|(? & ? & _)]; done.
    + done.
    + intros [(? & ? & _ & ?)|(? & ? & _)]; done.
  - destruct (faults w) as [|[] [|[] fs]] eqn:Ef; simpl; rewrite ?Ef; simpl;
      eexists _, _; (split; [reflexivity|]); simpl.
    + split; [split; [done|by intros [_ [? ?]]]|]. split; [done|].
      intros [(? & ? & ? & _)|(? & _ & ?)]; done.
    + split; [split; [by eauto|done]|]. split; [done|].
      intros [(? & ? & ? & _)|(? & _ & ?)]; done.
    + split; [split; [by eauto|done]|]. split; [done|].
      intros [(? & ? & ? & _)|(? & _ & ?)]; done.
    + split; [split; [by eauto|done]|]. split; [done|].
      intros [(? & ? & ? & _)|(? & _ & ?)]; done.
    + split; [split; [done|by intros [_ [? ?]]]|]. split; [done|].
      intros [(? & ? & ? & _)|(? & _ & ?)]; done.
    + split; [split; [done|by intros [_ [? ?]]]|]. split; [done|]. done.
    + split; [split; [done|by intros [_ [? ?]]]|]. split; [done|].
      intros [(? & ? & ? & _)|(? & _ & ?)]; done.
Qed.

Lemma clear_all_data_reports_success_when_delete_failed_witness :
  exists w', graph.clear_all_data (set_stdin ["yes"] Examples.cached_unreachable)
             = (Returned true, w')
             /\ neo4j w' = neo4j (set_stdin ["yes"] Examples.cached_unreachable).
Proof.
  destruct (clear_all_data_reports_success_when_delete_failed
              (set_stdin ["yes"] Examples.cached_unreachable) "yes" [] eq_refl eq_refl)
    as (b & w' & E & _ & _ & H).
  destruct H as [-> Hn]; [left; by exists Neo4jDriver, []|].
  by exists w'.
Defined.

(** X5: with [--force] the command never raises, and the question of
    [clear_all_data] is still asked: an answer other than yes keeps the
    data and the command prints that it failed to clear the database; at
    the end of the input the data is kept and the handler of the command
    prints the error. *)
Theorem forced_clear_still_asks w :
  (exists w', main.clear_database_command true w = (Returned tt, w'))
  /\ (forall answer rest, stdin w = answer :: rest -> py_lower answer ≠ "yes" ->
        neo4j (main.clear_database_command true w).2 = neo4j w
        /\ last (stdout (main.clear_database_command true w).2)
           = Some "Failed to clear database. Check logs.")
  /\ (stdin w = [] ->
        neo4j (main.clear_database_command true w).2 = neo4j w
        /\ last (stdout (main.clear_database_command true w).2)
           = Some "Error clearing database: {e}").
Proof.
  split; [|split].
  - unfold main.clear_database_command. unfold bind at 1. unfold echo at 1.
    unfold bind at 1. unfold ret at 1. unfold bind at 1. unfold echo at 1.
    unfold try_except.
    match goal with |- context [bind graph.clear_all_data ?k ?W] =>
      destruct (bind graph.clear_all_data k W) as [[u|e] w1] end.
    + cbv beta iota. destruct u. by eexists.
    + cbv beta iota. munfold. by eexists.
  - intros answer rest Hin Hno.
    unfold main.clear_database_command, graph.clear_all_data, input. munfold. simpl.
    rewrite Hin.
    destruct (String.eqb_spec (py_lower answer) "yes") as [|_]; [done|].
    simpl. split; [done|]. apply last_snoc.
  - intros Hin.
    unfold main.clear_database_command, graph.clear_all_data, input. munfold. simpl.
    rewrite Hin. simpl. split; [done|]. apply last_snoc.
Qed.

Lemma forced_clear_still_asks_witness :
  neo4j (main.clear_database_command true (set_stdin ["no"] Examples.genesis_world)).2
  = neo4j (set_stdin ["no"] Examples.genesis_world)
  /\ last (stdout (main.clear_database_command true
                     (set_stdin ["no"] Examples.genesis_world)).2)
     = Some "Failed to clear database. Check logs.".
Proof.
  apply (proj1 (proj2 (forced_clear_still_asks (set_stdin ["no"] Examples.genesis_world)))
           "no" [] eq_refl).
  vm_compute. discriminate.
Defined.

Lemma id_text_pairs_all g :
  graph.id_text_pairs (all_verse_rows g) = Returned (verse_pairs g).
Proof.
  unfold all_verse_rows, verse_pairs.
  induction (map_to_list (matching "Verse" [] g)) as [|p l IH]; [done|].
  rewrite !fmap_cons. cbn [graph.id_text_pairs]. rewrite IH. reflexivity.
Qed.

(** X6: the fetch for the build never raises, leaves the store alone and is
    all or nothing: it returns the empty list or one pair of identity
    and text for every Verse node; while the database answers it is the
    latter. *)
Theorem fetch_is_all_or_nothing w :
  exists vs w',
    graph.get_all_verses_for_indexing w = (Returned vs, w')
    /\ neo4j w' = neo4j w
    /\ (vs = [] \/ vs = verse_pairs (neo4j w))
    /\ (healthy w -> vs = verse_pairs (neo4j w))
    /\ length (verse_pairs (neo4j w)) = verse_count (neo4j w).
Proof.
  destruct (get_all_verses_spec w) as (vs & w' & E & Hf & Hvs).
  exists vs, w'. split; [done|]. split; [by destruct Hf as (_ & ? & _)|].
  rewrite id_text_pairs_all in Hvs. split; [|split].
  - destruct Hvs as [?|[= ?]]; [by left|by right].
  - intros Hw. revert E. unfold graph.get_all_verses_for_indexing, try_except.
    rewrite bind_eq.
    destruct (run_query_read_healthy AllVerses w I eq_refl Hw) as (rows & w1 & -> & Hx & _).
    simpl in Hx. injection Hx as <-. unfold lift. rewrite id_text_pairs_all.
    by intros [= <- _].
  - unfold verse_pairs, verse_count. by rewrite length_fmap, length_map_to_list.
Qed.

Lemma fetch_is_all_or_nothing_witness :
  (graph.get_all_verses_for_indexing Examples.genesis_world).1
  = Returned (verse_pairs (neo4j Examples.genesis_world))
  /\ length (verse_pairs (neo4j Examples.genesis_world)) = 2.
Proof.
  destruct (fetch_is_all_or_nothing Examples.genesis_world)
    as (vs & w' & E & _ & _ & H & Hl).
  rewrite E. simpl. split.
  - f_equal. apply H. vm_compute. constructor.
  - rewrite Hl. vm_compute. reflexivity.
Defined.

(* ================================================================== *)
(** ** More on the ingestion (insert.py) *)
(* ================================================================== *)

Section IngestionFacts.

Lemma insert_verse_counts verse_data counts w counts' w' :
  insert.insert_verse verse_data counts w = (Returned counts', w') ->
  (counts' = ((counts.1 + 1)%Z, counts.2)) \/ (counts' = (counts.1, (counts.2 + 1)%Z)).
Proof.
  unfold insert.insert_verse. munfold.
  destruct (py_get verse_data "book") as [b|]; [|done].
  destruct (py_get verse_data "chapter") as [c|]; [|done].
  destruct (py_get verse_data "verse") as [v|]; [|done].
  destruct (py_get verse_data "text") as [t|]; [|done].
  destruct (negb _).
  - intros [= <- <-]. by right.
  - destruct (py_int (env w) c) as [cz|]; [|done].
    destruct (py_int (env w) v) as [vz|]; [|done].
    destruct (session_run _ w) as [[rows|e] w1].
    + intros [= <- <-]. by left.
    + intros [= <- <-]. by right.
Qed.






End IngestionFacts.

(** X7: a loop that runs to its end has counted every record once, as
    inserted or as skipped: the two counters grow together by the number
    of records, and neither decreases. *)
Theorem insert_loop_accounts_for_every_record items : forall counts w counts' w',
  insert.insert_loop items counts w = (Returned counts', w') ->
  (counts'.1 + counts'.2 = counts.1 + counts.2 + Z.of_nat (length items))%Z
  /\ (counts.1 <= counts'.1)%Z /\ (counts.2 <= counts'.2)%Z.
Proof.
  induction items as [|r items IH]; intros counts w counts' w'.
  - intros [= <- <-]. simpl. lia.
  - cbn [insert.insert_loop]. unfold bind.
    destruct (insert.insert_verse r counts w) as [[c|e] w1] eqn:E; [|done].
    intros H. apply IH in H. apply insert_verse_counts in E.
    cbn [length]. destruct E as [-> | ->]; simpl in *; lia.
Qed.

Lemma insert_loop_accounts_for_every_record_witness :
  exists counts' w',
    insert.insert_loop
      [PyDict Examples.no_text; Examples.verse_record "Gen" 1 2 "And the earth"]
      (0, 0)%Z Examples.world0 = (Returned counts', w')
    /\ (counts'.1 + counts'.2 = 2)%Z.
Proof.
  exists (1, 1)%Z,
    (insert.insert_loop
       [PyDict Examples.no_text; Examples.verse_record "Gen" 1 2 "And the earth"]
       (0, 0)%Z Examples.world0).2.
  split; [vm_compute; reflexivity|].
  apply (insert_loop_accounts_for_every_record
           [PyDict Examples.no_text; Examples.verse_record "Gen" 1 2 "And the earth"]
           (0, 0)%Z Examples.world0 (1, 1)%Z
           (insert.insert_loop
              [PyDict Examples.no_text; Examples.verse_record "Gen" 1 2 "And the earth"]
              (0, 0)%Z Examples.world0).2).
  vm_compute. reflexivity.
Defined.

(** X8: a complete record whose request fails does not stop the loop: the
    store is as before, the error is logged with the values of the
    record, the record is counted as skipped and the loop goes on with
    the next one. *)
Theorem failed_request_skips_record_and_continues d rest counts w c v e w1 :
  incomplete d = false ->
  py_int (env w) (default PyNone (d !! "chapter")) = Returned c ->
  py_int (env w) (default PyNone (d !! "verse")) = Returned v ->
  session_run (MergeVerse (default PyNone (d !! "book")) c v
                 (default PyNone (d !! "text"))) w = (Raised e, w1) ->
  neo4j w1 = neo4j w
  /\ insert.insert_loop (PyDict d :: rest) counts w
     = insert.insert_loop rest (counts.1, (counts.2 + 1)%Z)
         (set_log
            (log w1 ++
             [{| lvl := ERROR;
                 template :=
                   "Failed to insert verse {book_name} {chapter_num}:{verse_num}. Error: {e}";
                 args := [default PyNone (d !! "book"); default PyNone (d !! "chapter");
                          default PyNone (d !! "verse"); exc_arg e] |}]) w1).
Proof.
  unfold incomplete, record_fields. intros Hc Hci Hvi Hr. split.
  - revert Hr. unfold session_run, cypher_exec. munfold.
    destruct (faults w) as [|[] fs]; simpl; repeat case_match; by intros [= <- <-].
  - cbn [insert.insert_loop]. unfold bind at 1. unfold insert.insert_verse.
    munfold. cbn [py_get]. apply negb_false_iff in Hc. rewrite Hc. cbn [negb].
    rewrite Hci, Hvi, Hr. reflexivity.
Qed.

Lemma failed_request_skips_record_and_continues_witness :
  (insert.insert_loop [PyDict Examples.refused_text;
                       Examples.verse_record "Gen" 1 2 "And the earth"]
     (0, 0)%Z Examples.world0).1 = Returned (1, 1)%Z.
Proof.
  rewrite (proj2 (failed_request_skips_record_and_continues Examples.refused_text
                    [Examples.verse_record "Gen" 1 2 "And the earth"] (0, 0)%Z
                    Examples.world0 1 1 Neo4jError Examples.world0
                    eq_refl eq_refl eq_refl eq_refl)).
  vm_compute. reflexivity.
Defined.



(** X10: for a file that is missing, is not JSON or holds a value without
    a length, [insert_bible_data] returns normally after logging one
    error; it does not connect and changes nothing else. *)
Theorem unreadable_file_ends_ingestion_early json_file_path w :
  unreadable json_file_path w ->
  exists r,
    insert.insert_bible_data json_file_path w = (Returned tt, set_log (log w ++ [r]) w)
    /\ lvl r = ERROR.
Proof.
  unfold unreadable, insert.insert_bible_data, read_json. munfold.
  destruct (files w !! json_file_path) as [[v| |]|]; simpl.
  - intros [e ->]. simpl. destruct e; simpl; by eexists.
  - intros _. by eexists.
  - intros _. by eexists.
  - intros _. by eexists.
Qed.

Lemma unreadable_file_ends_ingestion_early_witness :
  exists r,
    insert.insert_bible_data "bible.json" Examples.genesis_world
    = (Returned tt, set_log (log Examples.genesis_world ++ [r]) Examples.genesis_world)
    /\ lvl r = ERROR.
Proof.
  apply (unreadable_file_ends_ingestion_early "bible.json" Examples.genesis_world).
  vm_compute. exact I.
Defined.

Lemma session_run_env q w : env (session_run q w).2 = env w.
Proof.
  unfold session_run. munfold.
  destruct (faults w) as [|[] fs]; simpl; try done;
    (destruct (params_pack q); simpl; [|done]);
    destruct (cypher_exec q (neo4j w)) as [[rows g]|e]; done.
Qed.

Lemma insert_verse_env verse_data counts w :
  env (insert.insert_verse verse_data counts w).2 = env w.
Proof.
  unfold insert.insert_verse. munfold.
  destruct (py_get verse_data "book") as [b|]; [|done].
  destruct (py_get verse_data "chapter") as [c|]; [|done].
  destruct (py_get verse_data "verse") as [v|]; [|done].
  destruct (py_get verse_data "text") as [t|]; [|done].
  destruct (negb _); [done|].
  destruct (py_int (env w) c) as [cz|]; [|done].
  destruct (py_int (env w) v) as [vz|]; [|done].
  pose proof (session_run_env (MergeVerse b cz vz t) w) as H.
  destruct (session_run _ w) as [[rows|e] w1]; simpl in *; done.
Qed.

(** X11: a complete record whose chapter cannot be converted to an integer
    ends the loop with the error of the conversion, which is raised
    outside the [try] of the request; a record inserted before it (its
    chapter and verse within the 64-bit range, so that the driver sends
    it) stays in the store: nothing is rolled back. *)
Theorem aborted_batch_keeps_earlier_records
    book chapter verse text d rest counts w e :
  healthy w ->
  book ≠ EmptyString -> chapter ≠ 0%Z -> verse ≠ 0%Z -> text ≠ EmptyString ->
  in_int64 chapter = true -> in_int64 verse = true ->
  incomplete d = false ->
  py_int (env w) (default PyNone (d !! "chapter")) = Raised e ->
  exists w',
    insert.insert_loop (Examples.verse_record book chapter verse text :: PyDict d :: rest)
      counts w = (Raised e, w')
    /\ neo4j w'
       = merge_verse (Scalar (SStr book)) chapter verse (Scalar (SStr text)) (neo4j w).
Proof.
  intros Hw Hb Hc Hv Ht Hci Hvi Hd He.
  destruct (insert_verse_upserts book chapter verse text counts w Hw Hb Hc Hv Ht Hci Hvi)
    as (w1 & E & Hn & Hw1).
  assert (env w1 = env w) as Henv.
  { pose proof (insert_verse_env (Examples.verse_record book chapter verse text)
                  counts w) as H.
    by rewrite E in H. }
  cbn [insert.insert_loop]. unfold bind at 1. rewrite E. cbv beta iota.
  unfold bind at 1. unfold insert.insert_verse. munfold. cbn [py_get].
  unfold incomplete, record_fields in Hd. apply negb_false_iff in Hd. rewrite Hd.
  cbn [negb]. rewrite Henv, He. by eexists.
Qed.

Lemma aborted_batch_keeps_earlier_records_witness :
  exists w',
    insert.insert_loop
      [Examples.verse_record "Gen" 1 1 "In the beginning"; Examples.listed_chapter]
      (0, 0)%Z Examples.world0 = (Raised TypeError, w')
    /\ verse_count (neo4j w') = 1.
Proof.
  destruct (aborted_batch_keeps_earlier_records "Gen" 1 1 "In the beginning"
              (list_to_map [("book", PyStr "Gen"); ("chapter", PyList [PyInt 1]);
                            ("verse", PyInt 1); ("text", PyStr "In the beginning")])
              [] (0, 0)%Z Examples.world0 TypeError)
    as (w' & E & Hn); try done.
  - constructor.
  - exists w'. split; [exact E|]. rewrite Hn. vm_compute. reflexivity.
Defined.

Section RoundTrip.

Lemma merge_node_bound lbl pat g :
  self_matching lbl pat ->
  (merge_node lbl pat g).1 ≠ []
  /\ (forall i, i ∈ (merge_node lbl pat g).1 ->
        exists nd, nodes (merge_node lbl pat g).2 !! i = Some nd
                   /\ node_matches lbl pat nd = true)
  /\ rels (merge_node lbl pat g).2 = rels g
  /\ (forall j nd, nodes g !! j = Some nd ->
        nodes (merge_node lbl pat g).2 !! j = Some nd).
Proof.
  intros Hself. unfold merge_node.
  destruct ((map_to_list (matching lbl pat g)).*1) as [|i0 ids] eqn:E; simpl.
  - split; [done|]. split; [|split; [done|]].
    + intros i ->%list_elem_of_singleton. eexists. split; [apply lookup_insert_eq|done].
    + intros j nd Hj. rewrite lookup_insert_ne; [done|].
      intros <-. by rewrite fresh_id_fresh in Hj.
  - split; [done|]. split; [|done].
    intros i Hi. rewrite <- E in Hi.
    apply list_elem_of_fmap in Hi as ([i' nd] & -> & Hin).
    apply elem_of_map_to_list in Hin. apply matching_lookup in Hin as [? ?]. by exists nd.
Qed.

Lemma merge_node_set_bound lbl pat key v g :
  key ∉ pat.*1 -> self_matching lbl pat ->
  (merge_node_set lbl pat key v g).1 ≠ []
  /\ (forall i, i ∈ (merge_node_set lbl pat key v g).1 ->
        exists nd, nodes (merge_node_set lbl pat key v g).2 !! i = Some nd
                   /\ node_matches lbl pat nd = true
                   /\ props nd !! key = Some v)
  /\ rels (merge_node_set lbl pat key v g).2 = rels g
  /\ (forall j nd, nodes g !! j = Some nd ->
        exists nd', nodes (merge_node_set lbl pat key v g).2 !! j = Some nd'
                    /\ labels nd' = labels nd
                    /\ forall k, k ≠ key -> props nd' !! k = props nd !! k).
Proof.
  intros Hkey Hself. unfold merge_node_set.
  destruct ((map_to_list (matching lbl pat g)).*1) as [|i0 ids] eqn:E; simpl.
  - split; [done|]. split; [|split; [done|]].
    + intros i ->%list_elem_of_singleton. eexists. split; [apply lookup_insert_eq|].
      split; [by rewrite node_matches_with_prop|]. simpl. apply lookup_insert_eq.
    + intros j nd Hj. exists nd. rewrite lookup_insert_ne; [done|].
      intros <-. by rewrite fresh_id_fresh in Hj.
  - split; [done|]. split; [|split; [done|]].
    + intros i Hi. rewrite <- E in Hi.
      apply list_elem_of_fmap in Hi as ([i' nd] & -> & Hin).
      apply elem_of_map_to_list in Hin. apply matching_lookup in Hin as [Hn Hm].
      simpl. rewrite lookup_fmap, Hn. simpl. rewrite Hm.
      eexists. split; [done|]. split; [by rewrite node_matches_with_prop|].
      simpl. apply lookup_insert_eq.
    + intros j nd Hj. rewrite lookup_fmap, Hj. simpl.
      destruct (node_matches lbl pat nd); eexists; (split; [done|]); split; try done.
      intros k Hk. simpl. by rewrite lookup_insert_ne.
Qed.

Lemma merge_rel_rels r g r' : r' ∈ rels (merge_rel r g) <-> r' ∈ rels g \/ r' = r.
Proof.
  unfold merge_rel. case_bool_decide; simpl.
  - split; [by left|]. by intros [?| ->].
  - by rewrite elem_of_app, list_elem_of_singleton.
Qed.

Lemma merge_rels_rels rs : forall g r',
  r' ∈ rels (foldl (fun g r => merge_rel r g) g rs) <-> r' ∈ rels g \/ r' ∈ rs.
Proof.
  induction rs as [|r rs IH]; intros g r'; simpl.
  - split; [by left|]. intros [?|?%elem_of_nil]; done.
  - rewrite IH, merge_rel_rels, elem_of_cons. tauto.
Qed.

Lemma pairs_elem (xs ys : list Z) (ty : string) x y :
  x ∈ xs -> y ∈ ys ->
  (x, ty, y) ∈ flat_map (fun a : Z => (fun b : Z => (a, ty, b)) <$> ys) xs.
Proof.
  intros Hx Hy. apply list_elem_of_In, in_flat_map. exists x.
  split; [by apply list_elem_of_In|]. apply list_elem_of_In, list_elem_of_fmap. by exists y.
Qed.

Lemma verse_rows_elem i c b g :
  node_is "Verse" i g = true ->
  (c, "HAS_VERSE", i) ∈ rels g -> node_is "Chapter" c g = true ->
  (b, "HAS_CHAPTER", c) ∈ rels g -> node_is "Book" b g = true ->
  [("book", node_prop b "name" g); ("chapter", node_prop c "number" g);
   ("verse", node_prop i "number" g); ("text", node_prop i "text" g)]
  ∈ verse_rows i g.
Proof.
  intros Hv Hcv Hc Hbc Hb. unfold verse_rows. rewrite Hv.
  apply list_elem_of_In, in_flat_map. exists (c, "HAS_VERSE", i).
  split; [by apply list_elem_of_In|]. rewrite Z.eqb_refl, Hc. simpl.
  apply in_flat_map. exists (b, "HAS_CHAPTER", c).
  split; [by apply list_elem_of_In|]. rewrite Z.eqb_refl, Hb. simpl. by left.
Qed.

Lemma verse_rows_columns i g row :
  row ∈ verse_rows i g ->
  row_get row "verse" = Returned (node_prop i "number" g)
  /\ row_get row "text" = Returned (node_prop i "text" g).
Proof.
  unfold verse_rows. destruct (node_is "Verse" i g); [|by intros ?%elem_of_nil].
  rewrite list_elem_of_In, in_flat_map. intros ([[c ty] v] & _ & Hin).
  destruct (_ && _); [|by destruct Hin].
  apply in_flat_map in Hin as ([[b ty'] c'] & _ & Hin).
  destruct (_ && _); [|by destruct Hin].
  destruct Hin as [<-|[]]. done.
Qed.

Lemma props_match_lookup pat nd key v :
  props_match pat nd = true -> (key, v) ∈ pat ->
  exists v', props nd !! key = Some v' /\ value_eqb v v' = true.
Proof.
  unfold props_match. rewrite forallb_forall. intros H Hin.
  specialize (H (key, v)). simpl in H.
  destruct (props nd !! key) as [v'|]; [|by discriminate H; apply list_elem_of_In].
  exists v'. split; [done|]. apply H. by apply list_elem_of_In.
Qed.

Lemma value_eqb_int z v : value_eqb (Scalar (SInt z)) v = true -> v = Scalar (SInt z).
Proof. destruct v as [[]|]; simpl; try done. by intros ->%Z.eqb_eq. Qed.

Lemma value_eqb_str s v : value_eqb (Scalar (SStr s)) v = true -> v = Scalar (SStr s).
Proof. destruct v as [[]|]; simpl; try done. by intros ->%String.eqb_eq. Qed.

Lemma self_matching_book book : self_matching "Book" (book_pattern (Scalar (SStr book))).
Proof.
  unfold self_matching, node_matches, props_match. simpl.
  rewrite lookup_insert_eq. simpl. by rewrite String.eqb_refl.
Qed.

Lemma self_matching_chapter book chapter :
  self_matching "Chapter" (chapter_pattern (Scalar (SStr book)) chapter).
Proof.
  unfold self_matching, node_matches, props_match. simpl.
  rewrite lookup_insert_eq. rewrite lookup_insert_ne by done. rewrite lookup_insert_eq.
  simpl. by rewrite String.eqb_refl, Z.eqb_refl.
Qed.

Lemma self_matching_verse book chapter verse :
  self_matching "Verse" (verse_pattern (Scalar (SStr book)) chapter verse).
Proof.
  unfold self_matching, node_matches, props_match. simpl.
  rewrite lookup_insert_eq. rewrite lookup_insert_ne by done. rewrite lookup_insert_eq.
  do 2 rewrite lookup_insert_ne by done. rewrite lookup_insert_eq.
  simpl. by rewrite String.eqb_refl, !Z.eqb_refl.
Qed.

Lemma node_matches_label lbl pat nd :
  node_matches lbl pat nd = true -> has_label lbl nd = true /\ props_match pat nd = true.
Proof. unfold node_matches. by intros [? ?]%andb_true_iff. Qed.

(** After the upsert of a verse some node under its key has a row that
    reads back the four values, and every row of that node reads back the
    verse number and the text. *)
Lemma merge_verse_lookup book chapter verse text g :
  exists i,
    is_Some (verses_at book chapter verse
               (merge_verse (Scalar (SStr book)) chapter verse (Scalar (SStr text)) g) !! i)
    /\ [("book", PyStr book); ("chapter", PyInt chapter);
        ("verse", PyInt verse); ("text", PyStr text)]
       ∈ verse_rows i
           (merge_verse (Scalar (SStr book)) chapter verse (Scalar (SStr text)) g)
    /\ node_prop i "number"
         (merge_verse (Scalar (SStr book)) chapter verse (Scalar (SStr text)) g)
       = PyInt verse
    /\ node_prop i "text"
         (merge_verse (Scalar (SStr book)) chapter verse (Scalar (SStr text)) g)
       = PyStr text.
Proof.
  unfold merge_verse.
  pose proof (merge_node_bound "Book" (book_pattern (Scalar (SStr book))) g
                (self_matching_book book)) as (Hbs & Hb & Hr1 & Hk1).
  destruct (merge_node "Book" _ g) as [bs g1]. simpl in *.
  pose proof (merge_node_bound "Chapter" (chapter_pattern (Scalar (SStr book)) chapter) g1
                (self_matching_chapter book chapter)) as (Hcs & Hc & Hr2 & Hk2).
  destruct (merge_node "Chapter" _ g1) as [cs g2]. simpl in *.
  pose proof (merge_node_set_bound "Verse"
                (verse_pattern (Scalar (SStr book)) chapter verse) "text"
                (Scalar (SStr text)) g2
                (text_not_in_verse_pattern _ _ _)
                (self_matching_verse book chapter verse)) as (Hvs & Hv & Hr3 & Hk3).
  destruct (merge_node_set "Verse" _ "text" _ g2) as [vs g3]. simpl in *.
  destruct bs as [|b bs]; [done|]. destruct cs as [|c cs]; [done|].
  destruct vs as [|i vs]; [done|].
  destruct (Hb b) as (nb & Hnb & Hmb); [apply list_elem_of_here|].
  destruct (Hc c) as (nc & Hnc & Hmc); [apply list_elem_of_here|].
  destruct (Hv i) as (nv & Hnv & Hmv & Htext); [apply list_elem_of_here|].
  apply Hk2 in Hnb. destruct (Hk3 _ _ Hnb) as (nb' & Hnb' & Hlb & Hpb).
  destruct (Hk3 _ _ Hnc) as (nc' & Hnc' & Hlc & Hpc).
  apply node_matches_label in Hmb as [Hbl Hbp], Hmc as [Hcl Hcp].
  pose proof Hmv as [Hvl Hvp]%node_matches_label.
  destruct (props_match_lookup _ _ "name" (Scalar (SStr book)) Hbp) as (x & Hx & ->%value_eqb_str);
    [apply list_elem_of_here|].
  destruct (props_match_lookup _ _ "number" (Scalar (SInt chapter)) Hcp) as (y & Hy & ->%value_eqb_int);
    [apply list_elem_of_here|].
  destruct (props_match_lookup _ _ "number" (Scalar (SInt verse)) Hvp) as (z & Hz & ->%value_eqb_int);
    [apply list_elem_of_here|].
  match goal with |- context [foldl _ (foldl _ g3 ?rs1) ?rs2] =>
    set (g5 := foldl (fun g r => merge_rel r g) (foldl (fun g r => merge_rel r g) g3 rs1) rs2);
    assert (nodes g5 = nodes g3) as Hn5 by (unfold g5; by rewrite !merge_rels_nodes);
    assert ((c, "HAS_VERSE", i) ∈ rels g5) as Hcv
      by (unfold g5; apply merge_rels_rels; right;
          apply pairs_elem; apply list_elem_of_here);
    assert ((b, "HAS_CHAPTER", c) ∈ rels g5) as Hbc
      by (unfold g5; apply merge_rels_rels; left; apply merge_rels_rels; right;
          apply pairs_elem; apply list_elem_of_here)
  end.
  assert (node_prop i "number" g5 = PyInt verse) as Pn.
  { unfold node_prop. by rewrite Hn5, Hnv; simpl; rewrite Hz. }
  assert (node_prop i "text" g5 = PyStr text) as Pt.
  { unfold node_prop. by rewrite Hn5, Hnv; simpl; rewrite Htext. }
  assert (node_prop c "number" g5 = PyInt chapter) as Pc.
  { unfold node_prop. rewrite Hn5, Hnc'. simpl. by rewrite Hpc, Hy. }
  assert (node_prop b "name" g5 = PyStr book) as Pb.
  { unfold node_prop. rewrite Hn5, Hnb'. simpl. by rewrite Hpb, Hx. }
  exists i. split; [|split; [|done]].
  - exists nv. unfold verses_at. apply matching_lookup. by rewrite Hn5.
  - rewrite <- Pb, <- Pc, <- Pn, <- Pt. apply verse_rows_elem; try done.
    + unfold node_is. by rewrite Hn5, Hnv.
    + unfold node_is, has_label. by rewrite Hn5, Hnc', Hlc.
    + unfold node_is, has_label. by rewrite Hn5, Hnb', Hlb.
Qed.

End RoundTrip.

(** X12: a verse that was just inserted can be looked up: while the
    database answers, and for a chapter and a verse within the 64-bit
    range, a node stored under the key of the record has a row with the
    book, chapter, verse and text of the record; when the identity of
    that node is a 64-bit integer, as the identities of Neo4j are, the
    lookup by it returns a row with that verse number and that text. *)
Theorem inserted_verse_is_found book chapter verse text counts w :
  healthy w ->
  book ≠ EmptyString -> chapter ≠ 0%Z -> verse ≠ 0%Z -> text ≠ EmptyString ->
  in_int64 chapter = true -> in_int64 verse = true ->
  exists w1 i,
    insert.insert_verse (Examples.verse_record book chapter verse text) counts w
    = (Returned ((counts.1 + 1)%Z, counts.2), w1)
    /\ is_Some (verses_at book chapter verse (neo4j w1) !! i)
    /\ [("book", PyStr book); ("chapter", PyInt chapter);
        ("verse", PyInt verse); ("text", PyStr text)] ∈ verse_rows i (neo4j w1)
    /\ (in_int64 i = true ->
          exists row w2,
            graph.get_verse_by_id i w1 = (Returned (Some row), w2)
            /\ row_get row "verse" = Returned (PyInt verse)
            /\ row_get row "text" = Returned (PyStr text)).
Proof.
  intros Hw Hb Hc Hv Ht Hci Hvi.
  destruct (insert_verse_upserts book chapter verse text counts w Hw Hb Hc Hv Ht Hci Hvi)
    as (w1 & E & Hn & Hw1).
  destruct (merge_verse_lookup book chapter verse text (neo4j w)) as (i & Hi & Hrow & Pn & Pt).
  rewrite <- Hn in Hi, Hrow, Pn, Pt.
  exists w1, i. split; [exact E|]. split; [exact Hi|]. split; [exact Hrow|].
  intros Hii.
  destruct (get_verse_by_id_spec i w1) as (r & w2 & Eg & _ & _ & Hh).
  destruct (Hh Hw1) as [-> _]. unfold lookup_row in Eg. rewrite Hii in Eg.
  destruct (verse_rows i (neo4j w1)) as [|row rows] eqn:Er;
    [by apply elem_of_nil in Hrow|].
  assert (row ∈ verse_rows i (neo4j w1)) as Hin by (rewrite Er; apply list_elem_of_here).
  apply verse_rows_columns in Hin as [Hcv Hct]. rewrite Pn in Hcv. rewrite Pt in Hct.
  exists row, w2. simpl in Eg. done.
Qed.

Lemma inserted_verse_is_found_witness :
  exists row w2,
    graph.get_verse_by_id 2
      (insert.insert_verse (Examples.verse_record "Gen" 1 1 "In the beginning") (0, 0)%Z
         Examples.world0).2
    = (Returned (Some row), w2)
    /\ row_get row "verse" = Returned (PyInt 1)
    /\ row_get row "text" = Returned (PyStr "In the beginning").
Proof.
  destruct (inserted_verse_is_found "Gen" 1 1 "In the beginning" (0, 0)%Z Examples.world0)
    as (w1 & i & E & Hi & _ & Hlook); try done; [constructor|].
  assert (w1 = (insert.insert_verse (Examples.verse_record "Gen" 1 1 "In the beginning")
                  (0, 0)%Z Examples.world0).2) as -> by (by rewrite E).
  assert (i = 2%Z) as ->.
  { apply elem_of_dom in Hi.
    assert (dom (verses_at "Gen" 1 1
                   (neo4j (insert.insert_verse
                             (Examples.verse_record "Gen" 1 1 "In the beginning")
                             (0, 0)%Z Examples.world0).2)) = {[ 2%Z ]}) as Hd
      by (vm_compute; reflexivity).
    rewrite Hd in Hi. by apply elem_of_singleton in Hi. }
  exact (Hlook eq_refl).
Defined.

(** A record whose chapter is beyond the 64-bit range is refused by the
    driver inside the [try]: it is logged and counted as skipped, and the
    loop goes on. *)
Example out_of_range_chapter_is_skipped :
  (insert.insert_loop
     [Examples.verse_record "Gen" (2 ^ 63) 1 "In the beginning";
      Examples.verse_record "Gen" 1 2 "And the earth"]
     (0, 0)%Z Examples.world0).1 = Returned (1, 1)%Z
  /\ size (verses_at "Gen" (2 ^ 63) 1
             (neo4j (insert.insert_loop
                       [Examples.verse_record "Gen" (2 ^ 63) 1 "In the beginning";
                        Examples.verse_record "Gen" 1 2 "And the earth"]
                       (0, 0)%Z Examples.world0).2)) = 0.
Proof. split; vm_compute; reflexivity. Qed.

Lemma keeps_stdout_logger l msg a : keeps stdout (logger l msg a).
Proof. done. Qed.

Lemma keeps_stdout_next_fault : keeps stdout next_fault.
Proof. intros w. unfold next_fault. by destruct (faults w). Qed.

#[local] Hint Resolve keeps_stdout_logger keeps_stdout_next_fault : keeps_db.

Lemma keeps_stdout_get_driver : keeps stdout graph.get_driver.
Proof.
  intros w. unfold graph.get_driver. destruct (_driver w); [done|].
  revert w. keeps_steps. done.
Qed.

Lemma keeps_stdout_session_run q : keeps stdout (session_run q).
Proof. unfold session_run. keeps_steps. intros w. by repeat case_match. Qed.

#[local] Hint Resolve keeps_stdout_get_driver keeps_stdout_session_run : keeps_db.

Lemma keeps_stdout_run_query q : keeps stdout (graph.run_query q).
Proof. unfold graph.run_query. keeps_steps. Qed.

#[local] Hint Resolve keeps_stdout_run_query : keeps_db.

Lemma keeps_stdout_get_all_verses : keeps stdout graph.get_all_verses_for_indexing.
Proof. unfold graph.get_all_verses_for_indexing. keeps_steps. Qed.

Lemma keeps_stdout_insert_verse verse_data counts :
  keeps stdout (insert.insert_verse verse_data counts).
Proof. unfold insert.insert_verse. keeps_steps; done. Qed.

#[local] Hint Resolve keeps_stdout_get_all_verses keeps_stdout_insert_verse : keeps_db.

Lemma keeps_stdout_insert_loop items : forall counts,
  keeps stdout (insert.insert_loop items counts).
Proof. induction items as [|x items IH]; intros counts; simpl; keeps_steps. Qed.

#[local] Hint Resolve keeps_stdout_insert_loop : keeps_db.

Lemma keeps_stdout_insert_bible_data path :
  keeps stdout (insert.insert_bible_data path).
Proof.
  unfold insert.insert_bible_data. keeps_steps; try done.
  intros w. unfold read_json. by repeat case_match.
Qed.

Lemma insert_bible_data_unreadable path w :
  unreadable path w ->
  (insert.insert_bible_data path w).1 = Returned tt
  /\ neo4j (insert.insert_bible_data path w).2 = neo4j w.
Proof.
  unfold unreadable, insert.insert_bible_data, read_json. munfold.
  destruct (files w !! path) as [[v| |]|]; simpl; try done.
  intros [e ->]. simpl. by destruct e.
Qed.

(** X13: the command that ingests a file never raises and prints two lines
    of its own (the progress bar of [tqdm] is not recorded).  For a file
    that exists but is not JSON, or holds a value without a length, the
    second line still says that the insertion finished, though nothing
    was read and the store is as it was. *)
Theorem insert_command_reports_finish_for_unreadable_file json_file_path w :
  exists line w',
    main.insert_bible_command json_file_path w = (Returned tt, w')
    /\ stdout w'
       = stdout w ++ ["Starting Bible data insertion from: {json_file_path}"; line]
    /\ (line = "Data insertion process finished."
        \/ line = "Error during insertion: {e}")
    /\ (is_Some (files w !! json_file_path) -> unreadable json_file_path w ->
          line = "Data insertion process finished." /\ neo4j w' = neo4j w).
Proof.
  unfold main.insert_bible_command. rewrite bind_eq. unfold echo at 1.
  cbv beta iota. unfold try_except. rewrite bind_eq.
  match goal with |- context [insert.insert_bible_data _ ?W] =>
    pose proof (keeps_stdout_insert_bible_data json_file_path W) as Ho;
    pose proof (insert_bible_data_unreadable json_file_path W) as Hu;
    destruct (insert.insert_bible_data json_file_path W) as [[[]|e] w1] end;
    simpl in Ho, Hu; munfold; simpl.
  - eexists _, _. split; [reflexivity|]. simpl. rewrite Ho. simpl.
    split; [by rewrite <- app_assoc|]. split; [by left|].
    intros _ H. split; [done|]. by apply Hu.
  - eexists _, _. split; [reflexivity|]. simpl. rewrite Ho. simpl.
    split; [by rewrite <- app_assoc|]. split; [by right|].
    intros _ H. by destruct (Hu H).
Qed.

Lemma insert_command_reports_finish_for_unreadable_file_witness :
  last (stdout (main.insert_bible_command "bible.json" Examples.empty_file_world).2)
  = Some "Data insertion process finished."
  /\ neo4j (main.insert_bible_command "bible.json" Examples.empty_file_world).2
     = neo4j Examples.empty_file_world.
Proof.
  destruct (insert_command_reports_finish_for_unreadable_file "bible.json"
              Examples.empty_file_world) as (line & w' & E & Ho & _ & H).
  rewrite E. simpl. destruct H as [-> Hn]; [by eexists|vm_compute; exact I|].
  split; [|exact Hn]. rewrite Ho. vm_compute. reflexivity.
Defined.

(* ================================================================== *)
(** ** More on the index (faiss_index.py) *)
(* ================================================================== *)

Section ModelFrame.

Context {T : Type} (P : World -> T).
Hypothesis P_log : forall l w, P (set_log l w) = P w.
Hypothesis P_model : forall m w, P (set_model m w) = P w.

Lemma keeps_get_embedding_model : keeps P faiss_index.get_embedding_model.
Proof.
  assert (forall l msg a, keeps P (logger l msg a)) as HL by (intros l msg a w; apply P_log).
  intros w. unfold faiss_index.get_embedding_model. destruct (_model w); [done|].
  revert w. keeps_steps; try done. intros w. apply P_model.
Qed.

Lemma keeps_load_faiss_index : keeps P faiss_index.load_faiss_index.
Proof.
  assert (forall l msg a, keeps P (logger l msg a)) as HL by (intros l msg a w; apply P_log).
  pose proof keeps_get_embedding_model as HM.
  unfold faiss_index.load_faiss_index. keeps_steps; try done.
  intros w. unfold read_index. by repeat case_match.
Qed.

End ModelFrame.

Lemma get_embedding_model_caches w :
  match faiss_index.get_embedding_model w with
  | (Returned model, w') => _model w' = Some model
  | (Raised _, _) => True
  end.
Proof.
  unfold faiss_index.get_embedding_model.
  destruct (_model w) as [m|] eqn:E; [done|]. munfold. simpl.
  by destruct (SentenceTransformer (env w) config.EMBEDDING_MODEL).
Qed.

(** X14: the embedding model is loaded at most once: a call that returns
    has stored the model it returns, and the next call returns the same
    model without touching the state.  A call raises only when the
    loading of the model does, and then nothing is stored. *)
Theorem embedding_model_is_loaded_once w :
  (forall m w1, faiss_index.get_embedding_model w = (Returned m, w1) ->
     _model w1 = Some m
     /\ faiss_index.get_embedding_model w1 = (Returned m, w1))
  /\ (forall e w1, faiss_index.get_embedding_model w = (Raised e, w1) ->
        _model w1 = None
        /\ SentenceTransformer (env w) config.EMBEDDING_MODEL = Raised e).
Proof.
  unfold faiss_index.get_embedding_model at 1 3. split.
  - intros m w1. destruct (_model w) as [m0|] eqn:E.
    + intros [= <- <-]. split; [done|]. unfold faiss_index.get_embedding_model.
      by rewrite E.
    + munfold. simpl.
      destruct (SentenceTransformer (env w) config.EMBEDDING_MODEL) as [m1|e]; simpl.
      * intros [= <- <-]. split; [done|]. reflexivity.
      * done.
  - intros e w1. destruct (_model w) as [m0|] eqn:E; [done|].
    munfold. simpl.
    destruct (SentenceTransformer (env w) config.EMBEDDING_MODEL) as [m1|e1]; simpl.
    + done.
    + intros [= <- <-]. done.
Qed.

Lemma embedding_model_is_loaded_once_witness :
  _model (faiss_index.get_embedding_model Examples.world0).2 = Some Examples.unit_model
  /\ faiss_index.get_embedding_model (faiss_index.get_embedding_model Examples.world0).2
     = (Returned Examples.unit_model,
        (faiss_index.get_embedding_model Examples.world0).2).
Proof.
  apply (proj1 (embedding_model_is_loaded_once Examples.world0)).
  reflexivity.
Defined.

(** Without a complete index file nothing is loaded. *)
Lemma load_without_index w :
  no_index_file w ->
  exists w', faiss_index.load_faiss_index w = (Returned (None, None), w').
Proof.
  unfold faiss_index.load_faiss_index, path_exists, read_index, no_index_file.
  munfold. cbn -[faiss_index.get_embedding_model]. intros Hno.
  destruct (files w !! config.FAISS_INDEX_PATH) as [c|] eqn:E.
  2:{ rewrite bool_decide_eq_false_2 by (by intros [? ?]). by eexists. }
  rewrite bool_decide_eq_true_2 by (by eexists).
  cbn -[faiss_index.get_embedding_model]. rewrite ?E.
  destruct c as [v|index|]; [by eexists|by destruct (Hno index)|by eexists].
Qed.

(** With a complete index file and the model in memory both are returned. *)
Lemma load_with_index_and_model w index model :
  files w !! config.FAISS_INDEX_PATH = Some (FaissIndex index) ->
  _model w = Some model ->
  exists w', faiss_index.load_faiss_index w = (Returned (Some index, Some model), w').
Proof.
  intros Hf Hm.
  unfold faiss_index.load_faiss_index, path_exists, read_index,
    faiss_index.get_embedding_model.
  munfold. simpl. rewrite Hf.
  rewrite bool_decide_eq_true_2 by (by eexists). simpl. rewrite Hf.
  destruct (is_id_map index); simpl; rewrite Hm; by eexists.
Qed.

(** X15: loading never raises, leaves the store and the files alone and
    returns both parts or neither: the index together with a model, or
    twice [None].  The index is the one in the index file and the model
    is the one kept in memory afterwards; without a complete index file
    nothing is returned and no model is loaded. *)
Theorem load_returns_both_or_neither w :
  exists r w',
    faiss_index.load_faiss_index w = (Returned r, w')
    /\ neo4j w' = neo4j w /\ files w' = files w
    /\ (r = (None, None)
        \/ exists index model,
             r = (Some index, Some model)
             /\ files w !! config.FAISS_INDEX_PATH = Some (FaissIndex index)
             /\ _model w' = Some model)
    /\ (no_index_file w -> r = (None, None) /\ _model w' = _model w).
Proof.
  pose proof (keeps_load_faiss_index neo4j (fun _ _ => eq_refl) (fun _ _ => eq_refl) w) as Hn.
  pose proof (keeps_load_faiss_index files (fun _ _ => eq_refl) (fun _ _ => eq_refl) w) as Hf.
  revert Hn Hf.
  unfold faiss_index.load_faiss_index, path_exists, read_index, no_index_file.
  munfold. cbn -[faiss_index.get_embedding_model].
  destruct (files w !! config.FAISS_INDEX_PATH) as [c|] eqn:E.
  2:{ rewrite bool_decide_eq_false_2 by (by intros [? ?]).
      cbn -[faiss_index.get_embedding_model]. intros Hn Hf.
      eexists _, _. split; [reflexivity|]. split; [exact Hn|]. split; [exact Hf|].
      split; [by left|]. intros _. split; reflexivity. }
  rewrite bool_decide_eq_true_2 by (by eexists).
  cbn -[faiss_index.get_embedding_model]. rewrite ?E.
  destruct c as [v|index|]; cbn -[faiss_index.get_embedding_model].
  - intros Hn Hf.
    eexists _, _. split; [reflexivity|]. split; [exact Hn|]. split; [exact Hf|].
    split; [by left|]. intros _. split; reflexivity.
  - pose proof get_embedding_model_caches as Hrest.
    destruct (is_id_map index); cbn -[faiss_index.get_embedding_model].
    all: match goal with |- context [faiss_index.get_embedding_model ?W] =>
           specialize (Hrest W);
           destruct (faiss_index.get_embedding_model W) as [[model|e] W''] end.
    all: cbn -[faiss_index.get_embedding_model]; intros Hn Hf;
      eexists _, _; (split; [reflexivity|]);
      (split; [exact Hn|]); (split; [exact Hf|]); split;
      try (intros Hno; by destruct (Hno index)).
    all: try (by left).
    all: right; by exists index, model.
  - intros Hn Hf.
    eexists _, _. split; [reflexivity|]. split; [exact Hn|]. split; [exact Hf|].
    split; [by left|]. intros _. split; reflexivity.
Qed.

Lemma load_returns_both_or_neither_witness :
  (faiss_index.load_faiss_index Examples.world0).1 = Returned (None, None).
Proof.
  destruct (load_returns_both_or_neither Examples.world0) as (r & w' & E & _ & _ & _ & H).
  rewrite E. simpl. f_equal. apply H. intros index. vm_compute. discriminate.
Defined.

Lemma keeps_model_logger l msg a : keeps _model (logger l msg a).
Proof. done. Qed.

Lemma keeps_model_next_fault : keeps _model next_fault.
Proof. intros w. unfold next_fault. by destruct (faults w). Qed.

#[local] Hint Resolve keeps_model_logger keeps_model_next_fault : keeps_db.

Lemma keeps_model_build_index dimension embeddings node_ids :
  keeps _model (faiss_index.build_index dimension embeddings node_ids).
Proof. unfold faiss_index.build_index. keeps_steps; done. Qed.

Lemma keeps_model_save_index index : keeps _model (faiss_index.save_index index).
Proof. unfold faiss_index.save_index, write_index. keeps_steps; done. Qed.

Lemma generate_embeddings_caches texts w r w' :
  faiss_index.generate_embeddings texts w = (Returned r, w') -> is_Some (_model w').
Proof.
  unfold faiss_index.generate_embeddings. intros H.
  apply bind_inv in H as (model & w1 & Hm & H).
  pose proof (get_embedding_model_caches w) as Hc. rewrite Hm in Hc.
  match type of H with ?m w1 = _ =>
    assert (keeps _model m) as Hk by keeps_steps end.
  specialize (Hk w1). rewrite H in Hk. simpl in Hk. rewrite Hk, Hc. by eexists.
Qed.

Lemma safe_get_all_verses : safe graph.get_all_verses_for_indexing.
Proof. unfold graph.get_all_verses_for_indexing. safe_steps. Qed.

#[local] Hint Resolve safe_get_all_verses : safe_db.


Lemma get_embedding_model_inv w m w1 :
  faiss_index.get_embedding_model w = (Returned m, w1) ->
  model_for w = Returned m /\ _model w1 = Some m
  /\ env w1 = env w /\ files w1 = files w.
Proof.
  unfold faiss_index.get_embedding_model, model_for.
  destruct (_model w) as [m0|] eqn:E; [by intros [= <- <-]|].
  munfold. simpl.
  destruct (SentenceTransformer (env w) config.EMBEDDING_MODEL); simpl; [|done].
  by intros [= <- <-].
Qed.

Lemma generate_embeddings_inv texts w embeddings dimension w1 :
  faiss_index.generate_embeddings texts w = (Returned (embeddings, dimension), w1) ->
  exists model raw,
    model_for w = Returned model
    /\ encode model texts = Returned raw
    /\ as_float32_matrix raw = Returned (embeddings, dimension)
    /\ _model w1 = Some model /\ env w1 = env w /\ files w1 = files w.
Proof.
  unfold faiss_index.generate_embeddings. intros H.
  apply bind_inv in H as (model & w2 & Hm & H).
  apply get_embedding_model_inv in Hm as (Hm & Hc & He & Hf).
  apply bind_inv in H as ([] & w3 & Hl & H). unfold logger in Hl. injection Hl as <-.
  apply bind_inv in H as (raw & w4 & Hr & H). unfold lift in Hr. injection Hr as Hr <-.
  apply bind_inv in H as (shaped & w5 & Hs & H). unfold lift in Hs. injection Hs as Hs <-.
  apply bind_inv in H as ([] & w6 & Hl & H). unfold logger in Hl. injection Hl as <-.
  unfold ret in H. injection H as -> <-.
  by exists model, raw.
Qed.

Lemma build_index_inv dimension embeddings node_ids w index w1 :
  faiss_index.build_index dimension embeddings node_ids w = (Returned index, w1) ->
  and_then (IndexFlatL2 (env w) dimension) (fun flat =>
    and_then (IndexIDMap (env w) flat) (fun index_mapped =>
      and_then (as_int64 (env w) node_ids) (fun ids =>
        add_with_ids index_mapped embeddings ids))) = Returned index
  /\ _model w1 = _model w /\ files w1 = files w.
Proof.
  unfold faiss_index.build_index. intros H.
  apply bind_inv in H as (flat & w2 & H1 & H). injection H1 as H1 <-.
  apply bind_inv in H as (im & w3 & H2 & H). injection H2 as H2 <-.
  apply bind_inv in H as (ids & w4 & H3 & H). injection H3 as H3 <-.
  apply bind_inv in H as (im' & w5 & H4 & H). unfold lift in H4. injection H4 as H4 <-.
  apply bind_inv in H as ([] & w6 & Hl & H). unfold logger in Hl. injection Hl as <-.
  unfold ret in H. injection H as -> <-.
  unfold and_then. by rewrite H1, H2, H3, H4.
Qed.

(** A build that returned [True] built the index owed for the store and
    replaced the index file. *)
Lemma build_true w w' :
  faiss_index.build_and_save_index w = (Returned true, w') -> success_report w w'.
Proof.
  unfold faiss_index.build_and_save_index. intros H.
  apply bind_inv in H as ([] & w1 & Hl & H). unfold logger in Hl. injection Hl as <-.
  apply bind_inv in H as ([] & w2 & Hl & H). unfold logger in Hl. injection Hl as <-.
  apply bind_inv in H as (vs & w3 & Hv & H).
  match type of Hv with graph.get_all_verses_for_indexing ?W = _ =>
    destruct (get_all_verses_spec W) as (vs' & w3' & E & Hf & Hvs) end.
  rewrite Hv in E. injection E as <- <-. rewrite id_text_pairs_all in Hvs.
  destruct Hf as (He3 & Hn3 & Hf3 & Hm3 & _). simpl in He3, Hn3, Hf3, Hm3.
  destruct vs as [|v vs]; [by apply bind_inv in H as (_ & ? & _ & [=])|].
  destruct Hvs as [|[= Hvs]]; [done|].
  apply bind_inv in H as ([] & w4 & Hl & H). unfold logger in Hl. injection Hl as <-.
  apply bind_inv in H as ([[embeddings dimension]|] & w5 & H2 & H); [|done].
  apply attempt_inv, generate_embeddings_inv in H2
    as (model & raw & Hmodel & Hraw & Hshape & Hm5 & He5 & Hf5).
  simpl in Hm5, He5, Hf5.
  apply bind_inv in H as ([index|] & w6 & H3 & H); [|done].
  apply attempt_inv, build_index_inv in H3 as (Hindex & Hm6 & Hf6).
  apply bind_inv in H as ([u|] & w7 & H4 & H); [|done].
  apply attempt_inv in H4.
  pose proof (keeps_model_save_index index w6) as K4.
  pose proof (save_index_files index w6) as F4.
  rewrite H4 in K4, F4. simpl in K4.
  apply bind_inv in H as ([] & w8 & Hl & H).
  unfold ret in H. injection H as <-.
  unfold logger in Hl. injection Hl as <-.
  exists model, index. split; [|split; [|split]].
  - unfold model_for in *. simpl in Hmodel. by rewrite Hm3, He3 in Hmodel.
  - unfold index_of. rewrite Hvs, Hraw. cbn [and_then]. rewrite Hshape.
    cbn [and_then fst snd]. rewrite He5, He3 in Hindex. exact Hindex.
  - simpl. congruence.
  - simpl. rewrite Hf6, Hf5, Hf3 in F4. exact F4.
Qed.




Lemma load_truncated w :
  files w !! config.FAISS_INDEX_PATH = Some Truncated ->
  exists w', faiss_index.load_faiss_index w = (Returned (None, None), w').
Proof.
  intros Hf. unfold faiss_index.load_faiss_index, path_exists, read_index.
  munfold. cbn -[faiss_index.get_embedding_model]. rewrite Hf.
  rewrite bool_decide_eq_true_2 by (by eexists).
  cbn -[faiss_index.get_embedding_model]. rewrite Hf. by eexists.
Qed.

(** X16: after a build that returned [True] the model is in memory, and
    loading succeeds exactly when the data reached the index file: it
    then returns the index owed for the store with that model.  When the
    data was lost while the file was closed, the file is incomplete and
    loading right after the build returns nothing. *)
Theorem built_index_loads_unless_write_was_lost w w1 :
  faiss_index.build_and_save_index w = (Returned true, w1) ->
  exists model,
    _model w1 = Some model
    /\ ((exists index w2,
           index_of (env w) model (neo4j w) = Returned index
           /\ files w1 !! config.FAISS_INDEX_PATH = Some (FaissIndex index)
           /\ faiss_index.load_faiss_index w1 = (Returned (Some index, Some model), w2))
        \/ (files w1 !! config.FAISS_INDEX_PATH = Some Truncated
            /\ exists w2,
                 faiss_index.load_faiss_index w1 = (Returned (None, None), w2))).
Proof.
  intros H. destruct (build_true w w1 H) as (model & index & _ & Hi & Hm & [Hf|Hf]).
  - exists model. split; [done|]. left.
    assert (files w1 !! config.FAISS_INDEX_PATH = Some (FaissIndex index)) as Hl
      by (rewrite Hf; apply lookup_insert_eq).
    destruct (load_with_index_and_model w1 index model Hl Hm) as [w2 E].
    by exists index, w2.
  - exists model. split; [done|]. right.
    assert (files w1 !! config.FAISS_INDEX_PATH = Some Truncated) as Hl
      by (rewrite Hf; apply lookup_insert_eq).
    split; [done|]. by apply load_truncated.
Qed.

Lemma built_index_loads_unless_write_was_lost_witness :
  exists model,
    _model (faiss_index.build_and_save_index Examples.lost_write_world).2 = Some model
    /\ files (faiss_index.build_and_save_index Examples.lost_write_world).2
       !! config.FAISS_INDEX_PATH = Some Truncated
    /\ (faiss_index.load_faiss_index
          (faiss_index.build_and_save_index Examples.lost_write_world).2).1
       = Returned (None, None).
Proof.
  destruct (built_index_loads_unless_write_was_lost Examples.lost_write_world
              (faiss_index.build_and_save_index Examples.lost_write_world).2)
    as (model & Hm & [(index & w2 & _ & Hf & _)|(Hf & w2 & E)]);
    [vm_compute; reflexivity| |].
  - vm_compute in Hf. discriminate Hf.
  - exists model. split; [exact Hm|]. split; [exact Hf|]. by rewrite E.
Defined.

(** On a database that answers and a disk that takes the data, the build
    of the examples is loadable. *)
Example built_index_is_loadable :
  exists index model w2,
    faiss_index.load_faiss_index
      (faiss_index.build_and_save_index Examples.genesis_world).2
    = (Returned (Some index, Some model), w2).
Proof. eexists _, _, _. vm_compute. reflexivity. Qed.

Lemma keeps_stdout_get_embedding_model : keeps stdout faiss_index.get_embedding_model.
Proof.
  intros w. unfold faiss_index.get_embedding_model. destruct (_model w); [done|].
  revert w. keeps_steps; done.
Qed.

Lemma keeps_stdout_write_index index path : keeps stdout (write_index index path).
Proof. unfold write_index. keeps_steps; done. Qed.

#[local] Hint Resolve keeps_stdout_get_embedding_model keeps_stdout_write_index : keeps_db.



(** The success line over an incomplete index file. *)
Example success_is_announced_over_incomplete_file :
  last (stdout (main.build_faiss_index_command Examples.lost_write_world).2)
  = Some "FAISS index successfully built and saved to {config.FAISS_INDEX_PATH}"
  /\ files (main.build_faiss_index_command Examples.lost_write_world).2
     !! config.FAISS_INDEX_PATH = Some Truncated.
Proof. split; vm_compute; reflexivity. Qed.

(* ================================================================== *)
(** ** More on the search and its shell (search.py) *)
(* ================================================================== *)

Lemma keeps_unlogged_logger l msg a : keeps unlogged (logger l msg a).
Proof. done. Qed.

#[local] Hint Resolve keeps_unlogged_logger : keeps_db.

Lemma search_only_logs query index model k :
  keeps unlogged (search.search_similar_verses query index model k).
Proof. unfold search.search_similar_verses. keeps_steps. Qed.

Lemma search_safe query index model k :
  safe (search.search_similar_verses query index model k).
Proof. unfold search.search_similar_verses. safe_steps. Qed.

(** X18: the search never raises, whatever the model and the index do, and
    the only trace it leaves is in the log. *)
Theorem search_never_raises_and_only_logs query index model k w :
  exists hits w',
    search.search_similar_verses query index model k w = (Returned hits, w')
    /\ w' = set_log (log w') w.
Proof.
  destruct (search_safe query index model k w) as [hits Hh].
  pose proof (search_only_logs query index model k w) as Hk.
  destruct (search.search_similar_verses query index model k w) as [r w'].
  simpl in *. subst r. exists hits, w'. split; [done|]. by apply unlogged_eq.
Qed.

(** X19: a query that the model cannot embed or the index cannot answer, or
    whose row of distances is not empty but shorter than its row of
    identifiers, gives
    the empty list, like a query without a match; the error is only in
    the log. *)
Theorem failing_search_returns_empty_list query index model k w e :
  query ≠ EmptyString ->
  encode model [PyStr query] = Raised e
  \/ (encode model [PyStr query] = Returned [] /\ e = IndexError)
  \/ (exists v vs, encode model [PyStr query] = Returned (v :: vs)
        /\ (search index [map astype_float32 v] k = Raised e
            \/ exists D0 Ds I0 Is,
                 search index [map astype_float32 v] k = Returned (D0 :: Ds, I0 :: Is)
                 /\ 0 < length D0 < length I0 /\ e = IndexError)) ->
  (search.search_similar_verses query (Some index) (Some model) k w).1 = Returned []
  /\ last_log (search.search_similar_verses query (Some index) (Some model) k w).2
     = Some {| lvl := ERROR;
               template := "Error during FAISS search for query '{query}': {e}";
               args := [PyStr query; exc_arg e] |}.
Proof.
  intros Hq H. unfold search.search_similar_verses.
  destruct (String.eqb_spec query EmptyString) as [->|_]; [done|].
  destruct H as [He|[[He ->]|(v & vs & He & [Hs|(D0 & Ds & I0 & Is & Hs & Hlen & ->)])]];
    munfold; simpl; rewrite He; simpl; rewrite ?Hs; simpl;
    try (split; [reflexivity|]; eapply last_log_snoc; simpl; reflexivity).
  rewrite !array_size_cons.
  destruct I0 as [|i I0']; [simpl in Hlen; lia|].
  destruct D0 as [|d D0']; [simpl in Hlen; lia|].
  cbn [length Nat.add Nat.ltb Nat.leb andb].
  rewrite collect_hits_short by lia. simpl.
  split; [reflexivity|]. eapply last_log_snoc; simpl; reflexivity.
Qed.

Lemma failing_search_returns_empty_list_witness :
  (search.search_similar_verses "love" (Some Examples.broken_index) (Some Examples.unit_model) 5
     Examples.world0).1 = Returned []
  /\ last_log (search.search_similar_verses "love" (Some Examples.broken_index)
                 (Some Examples.unit_model) 5 Examples.world0).2
     = Some {| lvl := ERROR;
               template := "Error during FAISS search for query '{query}': {e}";
               args := [PyStr "love"; exc_arg FaissError] |}.
Proof.
  apply (failing_search_returns_empty_list "love" Examples.broken_index Examples.unit_model 5
           Examples.world0 FaissError); [done|].
  right. right. exists [1%float; 0%float], []. split; [reflexivity|]. left. reflexivity.
Defined.

Lemma print_results_printable details : forall w,
  Forall printable details ->
  search.print_results details w
  = (Returned tt,
     set_stdout (stdout w ++ concat ((fun _ => result_lines) <$> details)) w).
Proof.
  induction details as [|d ds IH]; intros w Hall.
  - simpl. unfold ret, set_stdout. rewrite app_nil_r. by destruct w.
  - apply Forall_cons in Hall as [[Hdom [f Hf]] Hall].
    assert (forall key, key ∈ detail_keys -> is_Some (d !! key)) as Hk.
    { intros key Hin. apply elem_of_dom. by rewrite Hdom. }
    destruct (Hk "book") as [b Hb]; [unfold detail_keys; set_solver|].
    destruct (Hk "chapter") as [c Hc]; [unfold detail_keys; set_solver|].
    destruct (Hk "verse") as [v Hv]; [unfold detail_keys; set_solver|].
    destruct (Hk "text") as [t Ht]; [unfold detail_keys; set_solver|].
    cbn [search.print_results]. unfold search.dict_getitem.
    rewrite Hb, Hc, Hv, Ht, Hf. munfold. cbn [search.format_4f].
    cbv beta iota. rewrite IH by done. simpl. f_equal.
    unfold set_stdout. simpl. f_equal. by rewrite <- !app_assoc.
Qed.

Lemma resolved_printable g h d : resolve g h = Some d -> printable d.
Proof. intros H. destruct (resolve_detail g h d H) as [Hd Hdom]. split; [done|by eexists]. Qed.

(** X20: whatever the lookup of the hits returns can be printed: the loop
    that prints the results finds every key it reads, formats every
    distance, and prints three lines per result. *)
Theorem details_always_print hits w details w1 :
  search.get_verse_details_from_neo4j hits w = (Returned details, w1) ->
  search.print_results details w1
  = (Returned tt,
     set_stdout (stdout w1 ++ concat ((fun _ => result_lines) <$> details)) w1).
Proof.
  intros H. apply print_results_printable.
  unfold search.get_verse_details_from_neo4j in H.
  destruct hits as [|h hits]; [unfold ret in H; injection H as <- <-; constructor|].
  apply bind_inv in H as ([] & w2 & _ & H).
  apply bind_inv in H as (out & w3 & Hd & H).
  apply bind_inv in H as ([] & w4 & _ & H). unfold ret in H. injection H as <- <-.
  destruct (details_loop_spec (h :: hits) [] w2) as (kept & out' & w' & E & _ & _ & HF & _).
  rewrite Hd in E. injection E as -> <-. simpl.
  clear -HF. induction HF; constructor; [by eapply resolved_printable|done].
Qed.

Lemma details_always_print_witness :
  match search.get_verse_details_from_neo4j Examples.dangling_hits Examples.genesis_world with
  | (Returned details, w1) => (search.print_results details w1).1 = Returned tt
  | (Raised _, _) => False
  end.
Proof.
  pose proof (details_always_print Examples.dangling_hits Examples.genesis_world) as H.
  destruct (search.get_verse_details_from_neo4j Examples.dangling_hits
              Examples.genesis_world) as [[details|e] w1] eqn:E.
  - by rewrite (H details w1 eq_refl).
  - vm_compute in E. discriminate E.
Defined.

Lemma keeps_persistent_logger l msg a : keeps persistent (logger l msg a).
Proof. done. Qed.

Lemma keeps_persistent_echo line : keeps persistent (echo line).
Proof. done. Qed.

Lemma keeps_persistent_input prompt : keeps persistent (input prompt).
Proof. intros w. unfold input. by destruct (stdin w). Qed.

Lemma keeps_persistent_search query index model k :
  keeps persistent (search.search_similar_verses query index model k).
Proof. apply keeps_of_unlogged; [done|apply search_only_logs]. Qed.

Lemma keeps_persistent_details_loop hits acc :
  keeps persistent (search.details_loop hits acc).
Proof.
  intros w. destruct (details_loop_spec hits acc w) as (kept & out & w' & E & F & _).
  rewrite E. simpl. destruct F as (_ & Hn & Hf & _). unfold persistent. by rewrite Hn, Hf.
Qed.

#[local] Hint Resolve keeps_persistent_logger keeps_persistent_echo keeps_persistent_input
  keeps_persistent_search keeps_persistent_details_loop : keeps_db.

Lemma keeps_persistent_details hits :
  keeps persistent (search.get_verse_details_from_neo4j hits).
Proof. unfold search.get_verse_details_from_neo4j. keeps_steps. Qed.

Lemma keeps_persistent_print_results details :
  keeps persistent (search.print_results details).
Proof. induction details as [|d ds IH]; simpl; keeps_steps. Qed.

Lemma keeps_persistent_load : keeps persistent faiss_index.load_faiss_index.
Proof. by apply keeps_load_faiss_index. Qed.

#[local] Hint Resolve keeps_persistent_details keeps_persistent_print_results
  keeps_persistent_load : keeps_db.

Section ShellFacts.

Variable py_strip : string -> string.

Lemma keeps_persistent_shell_turn index model :
  keeps persistent (search.shell_turn py_strip index model).
Proof. unfold search.shell_turn. keeps_steps. Qed.

Hint Resolve keeps_persistent_shell_turn : keeps_db.

Lemma keeps_persistent_shell_loop fuel index model :
  keeps persistent (search.shell_loop py_strip fuel index model).
Proof. induction fuel as [|fuel IH]; simpl; keeps_steps. Qed.

Hint Resolve keeps_persistent_shell_loop : keeps_db.

Lemma keeps_persistent_shell fuel :
  keeps persistent (main.run_search_shell_command py_strip fuel).
Proof.
  unfold main.run_search_shell_command, search.run_search_shell. keeps_steps.
Qed.

Lemma safe_shell fuel : safe (main.run_search_shell_command py_strip fuel).
Proof. unfold main.run_search_shell_command. safe_steps. Qed.

End ShellFacts.

(** X21: the search shell raises no [Exception] and, however long it runs and
    whatever is typed, leaves the store and the files as they were. *)
Theorem shell_never_raises_nor_writes py_strip fuel w :
  exists r w',
    main.run_search_shell_command py_strip fuel w = (Returned r, w')
    /\ neo4j w' = neo4j w /\ files w' = files w.
Proof.
  destruct (safe_shell py_strip fuel w) as [r Hr].
  pose proof (keeps_persistent_shell py_strip fuel w) as Hk.
  destruct (main.run_search_shell_command py_strip fuel w) as [o w'].
  simpl in *. subst o. exists r, w'. unfold persistent in Hk.
  by injection Hk as -> ->.
Qed.

Section ShellTurns.

Variable py_strip : string -> string.

Lemma shell_loop_step fuel index model w :
  search.shell_loop py_strip (S fuel) index model w
  = match search.shell_turn py_strip index model w with
    | (Returned search.Continue, w1) => search.shell_loop py_strip fuel index model w1
    | (Returned search.Break, w1) => (Returned (Some tt), w1)
    | (Raised e, w1) => (Raised e, w1)
    end.
Proof.
  simpl. unfold bind at 1.
  by destruct (search.shell_turn py_strip index model w) as [[[]|e] w1].
Qed.

Lemma shell_turn_eof index model w :
  stdin w = [] ->
  search.shell_turn py_strip index model w
  = (Returned search.Continue,
     set_stdout (stdout w ++ ["\nSearch> "; "An error occurred: {e}"])
       (set_log (log w ++ [{| lvl := ERROR;
                              template := "An error occurred in the search shell: {e}";
                              args := [exc_arg EOFError] |}]) w)).
Proof.
  intros Hin. unfold search.shell_turn, try_except at 1. unfold bind at 1, input.
  rewrite Hin. munfold. simpl. unfold set_stdout, set_log. simpl. by rewrite <- ?app_assoc.
Qed.

Lemma shell_turn_blank index model w line rest :
  stdin w = line :: rest -> py_strip line = EmptyString ->
  search.shell_turn py_strip index model w
  = (Returned search.Continue,
     set_stdin rest (set_stdout (stdout w ++ ["\nSearch> "]) w)).
Proof.
  intros Hin Hb. unfold search.shell_turn, try_except at 1. unfold bind at 1, input.
  rewrite Hin. cbv beta iota. rewrite Hb. reflexivity.
Qed.

Lemma shell_turn_exit index model w line rest :
  stdin w = line :: rest ->
  py_lower (py_strip line) = "exit" \/ py_lower (py_strip line) = "quit" ->
  search.shell_turn py_strip index model w
  = (Returned search.Break,
     set_stdout (stdout w ++ ["\nSearch> "; "Exiting search shell."]) (set_stdin rest w)).
Proof.
  intros Hin Hq. unfold search.shell_turn, try_except at 1. unfold bind at 1, input.
  rewrite Hin. cbv beta iota.
  assert (String.eqb (py_lower (py_strip line)) "exit"
          || String.eqb (py_lower (py_strip line)) "quit" = true) as ->.
  { destruct Hq as [-> | ->]; reflexivity. }
  munfold. simpl. unfold set_stdout, set_stdin. simpl. by rewrite <- ?app_assoc.
Qed.

End ShellTurns.

(** X22: at the end of the input the loop of the shell does not stop: every
    turn fails to read, reports the error and starts over, so that after
    any number of turns it is still running. *)
Theorem shell_spins_at_end_of_input py_strip index model fuel : forall w,
  stdin w = [] ->
  exists w',
    search.shell_loop py_strip fuel index model w = (Returned None, w')
    /\ stdin w' = []
    /\ length (log w') = length (log w) + fuel
    /\ stdout w'
       = stdout w ++ concat (replicate fuel ["\nSearch> "; "An error occurred: {e}"]).
Proof.
  induction fuel as [|fuel IH]; intros w Hin.
  - exists w. simpl. by rewrite app_nil_r.
  - rewrite shell_loop_step, shell_turn_eof by done.
    match goal with |- context [search.shell_loop _ _ _ _ ?W] =>
      destruct (IH W) as (w' & E & Hs & Hl & Ho); [done|] end.
    exists w'. rewrite E. split; [done|]. split; [done|].
    rewrite Hl, Ho. simpl. rewrite length_app. simpl.
    split; [lia|]. by rewrite <- !app_assoc.
Qed.

Lemma shell_spins_at_end_of_input_witness :
  exists w',
    search.shell_loop (fun s => s) 3 Examples.tie_index Examples.unit_model Examples.world0
    = (Returned None, w')
    /\ stdin w' = []
    /\ length (log w') = length (log Examples.world0) + 3
    /\ stdout w'
       = stdout Examples.world0
         ++ concat (replicate 3 ["\nSearch> "; "An error occurred: {e}"]).
Proof.
  apply (shell_spins_at_end_of_input (fun s => s) Examples.tie_index Examples.unit_model 3
           Examples.world0).
  reflexivity.
Defined.

(** X23: after any number of blank lines, a line that reads exit or quit
    ends the shell: the lines up to it are consumed, nothing is searched
    or logged, and the shell says goodbye. *)
Theorem shell_stops_at_exit py_strip index model blanks line rest fuel : forall w,
  Forall (fun l => py_strip l = EmptyString) blanks ->
  py_lower (py_strip line) = "exit" \/ py_lower (py_strip line) = "quit" ->
  stdin w = blanks ++ line :: rest ->
  exists w',
    search.shell_loop py_strip (S (length blanks) + fuel) index model w
    = (Returned (Some tt), w')
    /\ stdin w' = rest
    /\ log w' = log w
    /\ stdout w'
       = stdout w ++ replicate (S (length blanks)) "\nSearch> " ++ ["Exiting search shell."].
Proof.
  induction blanks as [|b blanks IH]; intros w Hb Hq Hin.
  - cbn [length Nat.add]. rewrite shell_loop_step.
    rewrite (shell_turn_exit _ _ _ _ line rest) by done.
    eexists. split; [reflexivity|]. done.
  - apply Forall_cons in Hb as [Hb1 Hb].
    cbn [length Nat.add]. rewrite shell_loop_step.
    rewrite (shell_turn_blank _ _ _ _ b (blanks ++ line :: rest)) by done.
    match goal with |- context [search.shell_loop _ _ _ _ ?W] =>
      destruct (IH W Hb Hq) as (w' & E & Hs & Hl & Ho); [done|] end.
    cbn [Nat.add] in E. exists w'. rewrite E. split; [done|]. split; [done|].
    split; [done|]. rewrite Ho. simpl. by rewrite <- app_assoc.
Qed.

Lemma shell_stops_at_exit_witness :
  exists w',
    search.shell_loop (fun s => s) (S (length [EmptyString]) + 0)
      Examples.tie_index Examples.unit_model
      (set_stdin [EmptyString; "EXIT"; "love"] Examples.world0)
    = (Returned (Some tt), w')
    /\ stdin w' = ["love"]
    /\ log w' = log (set_stdin [EmptyString; "EXIT"; "love"] Examples.world0)
    /\ stdout w'
       = stdout (set_stdin [EmptyString; "EXIT"; "love"] Examples.world0)
         ++ replicate (S (length [EmptyString])) "\nSearch> " ++ ["Exiting search shell."].
Proof.
  apply (shell_stops_at_exit (fun s => s) Examples.tie_index Examples.unit_model
           [EmptyString] "EXIT" ["love"] 0
           (set_stdin [EmptyString; "EXIT"; "love"] Examples.world0)).
  - repeat constructor.
  - left. reflexivity.
  - reflexivity.
Defined.

(** X24: without a complete index file the shell gives up before its first
    prompt: it reads no line and prints only the advice to build the
    index. *)
Theorem shell_without_index_reads_nothing py_strip fuel w :
  no_index_file w ->
  exists w',
    main.run_search_shell_command py_strip fuel w = (Returned (Some tt), w')
    /\ stdin w' = stdin w
    /\ stdout w'
       = stdout w
         ++ ["Launching interactive search shell...";
             "Error: Could not load necessary search components. Please build the index first using 'build-faiss-index'."].
Proof.
  intros Hno. unfold main.run_search_shell_command, search.run_search_shell.
  rewrite bind_eq. unfold echo at 1. cbv beta iota.
  unfold try_except. mstep. rewrite bind_eq.
  match goal with |- context [faiss_index.load_faiss_index ?W] =>
    destruct (load_without_index W) as (w1 & E); [exact Hno|];
    pose proof (keeps_load_faiss_index stdout (fun _ _ => eq_refl) (fun _ _ => eq_refl) W)
      as Ho;
    pose proof (keeps_load_faiss_index stdin (fun _ _ => eq_refl) (fun _ _ => eq_refl) W)
      as Hi end.
  rewrite E in *. simpl in Ho, Hi. cbv beta iota. mstep.
  unfold echo, ret, bind. simpl. eexists. split; [reflexivity|]. simpl.
  rewrite Hi, Ho. simpl. split; [done|]. by rewrite <- app_assoc.
Qed.

Lemma shell_without_index_reads_nothing_witness :
  exists w',
    main.run_search_shell_command (fun s => s) 3 (set_stdin ["love"] Examples.world0)
    = (Returned (Some tt), w')
    /\ stdin w' = stdin (set_stdin ["love"] Examples.world0)
    /\ stdout w'
       = stdout (set_stdin ["love"] Examples.world0)
         ++ ["Launching interactive search shell...";
             "Error: Could not load necessary search components. Please build the index first using 'build-faiss-index'."].
Proof.
  apply (shell_without_index_reads_nothing (fun s => s) 3
           (set_stdin ["love"] Examples.world0)).
  intros index. vm_compute. discriminate.
Defined.
